(** * Stereological corrections of vesicle size distributions

    A shallow embedding of [code/stereology.py] (the bin builder [Bins], the
    distribution base [VSD] and the three corrections [ChengLemlich],
    [SahagianProussevitch] and [Saltikov]) together with the properties the
    specification states about it, and of the classes of
    [code/vesicle_analysis.py] that load the measurements and apply the
    corrections to them ([Image], [Scan] and [Sample]).

    Numbers.  NumPy's float64 arrays are modelled as lists of real numbers:
    every arithmetic operation is the exact one, so rounding, overflow,
    [inf] and [nan] are outside the model.  Where the two disagree on a
    value the code can reach (division by zero, logarithm of a non-positive
    number) the theorems carry the hypothesis that excludes it.

    Effects.  The code raises exceptions ([IndexError] from an index out of
    range, [ValueError] from NumPy) and reports advisories through
    [warnings.warn].  Both are kept: a computation takes the advisories
    issued so far and either raises or returns a value with the advisories
    extended. *)

From Stdlib Require Import Floats.
From Stdlib Require Import String.
From Stdlib Require Import Reals Lra Lia ZArith Bool Arith List Sorted.
From Stdlib Require Import Permutation.
Import ListNotations.

Open Scope R_scope.

(** ** Exceptions and advisories *)

Module Py.

Inductive exn : Type :=
| IndexError
| ValueError.

(** The three messages the module passes to [warnings.warn]. *)
Inductive warning : Type :=
| SmallerThanAnyBinEdge (count : nat)
    (* '{0} vesicles are smaller than any bin edge' *)
| BinDoesNotContainVesicles (i : nat)
    (* 'Bin {} does not contain vesicles, using bin center' *)
| InputLengthShouldBe (correction expected : string).
    (* 'Input length for {C&L,S&P,S} correction should be ...' *)

Definition M (A : Type) : Type := list warning -> exn + A * list warning.

Definition ret {A} (a : A) : M A := fun w => inr (a, w).

Definition bind {A B} (m : M A) (f : A -> M B) : M B :=
  fun w => match m w with
           | inl e => inl e
           | inr (a, w') => f a w'
           end.

Definition raise {A} (e : exn) : M A := fun _ => inl e.

Definition warn (x : warning) : M unit := fun w => inr (tt, w ++ [x]).

(** [for i in l: s = body(i, s)] *)
Fixpoint for_in {S} (l : list nat) (body : nat -> S -> M S) (s : S) : M S :=
  match l with
  | [] => ret s
  | i :: l' => bind (body i s) (for_in l' body)
  end.

(** [a[i]] for a non-negative index. *)
Definition getitem {A} (a : list A) (i : nat) : M A :=
  match nth_error a i with
  | Some x => ret x
  | None => raise IndexError
  end.

Fixpoint update {A} (a : list A) (i : nat) (x : A) : list A :=
  match a, i with
  | [], _ => []
  | _ :: a', O => x :: a'
  | y :: a', S i' => y :: update a' i' x
  end.

(** [a[i] = x] for a non-negative index. *)
Definition setitem {A} (a : list A) (i : nat) (x : A) : M (list A) :=
  if (i <? length a)%nat then ret (update a i x) else raise IndexError.

End Py.

Notation "x <- m ;; k" := (Py.bind m (fun x => k))
  (at level 61, m at next level, right associativity).
Notation "m ;;; k" := (Py.bind m (fun _ => k))
  (at level 61, right associativity).

(** ** The NumPy functions the module calls *)

Module np.

(** [np.arange(n)] and [np.arange(a, b)], as indices. *)
Definition arange (n : nat) : list nat := seq 0 n.
Definition arange2 (a b : nat) : list nat := seq a (b - a).

Definition zeros_like (a : list R) : list R := repeat 0 (length a).

(** [np.max] and [np.min] raise [ValueError] on an empty array. *)
Definition max (a : list R) : Py.M R :=
  match a with
  | [] => Py.raise Py.ValueError
  | x :: a' => Py.ret (fold_left Rmax a' x)
  end.

Definition min (a : list R) : Py.M R :=
  match a with
  | [] => Py.raise Py.ValueError
  | x :: a' => Py.ret (fold_left Rmin a' x)
  end.

Definition maxZ (a : list Z) : Py.M Z :=
  match a with
  | [] => Py.raise Py.ValueError
  | x :: a' => Py.ret (fold_left Z.max a' x)
  end.

Definition sum (a : list R) : R := fold_left Rplus a 0.

(** [np.mean] of a non-empty array. *)
Definition mean (a : list R) : R := sum a / INR (length a).

Fixpoint insert (x : R) (a : list R) : list R :=
  match a with
  | [] => [x]
  | y :: a' => if Rle_dec x y then x :: a else y :: insert x a'
  end.

Definition sort (a : list R) : list R := fold_right insert [] a.

(** [np.median] of a non-empty array: the middle element of the sorted
    array, or the mean of the two middle ones. *)
Definition median (a : list R) : R :=
  let s := sort a in
  let h := (length a / 2)%nat in
  if Nat.odd (length a) then nth h s 0
  else mean [nth (h - 1) s 0; nth h s 0].

(** [a.any()]: some element is non-zero. *)
Definition any (a : list R) : bool :=
  existsb (fun x => if Req_dec_T x 0 then false else true) a.

(** [np.linspace(start, stop, num)] with the default [endpoint=True]. *)
Definition linspace (start stop : R) (num : nat) : list R :=
  let div := (num - 1)%nat in
  let delta := stop - start in
  let y := map INR (arange num) in
  let y :=
    if (0 <? div)%nat then
      let step := delta / INR div in
      if Req_dec_T step 0
      then map (fun v => v / INR div * delta) y
      else map (fun v => v * step) y
    else map (fun v => v * delta) y in
  let y := map (fun v => v + start) y in
  if (1 <? num)%nat then removelast y ++ [stop] else y.

(** The monotonicity test of [np.digitize]: 1 for a non-decreasing
    array (and for a constant or empty one), -1 for a non-increasing one,
    0 otherwise. *)
Fixpoint nondecreasing (last : R) (a : list R) : bool :=
  match a with
  | [] => true
  | next :: a' => if Rlt_dec next last then false else nondecreasing next a'
  end.

Fixpoint nonincreasing (last : R) (a : list R) : bool :=
  match a with
  | [] => true
  | next :: a' => if Rlt_dec last next then false else nonincreasing next a'
  end.

Fixpoint monotonic_from (last : R) (a : list R) : Z :=
  match a with
  | [] => 1
  | next :: a' =>
      if Req_dec_T next last then monotonic_from last a'
      else if Rlt_dec last next
           then (if nondecreasing next a' then 1 else 0)
           else (if nonincreasing next a' then -1 else 0)
  end%Z.

Definition monotonicity (a : list R) : Z :=
  match a with
  | [] => 1%Z
  | x :: a' => monotonic_from x a'
  end.

(** [np.searchsorted(a, v, side='left')] on a non-decreasing array: the
    first index whose element is not below [v]. *)
Fixpoint searchsorted_left (a : list R) (v : R) : nat :=
  match a with
  | [] => O
  | y :: a' => if Rlt_dec y v then S (searchsorted_left a' v) else O
  end.

(** [np.digitize(x, bins, right=True)] for one value [x]. *)
Definition digitize1 (mono : Z) (bins : list R) (x : R) : nat :=
  if (mono =? -1)%Z
  then (length bins - searchsorted_left (rev bins) x)%nat
  else searchsorted_left bins x.

Definition digitize (x : list R) (bins : list R) : Py.M (list nat) :=
  let mono := monotonicity bins in
  if (mono =? 0)%Z then Py.raise Py.ValueError
  else Py.ret (map (digitize1 mono bins) x).

(** [np.divide(a, b)] on one-dimensional arrays: element-wise, an array
    of length one is broadcast, any other mismatch raises.  The quotient
    is the exact one; NumPy rounds it to binary64 ([float64.divide] below
    has the rounding). *)
Definition divide (a b : list R) : Py.M (list R) :=
  if (length a =? length b)%nat then Py.ret (map (fun p => fst p / snd p) (combine a b))
  else match a, b with
       | [x], _ => Py.ret (map (fun y => x / y) b)
       | _, [y] => Py.ret (map (fun x => x / y) a)
       | _, _ => Py.raise Py.ValueError
       end.

(** The elements of [a] at the positions where the index array holds
    [i]. *)
Definition masked (a : list R) (idx : list Z) (i : nat) : list R :=
  map fst (filter (fun p => (snd p =? Z.of_nat i)%Z) (combine a idx)).

(** [a[idx == i]]: indexing by a boolean mask, which must have the length
    of [a]. *)
Definition getitem_mask (a : list R) (idx : list Z) (i : nat)
  : Py.M (list R) :=
  if (length idx =? length a)%nat then Py.ret (masked a idx i)
  else Py.raise Py.IndexError.

End np.

(** ** The parameter dictionary

    [params] is one dictionary shared by a distribution and its bins.  Its
    keys are fixed by the constructors of the corrections; ['bin_method']
    and ['hbar_method'] take the values the module tests for. *)

Inductive BinMethod : Type := linear | geometric.

(** ['hbar_method'] is either ['bin_center'] or the name of the NumPy
    function applied to the measurements of a bin. *)
Inductive Aggregate : Type := mean | median.
Inductive HbarMethod : Type := bin_center | np_attr (f : Aggregate).

Record Params : Type := mkParams {
  bin_method : BinMethod;
  hbar_method : HbarMethod;
  length_type : string;
  nbins : nat;
  normalized : bool
}.

(** ** class Bins *)

Module Bins.

Record t : Type := mk {
  params : Params;
  norm : R;
  vesicles : list R;
  bin_edges : list R;
  bin_widths : list R;
  bin_centers : list R;
  ind : list Z;
  na : list R;
  hbar : list R
}.

Definition set_ind (self : t) (x : list Z) : t :=
  mk (params self) (norm self) (vesicles self) (bin_edges self)
     (bin_widths self) (bin_centers self) x (na self) (hbar self).

Definition set_na (self : t) (x : list R) : t :=
  mk (params self) (norm self) (vesicles self) (bin_edges self)
     (bin_widths self) (bin_centers self) (ind self) x (hbar self).

Definition set_hbar (self : t) (x : list R) : t :=
  mk (params self) (norm self) (vesicles self) (bin_edges self)
     (bin_widths self) (bin_centers self) (ind self) (na self) x.

(** The difference of two arrays of the same length, element by
    element. *)
Definition sub (a b : list R) : list R :=
  map (fun p => fst p - snd p) (combine a b).

(** The edges [_create_bins] computes, over exact reals: a binary64
    edge can be a rounding away from the number given here, so a theorem
    that places a measurement against an edge speaks of the edge the
    state holds. *)
Definition edges_of (p : Params) (vesicles : list R) : Py.M (list R) :=
  match bin_method p with
  | linear =>
      hi <- np.max vesicles ;;
      lo <- np.min vesicles ;;
      Py.ret (np.linspace (hi * 1.0000001) (lo * 0.9999999) (nbins p + 1))
  | geometric =>
      hi <- np.max vesicles ;;
      Py.ret (map (fun k => hi * Rpower 10 (-0.1 * INR k))
                  (np.arange (nbins p + 1)))
  end.

(** [_create_bins]: returns the edges, the widths and the centers. *)
Definition _create_bins (p : Params) (vesicles : list R)
  : Py.M (list R * list R * list R) :=
  edges <- edges_of p vesicles ;;
  let widths := map Rabs (sub (tl edges) (removelast edges)) in
  let centers :=
    sub (removelast edges) (map (fun w => w / 2) widths) in
  Py.ret (edges, widths, centers).

(** [__init__].  The attributes assigned later ([ind], [na], [hbar]) start
    empty; the key ['bin_order'] it adds to [params] is read nowhere and
    is left out. *)
Definition init (vesicles : list R) (p : Params) : Py.M t :=
  scaled <- (if normalized p
             then m <- np.max vesicles ;;
                  Py.ret (m, map (fun v => v / m) vesicles)
             else Py.ret (1, vesicles)) ;;
  ewc <- _create_bins p (snd scaled) ;;
  Py.ret (mk p (fst scaled) (snd scaled)
             (fst (fst ewc)) (snd (fst ewc)) (snd ewc) [] [] []).

Definition count_ge (idx : list Z) (N : nat) : nat :=
  List.length (filter (fun k => (Z.of_nat N <=? k)%Z) idx).

Definition count_eq (idx : list Z) (i : nat) : nat :=
  List.length (filter (fun k => (k =? Z.of_nat i)%Z) idx).

(** [__check_inrange] *)
Definition check_inrange (self : t) : Py.M unit :=
  m <- np.maxZ (ind self) ;;
  if (Z.of_nat (nbins (params self)) <=? m)%Z
  then Py.warn (Py.SmallerThanAnyBinEdge
                  (count_ge (ind self) (nbins (params self))))
  else Py.ret tt.

(** The index [np.digitize(v, edges, right=True) - 1] of one
    measurement. *)
Definition assign (edges : list R) (v : R) : Z :=
  (Z.of_nat (np.digitize1 (np.monotonicity edges) edges v) - 1)%Z.

Definition bin_data (self : t) : Py.M t :=
  d <- np.digitize (vesicles self) (bin_edges self) ;;
  let self := set_ind self (map (fun k => (Z.of_nat k - 1)%Z) d) in
  check_inrange self ;;;
  Py.ret self.

(** The body of the loop of [compute_na].  Division by a zero
    [roi_area] is outside the model (the code raises [ZeroDivisionError]
    for a Python float and stores [inf] for a NumPy one): the theorems on
    a constructor called with a reference area of its own exclude it. *)
Definition compute_na_bin (roi_area : R) (i : nat) (self : t) : Py.M t :=
  a <- Py.setitem (na self) i (INR (count_eq (ind self) i) / roi_area) ;;
  Py.ret (set_na self a).

Definition compute_na (self : t) (roi_area : R) : Py.M t :=
  let self := set_na self (np.zeros_like (bin_centers self)) in
  Py.for_in (np.arange (nbins (params self))) (compute_na_bin roi_area) self.

(** [getattr(np, self.params['hbar_method'])] *)
Definition aggregate (f : Aggregate) : list R -> R :=
  match f with
  | mean => np.mean
  | median => np.median
  end.

Definition compute_hbar_bin (m : Aggregate) (i : nat) (self : t)
  : Py.M t :=
  in_vesicles <- np.getitem_mask (vesicles self) (ind self) i ;;
  if negb (np.any in_vesicles) then
    Py.warn (Py.BinDoesNotContainVesicles i) ;;;
    c <- Py.getitem (bin_centers self) i ;;
    h <- Py.setitem (hbar self) i c ;;
    Py.ret (set_hbar self h)
  else
    h <- Py.setitem (hbar self) i (aggregate m in_vesicles) ;;
    Py.ret (set_hbar self h).

Definition compute_hbar (self : t) : Py.M t :=
  let self := set_hbar self (np.zeros_like (bin_centers self)) in
  match hbar_method (params self) with
  | bin_center => Py.ret (set_hbar self (bin_centers self))
  | np_attr m =>
      Py.for_in (np.arange (nbins (params self))) (compute_hbar_bin m) self
  end.

End Bins.

(** ** class VSD and class VSDCorrection

    [self.params] and [self.bins.params] are the same dictionary: the
    record keeps it once, in [bins]. *)

Module VSD.

Record t : Type := mk {
  bins : Bins.t;
  roi_area : R;
  nv : list R;
  inter_prob : list R;
  n : list R;
  lnn : list R
}.

Definition params (self : t) : Params := Bins.params (bins self).

Definition set_nv (self : t) (x : list R) : t :=
  mk (bins self) (roi_area self) x (inter_prob self) (n self) (lnn self).

Definition set_inter_prob (self : t) (x : list R) : t :=
  mk (bins self) (roi_area self) (nv self) x (n self) (lnn self).

Definition set_n_lnn (self : t) (x y : list R) : t :=
  mk (bins self) (roi_area self) (nv self) (inter_prob self) x y.

(** [VSD.__init__]: builds the bins and assigns the measurements. *)
Definition init (vesicles : list R) (p : Params) : Py.M Bins.t :=
  b <- Bins.init vesicles p ;;
  Bins.bin_data b.

(** [to_lnn].  For an [n[i] <= 0] NumPy stores [-inf] or [nan] and
    reports it through a [RuntimeWarning] of its own, which is not among
    the advisories of the model (the three messages of the module), and
    [ln] is the total one of Rocq: the theorems state [lnn[i]] for
    [n[i] > 0] only, and those on the constructors do not give the list
    of warnings past [to_lnn]. *)
Definition to_lnn (self : t) : Py.M t :=
  let divisor :=
    map (fun w => w * 1e-3 * Bins.norm (bins self))
        (Bins.bin_widths (bins self)) in
  let divisor :=
    if negb (String.eqb (length_type (params self)) "diameter")
    then map (fun d => d * 2) divisor
    else divisor in
  q <- np.divide (map (fun x => x * 1e9) (nv self)) divisor ;;
  Py.ret (set_n_lnn self q (map ln q)).

End VSD.

Module VSDCorrection.

(** [VSDCorrection.__init__] *)
Definition init (vesicles : list R) (roi_area : R) (p : Params)
  : Py.M VSD.t :=
  b <- VSD.init vesicles p ;;
  let nv := np.zeros_like (Bins.bin_centers b) in
  b <- Bins.compute_na b roi_area ;;
  b <- Bins.compute_hbar b ;;
  Py.ret (VSD.mk b roi_area nv [] [] []).

End VSDCorrection.

(** ** class ChengLemlich *)

Module ChengLemlich.

Definition to_nv (self : VSD.t) : Py.M VSD.t :=
  q <- np.divide (Bins.na (VSD.bins self)) (Bins.hbar (VSD.bins self)) ;;
  Py.ret (VSD.set_nv self q).

Definition init (vesicles : list R) (roi_area : R) (length_type : string)
    (nbins : nat) : Py.M VSD.t :=
  (if negb (String.eqb length_type "radius")
   then Py.warn (Py.InputLengthShouldBe "C&L" "radius")
   else Py.ret tt) ;;;
  self <- VSDCorrection.init vesicles roi_area
            (mkParams linear (np_attr mean) length_type nbins false) ;;
  self <- to_nv self ;;
  VSD.to_lnn self.

End ChengLemlich.

(** ** [ChengLemlich.to_nv] over binary64

    The arrays of the code hold IEEE 754 binary64 numbers and [np.divide]
    rounds every quotient to the nearest of them, where the model above
    takes the quotient exactly.  The two differ on the exact value of a
    product of computed numbers, so the division is given over the
    kernel's binary64 floats as well. *)

Module float64.

Definition divide (a b : list float) : Py.M (list float) :=
  if (length a =? length b)%nat
  then Py.ret (map (fun p => PrimFloat.div (fst p) (snd p)) (combine a b))
  else match a, b with
       | [x], _ => Py.ret (map (fun y => PrimFloat.div x y) b)
       | _, [y] => Py.ret (map (fun x => PrimFloat.div x y) a)
       | _, _ => Py.raise Py.ValueError
       end.

(** [ChengLemlich.to_nv], from the arrays [na] and [hbar] to [nv]. *)
Definition to_nv (na hbar : list float) : Py.M (list float) :=
  divide na hbar.

End float64.

(** ** class SahagianProussevitch *)

Module SahagianProussevitch.

(** The body of the loop of [intersection_probabilities]. *)
Definition inter_prob_bin (i : nat) (self : VSD.t) : Py.M VSD.t :=
  let edges := Bins.bin_edges (VSD.bins self) in
  e0 <- Py.getitem edges 0 ;;
  e1 <- Py.getitem edges (i + 1) ;;
  ei <- Py.getitem edges i ;;
  p <- Py.setitem (VSD.inter_prob self) i
         ((1 / e0) * (sqrt (e0 ^ 2 - e1 ^ 2) - sqrt (e0 ^ 2 - ei ^ 2))) ;;
  Py.ret (VSD.set_inter_prob self p).

Definition intersection_probabilities (self : VSD.t) : Py.M VSD.t :=
  let self :=
    VSD.set_inter_prob self
      (np.zeros_like (Bins.bin_centers (VSD.bins self))) in
  Py.for_in (np.arange (nbins (VSD.params self))) inter_prob_bin self.

(** The inner loop of [to_nv], over [j] in [np.arange(i)]. *)
Definition add_previous (self : VSD.t) (i j : nat) (previous : R)
  : Py.M R :=
  pj <- Py.getitem (VSD.inter_prob self) (j + 1) ;;
  hj <- Py.getitem (Bins.hbar (VSD.bins self)) (j + 1) ;;
  vj <- Py.getitem (VSD.nv self) (i - j - 1) ;;
  Py.ret (previous + pj * hj * vj).

(** The body of the outer loop, over [i] in [np.arange(nbins)]. *)
Definition to_nv_bin (i : nat) (self : VSD.t) : Py.M VSD.t :=
  previous <- Py.for_in (np.arange i) (add_previous self i) 0 ;;
  p0 <- Py.getitem (VSD.inter_prob self) 0 ;;
  hi <- Py.getitem (Bins.hbar (VSD.bins self)) i ;;
  ni <- Py.getitem (Bins.na (VSD.bins self)) i ;;
  v <- Py.setitem (VSD.nv self) i ((1 / (p0 * hi)) * (ni - previous)) ;;
  Py.ret (VSD.set_nv self v).

Definition to_nv (self : VSD.t) : Py.M VSD.t :=
  Py.for_in (np.arange (nbins (VSD.params self))) to_nv_bin self.

Definition init (vesicles : list R) (roi_area : R) (length_type : string)
    (nbins : nat) : Py.M VSD.t :=
  (if negb (String.eqb length_type "diameter")
   then Py.warn (Py.InputLengthShouldBe "S&P" "diameter")
   else Py.ret tt) ;;;
  self <- VSDCorrection.init vesicles roi_area
            (mkParams geometric bin_center length_type nbins false) ;;
  self <- intersection_probabilities self ;;
  self <- to_nv self ;;
  VSD.to_lnn self.

End SahagianProussevitch.

(** ** class Saltikov *)

Module Saltikov.

Definition coeff : list R :=
  [1.6461; -0.4561; -0.1162; -0.0415; -0.0173; -0.0079;
   -0.0038; -0.0018; -0.0010; -0.0003; -0.0002; -0.0002].

(** The inner loop, over [k] in [np.arange(1, i+1)]. *)
Definition add_lag (self : VSD.t) (i k : nat) (na_sum : R) : Py.M R :=
  ck <- Py.getitem coeff k ;;
  ak <- Py.getitem (Bins.na (VSD.bins self)) (i - k) ;;
  Py.ret (na_sum + ck * ak).

(** The body of the outer loop, over [i] in [np.arange(nbins)]. *)
Definition to_nv_bin (i : nat) (self : VSD.t) : Py.M VSD.t :=
  c0 <- Py.getitem coeff 0 ;;
  a0 <- Py.getitem (Bins.na (VSD.bins self)) i ;;
  na_sum <- Py.for_in (np.arange2 1 (i + 1)) (add_lag self i) (c0 * a0) ;;
  hi <- Py.getitem (Bins.hbar (VSD.bins self)) i ;;
  v <- Py.setitem (VSD.nv self) i (1 / hi * na_sum) ;;
  Py.ret (VSD.set_nv self v).

Definition to_nv (self : VSD.t) : Py.M VSD.t :=
  Py.for_in (np.arange (nbins (VSD.params self))) to_nv_bin self.

Definition init (vesicles : list R) (roi_area : R) (length_type : string)
    (nbins : nat) : Py.M VSD.t :=
  (if negb (String.eqb length_type "diameter")
   then Py.warn (Py.InputLengthShouldBe "S" "diameter")
   else Py.ret tt) ;;;
  self <- VSDCorrection.init vesicles roi_area
            (mkParams linear (np_attr mean) length_type nbins false) ;;
  self <- to_nv self ;;
  VSD.to_lnn self.

End Saltikov.

(** ** [code/vesicle_analysis.py]: tables, dictionaries and exceptions

    The classes [Image], [Scan] and [Sample] hold pandas tables and apply
    the corrections above to their columns.  Reading and parsing the
    files is outside the model: a constructor takes the columns
    [pd.read_csv] returns and the numbers read from the metadata.  A
    column (a pandas [Series]) passed to a correction is used there as the
    array of its values. *)

Module pd.

(** The exceptions of [vesicle_analysis.py]: those of [stereology] and
    NumPy ([ValueError] is also what pandas raises for a wrong number of
    column names), and three more. *)
Inductive exn : Type :=
| Builtin (e : Py.exn)
| KeyError
| AttributeError
| TypeError.

(** What a method call leaves: it returns, with the object updated and
    the advisories issued so far, or it raises, with the object as the
    call left it. *)
Inductive outcome (S : Type) : Type :=
| Done (self : S) (w : list Py.warning)
| Raise (e : exn) (self : S).

Arguments Done {S} self w.
Arguments Raise {S} e self.

Definition and_then {S : Type} (o : outcome S)
    (k : S -> list Py.warning -> outcome S) : outcome S :=
  match o with
  | Done self w => k self w
  | Raise e self => Raise e self
  end.

(** Names bound to values in insertion order: a [dict] with string keys,
    and the named columns of a [DataFrame]. *)
Definition named (V : Type) : Type := list (string * V).

Fixpoint get {V : Type} (d : named V) (key : string) : option V :=
  match d with
  | [] => None
  | (k, v) :: d' => if String.eqb k key then Some v else get d' key
  end.

(** [d.update({key: v})] and [df[key] = v]: the value of an existing key
    is replaced in place, a new key is added last. *)
Fixpoint update {V : Type} (d : named V) (key : string) (v : V) : named V :=
  match d with
  | [] => [(key, v)]
  | (k, v') :: d' =>
      if String.eqb k key then (k, v) :: d' else (k, v') :: update d' key v
  end.

(** A [DataFrame]: named columns, all of the same length. *)
Definition DataFrame : Type := named (list R).

(** [df.columns = names] on the table [pd.read_csv(..., header=None)]
    returns: [ValueError] unless there is one name per column. *)
Definition set_columns (names : list string) (columns : list (list R))
  : option DataFrame :=
  if (length columns =? length names)%nat then Some (combine names columns)
  else None.

(** The elements of a column at which a boolean mask holds. *)
Fixpoint keep (mask : list bool) (column : list R) : list R :=
  match mask, column with
  | b :: mask', x :: column' =>
      if b then x :: keep mask' column' else keep mask' column'
  | _, _ => []
  end.

(** [df[mask]]: the rows at which a boolean mask holds. *)
Definition rows (df : DataFrame) (mask : list bool) : DataFrame :=
  map (fun nc => (fst nc, keep mask (snd nc))) df.

(** [column > x], element by element. *)
Definition gt (column : list R) (x : R) : list bool :=
  map (fun v => if Rlt_dec x v then true else false) column.

(** [pd.concat([a, b])] for a table [a] that is empty or has the columns
    of [b], as the tables of one sample have: the rows of [b] follow those
    of [a]. *)
Definition concat (a b : DataFrame) : DataFrame :=
  match a with
  | [] => b
  | _ => map (fun nc => (fst nc,
                          snd nc ++ match get b (fst nc) with
                                    | Some c => c
                                    | None => []
                                    end)) a
  end.

End pd.

(** ** Looking a correction up by name

    [getattr(stereology, method)(vesicles=..., roi_area=...,
    length_type=..., nbins=...)]: the three corrections are classes with
    these keywords; any other name the module binds ([bound]) gives an
    object that is not callable with them ([TypeError] at the call), and a
    name it does not bind gives [AttributeError] at the lookup. *)

Module stereology.

Inductive attribute : Type :=
| Correction (init : list R -> R -> string -> nat -> Py.M VSD.t)
| Other.

Definition getattr (bound : string -> bool) (name : string)
  : option attribute :=
  if String.eqb name "ChengLemlich" then
    Some (Correction ChengLemlich.init)
  else if String.eqb name "SahagianProussevitch" then
    Some (Correction SahagianProussevitch.init)
  else if String.eqb name "Saltikov" then
    Some (Correction Saltikov.init)
  else if bound name then Some Other
  else None.

End stereology.

(** ** class Image *)

Module Image.

Record t : Type := mk {
  file : string;
  meta_file : string;
  units : string;
  scaled : bool;
  thresholded : bool;
  min_diameter : R;
  vsd : list VSD.t;
  vsd_index : pd.named nat;
  vsd_num : nat;
  image_data : pd.DataFrame;
  pixel_size : R;
  roi_area : R
}.

Definition set_image_data (self : t) (x : pd.DataFrame) : t :=
  mk (file self) (meta_file self) (units self) (scaled self)
     (thresholded self) (min_diameter self) (vsd self) (vsd_index self)
     (vsd_num self) x (pixel_size self) (roi_area self).

Definition set_metadata (self : t) (pixel roi : R) : t :=
  mk (file self) (meta_file self) (units self) (scaled self)
     (thresholded self) (min_diameter self) (vsd self) (vsd_index self)
     (vsd_num self) (image_data self) pixel roi.

Definition set_scaled (self : t) (x : bool) : t :=
  mk (file self) (meta_file self) (units self) x
     (thresholded self) (min_diameter self) (vsd self) (vsd_index self)
     (vsd_num self) (image_data self) (pixel_size self) (roi_area self).

Definition set_thresholded (self : t) (x : bool) : t :=
  mk (file self) (meta_file self) (units self) (scaled self)
     x (min_diameter self) (vsd self) (vsd_index self)
     (vsd_num self) (image_data self) (pixel_size self) (roi_area self).

Definition set_vsd_index (self : t) (x : pd.named nat) : t :=
  mk (file self) (meta_file self) (units self) (scaled self)
     (thresholded self) (min_diameter self) (vsd self) x
     (vsd_num self) (image_data self) (pixel_size self) (roi_area self).

Definition set_vsd (self : t) (x : list VSD.t) : t :=
  mk (file self) (meta_file self) (units self) (scaled self)
     (thresholded self) (min_diameter self) x (vsd_index self)
     (vsd_num self) (image_data self) (pixel_size self) (roi_area self).

Definition set_vsd_num (self : t) (x : nat) : t :=
  mk (file self) (meta_file self) (units self) (scaled self)
     (thresholded self) (min_diameter self) (vsd self) (vsd_index self)
     x (image_data self) (pixel_size self) (roi_area self).

(** The names [load_data] gives the columns of the ImageJ results. *)
Definition column_names : list string :=
  ["area"; "x"; "y"; "perimeter"; "bx"; "by"; "width"; "height";
   "major_axis"; "minor_axis"; "angle"; "xstart"; "ystart"]%string.

(** [load_data], over the columns [csv] that [pd.read_csv] returns for
    [file].  The constructor is its only caller: when it raises, the
    object under construction is lost with it.  For a negative area
    [np.sqrt] gives [nan], where [sqrt] gives 0: a row with such an area
    is never above a threshold [min_diameter >= 0] in either. *)
Definition load_data (csv : list (list R)) (self : t) : pd.exn + t :=
  match pd.set_columns column_names csv with
  | None => inl (pd.Builtin Py.ValueError)
  | Some df =>
      let self := set_image_data self df in
      match pd.get (image_data self) "area" with
      | None => inl pd.KeyError
      | Some area =>
          let self :=
            set_image_data self
              (pd.update (image_data self) "radius"
                 (map (fun a => sqrt (a / PI)) area)) in
          match pd.get (image_data self) "radius" with
          | None => inl pd.KeyError
          | Some radius =>
              inr (set_image_data self
                     (pd.update (image_data self) "diameter"
                        (map (fun r => r * 2) radius)))
          end
      end
  end.

(** [load_metadata], over the two numbers read from [meta_file]. *)
Definition load_metadata (pixel roi : R) (self : t) : t :=
  set_metadata self pixel roi.

(** The measurements [scale_data] converts by the pixel size. *)
Definition lengths : list string :=
  ["x"; "y"; "perimeter"; "bx"; "by"; "width"; "height"; "major_axis";
   "minor_axis"; "xstart"; "ystart"; "radius"; "diameter"]%string.

(** The body of the loop of [scale_data]. *)
Definition scale_column (measurement : string) (self : t)
    (w : list Py.warning) : pd.outcome t :=
  match pd.get (image_data self) measurement with
  | None => pd.Raise pd.KeyError self
  | Some c =>
      pd.Done
        (set_image_data self
           (pd.update (image_data self) measurement
              (map (fun v => v * pixel_size self) c)))
        w
  end.

Fixpoint for_each (names : list string)
    (body : string -> t -> list Py.warning -> pd.outcome t)
    (self : t) (w : list Py.warning) : pd.outcome t :=
  match names with
  | [] => pd.Done self w
  | name :: names' =>
      pd.and_then (body name self w) (for_each names' body)
  end.

(** [scale_data].  The other branch calls [warnings.warm], which the
    module [warnings] does not have. *)
Definition scale_data (self : t) (w : list Py.warning) : pd.outcome t :=
  if negb (scaled self) then
    match pd.get (image_data self) "area" with
    | None => pd.Raise pd.KeyError self
    | Some area =>
        let self :=
          set_image_data self
            (pd.update (image_data self) "area"
               (map (fun a => a * pixel_size self ^ 2) area)) in
        pd.and_then (for_each lengths scale_column self w)
          (fun self w => pd.Done (set_scaled self true) w)
    end
  else pd.Raise pd.AttributeError self.

(** [threshold_data] *)
Definition threshold_data (self : t) (w : list Py.warning) : pd.outcome t :=
  match pd.get (image_data self) "diameter" with
  | None => pd.Raise pd.KeyError self
  | Some diameter =>
      let self :=
        set_image_data self
          (pd.rows (image_data self) (pd.gt diameter (min_diameter self))) in
      pd.Done (set_thresholded self true) w
  end.

(** [__init__].  The attributes assigned by the loaders start empty. *)
Definition init (file meta_file units : string) (min_diameter : R)
    (csv : list (list R)) (pixel roi : R) (w : list Py.warning)
  : pd.exn + t * list Py.warning :=
  let self :=
    mk file meta_file units false false min_diameter [] [] 0 [] 0 0 in
  match load_data csv self with
  | inl e => inl e
  | inr self =>
      let self := load_metadata pixel roi self in
      match pd.and_then (scale_data self w) threshold_data with
      | pd.Done self w => inr (self, w)
      | pd.Raise e _ => inl e
      end
  end.

(** [apply_vsd_corr].  The key is recorded first; then the correction is
    looked up, the column is read and the correction is built. *)
Definition apply_vsd_corr (bound : string -> bool) (key method
    length_type : string) (nbins : nat) (self : t) (w : list Py.warning)
  : pd.outcome t :=
  let self :=
    set_vsd_index self (pd.update (vsd_index self) key (vsd_num self)) in
  match stereology.getattr bound method with
  | None => pd.Raise pd.AttributeError self
  | Some a =>
      match pd.get (image_data self) length_type with
      | None => pd.Raise pd.KeyError self
      | Some vesicles =>
          match a with
          | stereology.Other => pd.Raise pd.TypeError self
          | stereology.Correction init =>
              match init vesicles (roi_area self) length_type nbins w with
              | inl e => pd.Raise (pd.Builtin e) self
              | inr (v, w') =>
                  let self := set_vsd self (vsd self ++ [v]) in
                  pd.Done (set_vsd_num self (vsd_num self + 1)) w'
              end
          end
      end
  end.

End Image.

(** ** class Scan

    Of a scan the model keeps the table of the 3D objects and the
    parameters the constructor is given; what [load_ctan_data] parses
    from the CTAn report is left out. *)

Module Scan.

Record t : Type := mk {
  i3d_file : string;
  ctan_file : string;
  scaled : bool;
  thresholded : bool;
  min_diameter : R;
  units : string;
  i3d_data : pd.DataFrame
}.

Definition set_i3d_data (self : t) (x : pd.DataFrame) : t :=
  mk (i3d_file self) (ctan_file self) (scaled self) (thresholded self)
     (min_diameter self) (units self) x.

Definition set_thresholded (self : t) (x : bool) : t :=
  mk (i3d_file self) (ctan_file self) (scaled self) x
     (min_diameter self) (units self) (i3d_data self).

Definition column_names : list string :=
  ["volume"; "surface"; "x"; "y"; "z"; "diameter"; "sphericity"]%string.

(** [load_i3d_data], over the columns [pd.read_csv] returns for
    [i3d_file]; as [Image.load_data], called by the constructor only. *)
Definition load_i3d_data (csv : list (list R)) (self : t) : pd.exn + t :=
  match pd.set_columns column_names csv with
  | None => inl (pd.Builtin Py.ValueError)
  | Some df =>
      let self := set_i3d_data self df in
      match pd.get (i3d_data self) "diameter" with
      | None => inl pd.KeyError
      | Some diameter =>
          inr (set_i3d_data self
                 (pd.update (i3d_data self) "radius"
                    (map (fun d => d / 2) diameter)))
      end
  end.

(** [threshold_data] *)
Definition threshold_data (self : t) (w : list Py.warning) : pd.outcome t :=
  match pd.get (i3d_data self) "Volume-equivalent sphere diameter" with
  | None => pd.Raise pd.KeyError self
  | Some diameter =>
      let self :=
        set_i3d_data self
          (pd.rows (i3d_data self) (pd.gt diameter (min_diameter self))) in
      pd.Done (set_thresholded self true) w
  end.

End Scan.

(** ** class Sample *)

Module Sample.

Record t : Type := mk {
  sample : string;
  vsd_num : nat;
  vsd_index : pd.named nat;
  vsd : list VSD.t;
  image_num : nat;
  image_index : pd.named nat;
  images : list Image.t;
  scan_num : nat;
  scan_index : pd.named nat;
  scans : list Scan.t;
  roi_area : R;
  image_data : pd.DataFrame
}.

Definition set_vsd_index (self : t) (x : pd.named nat) : t :=
  mk (sample self) (vsd_num self) x (vsd self) (image_num self)
     (image_index self) (images self) (scan_num self) (scan_index self)
     (scans self) (roi_area self) (image_data self).

Definition set_vsd (self : t) (x : list VSD.t) : t :=
  mk (sample self) (vsd_num self) (vsd_index self) x (image_num self)
     (image_index self) (images self) (scan_num self) (scan_index self)
     (scans self) (roi_area self) (image_data self).

Definition set_vsd_num (self : t) (x : nat) : t :=
  mk (sample self) x (vsd_index self) (vsd self) (image_num self)
     (image_index self) (images self) (scan_num self) (scan_index self)
     (scans self) (roi_area self) (image_data self).

Definition set_images (self : t) (x : list Image.t) : t :=
  mk (sample self) (vsd_num self) (vsd_index self) (vsd self)
     (image_num self) (image_index self) x (scan_num self)
     (scan_index self) (scans self) (roi_area self) (image_data self).

Definition set_image_data (self : t) (x : pd.DataFrame) : t :=
  mk (sample self) (vsd_num self) (vsd_index self) (vsd self)
     (image_num self) (image_index self) (images self) (scan_num self)
     (scan_index self) (scans self) (roi_area self) x.

Definition set_roi_area (self : t) (x : R) : t :=
  mk (sample self) (vsd_num self) (vsd_index self) (vsd self)
     (image_num self) (image_index self) (images self) (scan_num self)
     (scan_index self) (scans self) x (image_data self).

Definition set_image_index (self : t) (x : pd.named nat) : t :=
  mk (sample self) (vsd_num self) (vsd_index self) (vsd self)
     (image_num self) x (images self) (scan_num self)
     (scan_index self) (scans self) (roi_area self) (image_data self).

Definition set_image_num (self : t) (x : nat) : t :=
  mk (sample self) (vsd_num self) (vsd_index self) (vsd self)
     x (image_index self) (images self) (scan_num self)
     (scan_index self) (scans self) (roi_area self) (image_data self).

(** [__init__] *)
Definition init (sample_name : string) : t :=
  mk sample_name 0 [] [] 0 [] [] 0 [] [] 0 [].

(** [add_image], over what the files of the image hold.  The image is
    built first; [self.images[self.image_num]] is then read twice. *)
Definition add_image (image_id file meta_file units : string)
    (min_diameter : R) (csv : list (list R)) (pixel roi : R)
    (self : t) (w : list Py.warning) : pd.outcome t :=
  match Image.init file meta_file units min_diameter csv pixel roi w with
  | inl e => pd.Raise e self
  | inr (image, w) =>
      let self := set_images self (images self ++ [image]) in
      match nth_error (images self) (image_num self) with
      | None => pd.Raise (pd.Builtin Py.IndexError) self
      | Some current =>
          let self :=
            set_image_data self
              (pd.concat (image_data self) (Image.image_data current)) in
          match nth_error (images self) (image_num self) with
          | None => pd.Raise (pd.Builtin Py.IndexError) self
          | Some current =>
              let self :=
                set_roi_area self
                  (roi_area self + Image.roi_area current) in
              let self :=
                set_image_index self
                  (pd.update (image_index self) image_id (image_num self)) in
              pd.Done (set_image_num self (image_num self + 1)) w
          end
      end
  end.

(** [apply_vsd_corr], over the measurements of all the images. *)
Definition apply_vsd_corr (bound : string -> bool) (key method
    length_type : string) (nbins : nat) (self : t) (w : list Py.warning)
  : pd.outcome t :=
  let self :=
    set_vsd_index self (pd.update (vsd_index self) key (vsd_num self)) in
  match stereology.getattr bound method with
  | None => pd.Raise pd.AttributeError self
  | Some a =>
      match pd.get (image_data self) length_type with
      | None => pd.Raise pd.KeyError self
      | Some vesicles =>
          match a with
          | stereology.Other => pd.Raise pd.TypeError self
          | stereology.Correction init =>
              match init vesicles (roi_area self) length_type nbins w with
              | inl e => pd.Raise (pd.Builtin e) self
              | inr (v, w') =>
                  let self := set_vsd self (vsd self ++ [v]) in
                  pd.Done (set_vsd_num self (vsd_num self + 1)) w'
              end
          end
      end
  end.

End Sample.

(** ** Notions of the specification *)

(** [rsum f n] is the sum of [f k] for [k] in [0, n). *)
Fixpoint rsum (f : nat -> R) (n : nat) : R :=
  match n with
  | O => 0
  | S n' => rsum f n' + f n'
  end.

(** The sum the kernel-convolution unfolding is specified by: lags 0 to
    [min(i, 11)] of the kernel [c] against [na]. *)
Definition kernel_sum (c na : list R) (i : nat) : R :=
  rsum (fun k => nth k c 0 * nth (i - k) na 0) (S (Nat.min i 11)).

(** Edges in descending order: [a[0] > a[1] > ... ]. *)
Definition strictly_decreasing (a : list R) : Prop :=
  forall i, (S i < length a)%nat -> nth (S i) a 0 < nth i a 0.

(** A measurement set: a non-empty sequence of positive lengths. *)
Definition measurements (a : list R) : Prop :=
  a <> [] /\ Forall (fun v => 0 < v) a.

(** What [Bins.__init__] establishes over a measurement set, and the later
    methods rely on. *)
Record built (b : Bins.t) : Prop := {
  built_nbins : (0 < nbins (Bins.params b))%nat;
  built_vesicles : measurements (Bins.vesicles b);
  built_norm : 0 < Bins.norm b;
  built_edges : length (Bins.bin_edges b) = (nbins (Bins.params b) + 1)%nat;
  built_descending : strictly_decreasing (Bins.bin_edges b);
  built_last : 0 < nth (nbins (Bins.params b)) (Bins.bin_edges b) 0;
  built_first : forall v, In v (Bins.vesicles b) -> v <= nth 0 (Bins.bin_edges b) 0;
  built_widths : length (Bins.bin_widths b) = nbins (Bins.params b);
  built_centers : length (Bins.bin_centers b) = nbins (Bins.params b);
  built_bins : forall i, (i < nbins (Bins.params b))%nat ->
    nth i (Bins.bin_widths b) 0
    = nth i (Bins.bin_edges b) 0 - nth (S i) (Bins.bin_edges b) 0
    /\ 0 < nth i (Bins.bin_widths b) 0
    /\ nth i (Bins.bin_centers b) 0
       = nth i (Bins.bin_edges b) 0 - nth i (Bins.bin_widths b) 0 / 2
}.

(** The number of measurements whose assigned index lies in [0, N). *)
Definition count_in_range (idx : list Z) (N : nat) : nat :=
  length (filter (fun k => (0 <=? k)%Z && (k <? Z.of_nat N)%Z) idx).

(** The intersection probability of bin [i] of the specification. *)
Definition intersection_probability (edge : nat -> R) (i : nat) : R :=
  (1 / edge O)
  * (sqrt (edge O ^ 2 - edge (S i) ^ 2) - sqrt (edge O ^ 2 - edge i ^ 2)).

(** What the recursive unfolding subtracts for bin [i]: the sum over
    [j] in [0, i) of [P[j+1] * hbar[j+1] * nv[i-j-1]]. *)
Definition previously_solved (P hbar nv : list R) (i : nat) : R :=
  rsum (fun j => nth (j + 1) P 0 * nth (j + 1) hbar 0 * nth (i - j - 1) nv 0) i.

(** The factor of the specification: 2 for the radius convention, 1
    otherwise. *)
Definition convention_factor (length_type : string) : R :=
  if String.eqb length_type "radius" then 2 else 1.

(** What the outer loop keeps: the advisories and the bins are untouched,
    [nv] keeps its length, and the bins already visited hold the kernel sum
    over the characteristic size. *)
Definition Saltikov_inv (self : VSD.t) (w : list Py.warning)
    (i : nat) (s : VSD.t) (w' : list Py.warning) : Prop :=
  w' = w
  /\ VSD.bins s = VSD.bins self
  /\ length (VSD.nv s) = length (VSD.nv self)
  /\ forall j, (j < i)%nat ->
       nth j (VSD.nv s) 0
       = kernel_sum Saltikov.coeff (Bins.na (VSD.bins self)) j
         / nth j (Bins.hbar (VSD.bins self)) 0.

(** The bins [compute_hbar] reports as empty, among the first [n]. *)
Definition reported_empty (b : Bins.t) (n : nat) : list nat :=
  filter (fun i => negb (np.any (np.masked (Bins.vesicles b) (Bins.ind b) i)))
         (seq 0 n).

(** The indices [bin_data] assigns over the bins [b]. *)
Definition assigned (b : Bins.t) : list Z :=
  map (Bins.assign (Bins.bin_edges b)) (Bins.vesicles b).

(** The advisory [__check_inrange] issues for an index array: none, or one
    with the number of indices that reach [N]. *)
Definition range_advisory (idx : list Z) (N : nat) : list Py.warning :=
  if (Bins.count_ge idx N =? 0)%nat then []
  else [Py.SmallerThanAnyBinEdge (Bins.count_ge idx N)].

(** The advisories [compute_hbar] issues over assigned bins. *)
Definition empty_bin_advisories (b : Bins.t) : list Py.warning :=
  match hbar_method (Bins.params b) with
  | bin_center => []
  | np_attr _ =>
      map Py.BinDoesNotContainVesicles
          (reported_empty b (nbins (Bins.params b)))
  end.

(** The advisory a constructor issues for the measurement convention. *)
Definition convention_advisory (correction expected given : string)
  : list Py.warning :=
  if String.eqb given expected then []
  else [Py.InputLengthShouldBe correction expected].

(** The number of measurements at or below [e]. *)
Definition count_at_or_below (vs : list R) (e : R) : nat :=
  length (filter (fun v => if Rle_dec v e then true else false) vs).

(** The bins without a measurement, in ascending order. *)
Definition empty_bins (idx : list Z) (N : nat) : list nat :=
  filter (fun i => (Bins.count_eq idx i =? 0)%nat) (seq 0 N).

(** The arithmetic mean of the specification: the sum of the values over
    their number. *)
Definition arithmetic_mean (l : list R) : R :=
  rsum (fun k => nth k l 0) (length l) / INR (length l).

(** [x] is the median of [l]: with the values of [l] in ascending order,
    the middle one, or the midpoint of the two middle ones. *)
Definition is_median (l : list R) (x : R) : Prop :=
  exists s,
    Permutation l s /\ StronglySorted Rle s
    /\ x = if Nat.odd (length l) then nth (length l / 2) s 0
           else (nth (length l / 2 - 1) s 0 + nth (length l / 2) s 0) / 2.

(** [x] is the aggregate of [l] that the method names. *)
Definition is_aggregate (m : Aggregate) (l : list R) (x : R) : Prop :=
  match m with
  | mean => x = arithmetic_mean l
  | median => is_median l x
  end.

(** ** Sample objects

    Small concrete objects on which the theorems below are instantiated. *)

Definition sample_params (N : nat) : Params :=
  mkParams linear (np_attr mean) "radius" N false.

(** Three descending edges (two bins) and three measurements: one inside
    bin 0, one on the first edge, one below the last edge. *)
Definition sample_bins : Bins.t :=
  Bins.mk (sample_params 2) 1 [2.5; 3; 0.5] [3; 2; 1] [1; 1] [2.5; 1.5]
          [] [] [].

(** The same bins after assignment: indices 0, 1, 2 (out of range), -1
    (out of range) and 0 again. *)
Definition sample_assigned : Bins.t :=
  Bins.mk (sample_params 2) 1 [2.5; 1.5; 0.5; 7; 3] [3; 2; 1] [1; 1]
          [2.5; 1.5] [0; 1; 2; -1; 0]%Z [] [].

(** Three bins of which bin 1 holds no measurement. *)
Definition sample_sparse : Bins.t :=
  Bins.mk (sample_params 3) 1 [4; 5; 1] [6; 3.5; 2; 0.5] [2.5; 1.5; 1.5]
          [4.75; 2.75; 1.25] [0; 0; 2]%Z [] [].

(** A distribution with its densities computed, before [to_nv]. *)
Definition sample_vsd : VSD.t :=
  VSD.mk (Bins.mk (sample_params 2) 1 [2.5; 1.5] [3; 2; 1] [1; 1] [2.5; 1.5]
                  [0; 1]%Z [6; 8] [3; 4])
         1 [0; 0] [] [] [].

(** The same distribution after [ChengLemlich.to_nv]. *)
Definition sample_corrected : VSD.t :=
  VSD.mk (Bins.mk (sample_params 2) 1 [2.5; 1.5] [3; 2; 1] [1; 1] [2.5; 1.5]
                  [0; 1]%Z [6; 8] [3; 4])
         1 [2; 2] [] [] [].

(** A distribution with one bin. *)
Definition sample_single : VSD.t :=
  VSD.mk (Bins.mk (sample_params 1) 1 [5] [5; 4] [1] [4.5] [0]%Z [2] [4.5])
         1 [0] [] [] [].

(** An image after construction, with five vesicles; of the table only
    the two columns a correction can be given are shown. *)
Definition sample_image : Image.t :=
  Image.mk "results.csv" "scale.txt" "micrometers" true true 0 [] [] 0
           [("radius"%string, [0.5; 1; 1.5; 2; 2.5]);
            ("diameter"%string, [1; 2; 3; 4; 5])]
           1 100.

(** A sample holding that image. *)
Definition sample_of_one_image : Sample.t :=
  Sample.mk "basalt" 0 [] [] 1 [("image"%string, 0%nat)] [sample_image]
            0 [] [] 100
            [("radius"%string, [0.5; 1; 1.5; 2; 2.5]);
             ("diameter"%string, [1; 2; 3; 4; 5])].

(** The results of an image analysis with two vesicles, column by
    column, and the table of a scan with two objects. *)
Definition sample_csv : list (list R) :=
  [[PI; 4 * PI]; [1; 2]; [1; 2]; [1; 2]; [1; 2]; [1; 2]; [1; 2]; [1; 2];
   [1; 2]; [1; 2]; [30; 60]; [1; 2]; [1; 2]].

Definition sample_i3d : list (list R) :=
  [[1; 8]; [1; 4]; [0; 1]; [0; 1]; [0; 1]; [1; 2]; [1; 1]].

(** * Properties *)

(** Reading an attribute back after an assignment. *)
Ltac attrs :=
  unfold Bins.set_hbar, Bins.set_na, Bins.set_ind;
  cbn [Bins.params Bins.norm Bins.vesicles Bins.bin_edges Bins.bin_widths
       Bins.bin_centers Bins.ind Bins.na Bins.hbar].

(** ** Running computations *)

Section Running.

Context {A B : Type}.

Lemma bind_ok (m : Py.M A) (f : A -> Py.M B) w a w' :
  m w = inr (a, w') -> Py.bind m f w = f a w'.
Proof. unfold Py.bind. intros ->. reflexivity. Qed.

Lemma bind_raise (m : Py.M A) (f : A -> Py.M B) w e :
  m w = inl e -> Py.bind m f w = inl e.
Proof. unfold Py.bind. intros ->. reflexivity. Qed.


End Running.

Lemma getitem_ok {A} (a : list A) i d w :
  (i < length a)%nat -> Py.getitem a i w = inr (nth i a d, w).
Proof.
  intros H. unfold Py.getitem.
  rewrite (nth_error_nth' a d H). reflexivity.
Qed.

Lemma getitem_raise {A} (a : list A) i w :
  (length a <= i)%nat -> @Py.getitem A a i w = inl Py.IndexError.
Proof.
  intros H. unfold Py.getitem.
  apply nth_error_None in H. rewrite H. reflexivity.
Qed.

Lemma setitem_ok {A} (a : list A) i x w :
  (i < length a)%nat -> Py.setitem a i x w = inr (Py.update a i x, w).
Proof.
  intros H. unfold Py.setitem.
  apply Nat.ltb_lt in H. rewrite H. reflexivity.
Qed.

Lemma length_update {A} (a : list A) i x :
  length (Py.update a i x) = length a.
Proof.
  revert i. induction a as [| y a IH]; intros [| i]; simpl; auto.
Qed.

Lemma nth_update_same {A} (a : list A) i x d :
  (i < length a)%nat -> nth i (Py.update a i x) d = x.
Proof.
  revert i. induction a as [| y a IH]; intros [| i] H; simpl in *;
    try lia; auto.
  apply IH. lia.
Qed.

Lemma nth_update_other {A} (a : list A) i j x d :
  i <> j -> nth j (Py.update a i x) d = nth j a d.
Proof.
  revert i j. induction a as [| y a IH]; intros [| i] [| j] H; simpl;
    try congruence; auto.
Qed.

(** A loop over [start, start + len) that keeps an invariant returns, and
    the invariant holds at the end. *)
Lemma for_in_seq {S} (I : nat -> S -> list Py.warning -> Prop)
    (body : nat -> S -> Py.M S) len :
  forall start s w,
    I start s w ->
    (forall i s w, (start <= i < start + len)%nat -> I i s w ->
       exists s' w', body i s w = inr (s', w') /\ I (Datatypes.S i) s' w') ->
    exists s' w',
      Py.for_in (seq start len) body s w = inr (s', w')
      /\ I (start + len)%nat s' w'.
Proof.
  induction len as [| len IH]; intros start s w H0 Hstep; simpl.
  - exists s, w. rewrite Nat.add_0_r. split; [reflexivity | exact H0].
  - destruct (Hstep start s w ltac:(lia) H0) as (s1 & w1 & Hb & H1).
    rewrite (bind_ok _ _ _ _ _ Hb).
    destruct (IH (Datatypes.S start) s1 w1 H1) as (s2 & w2 & Hl & H2).
    + intros i s' w' Hi. apply Hstep. lia.
    + exists s2, w2. split; [exact Hl |].
      replace (start + Datatypes.S len)%nat with (Datatypes.S start + len)%nat by lia.
      exact H2.
Qed.

(** A loop whose body raises at index [start + k], after [k] passes that
    keep an invariant, raises. *)
Lemma for_in_seq_raise {S} (I : nat -> S -> list Py.warning -> Prop)
    (body : nat -> S -> Py.M S) e k :
  forall len start s w,
    (k < len)%nat ->
    I start s w ->
    (forall i s w, (start <= i < start + k)%nat -> I i s w ->
       exists s' w', body i s w = inr (s', w') /\ I (Datatypes.S i) s' w') ->
    (forall s w, I (start + k)%nat s w -> body (start + k)%nat s w = inl e) ->
    Py.for_in (seq start len) body s w = inl e.
Proof.
  induction k as [| k IH]; intros len start s w Hk H0 Hstep Hraise.
  - destruct len as [| len]; [lia |]. simpl.
    apply bind_raise. rewrite <- (Nat.add_0_r start) at 1.
    rewrite Nat.add_0_r in Hraise. rewrite Nat.add_0_r. apply Hraise. exact H0.
  - destruct len as [| len]; [lia |]. simpl.
    destruct (Hstep start s w ltac:(lia) H0) as (s1 & w1 & Hb & H1).
    rewrite (bind_ok _ _ _ _ _ Hb).
    apply (IH len (Datatypes.S start) s1 w1); [lia | exact H1 | |].
    + intros i s' w' Hi. apply Hstep. lia.
    + intros s' w' HI.
      replace (Datatypes.S start + k)%nat with (start + Datatypes.S k)%nat in * by lia.
      apply Hraise. exact HI.
Qed.

(** ** Arrays *)

Lemma nth_map_combine {A B C} (f : A * B -> C) (a : list A) (b : list B)
    i (da : A) (db : B) (d : C) :
  length a = length b -> (i < length a)%nat ->
  nth i (map f (combine a b)) d = f (nth i a da, nth i b db).
Proof.
  intros Hl Hi.
  rewrite (nth_indep _ d (f (da, db))).
  - rewrite map_nth. rewrite combine_nth by exact Hl. reflexivity.
  - rewrite length_map, length_combine. lia.
Qed.

Lemma nth_map_lt {A B} (f : A -> B) (a : list A) i (da : A) (d : B) :
  (i < length a)%nat -> nth i (map f a) d = f (nth i a da).
Proof.
  intros Hi. rewrite (nth_indep _ d (f da)) by (rewrite length_map; exact Hi).
  apply map_nth.
Qed.

Lemma divide_same_length (a b : list R) w :
  length a = length b ->
  np.divide a b w = inr (map (fun p => fst p / snd p) (combine a b), w).
Proof.
  intros H. unfold np.divide. apply Nat.eqb_eq in H. rewrite H. reflexivity.
Qed.

(** ** ChengLemlich *)

(** C9.  [ChengLemlich.to_nv] divides element by element: it returns, it
    changes nothing but [nv], every [nv[i]] is [na[i] / hbar[i]] (so it
    reads bin [i] only), and over exact real arithmetic
    [nv[i] * hbar[i] = na[i]] wherever [hbar[i]] is not zero. *)
Theorem ChengLemlich_to_nv_elementwise (self : VSD.t) (w : list Py.warning) :
  let N := nbins (VSD.params self) in
  length (Bins.na (VSD.bins self)) = N ->
  length (Bins.hbar (VSD.bins self)) = N ->
  exists self',
    ChengLemlich.to_nv self w = inr (self', w)
    /\ VSD.bins self' = VSD.bins self
    /\ length (VSD.nv self') = N
    /\ forall i, (i < N)%nat ->
         let na_i := nth i (Bins.na (VSD.bins self)) 0 in
         let hbar_i := nth i (Bins.hbar (VSD.bins self)) 0 in
         nth i (VSD.nv self') 0 = na_i / hbar_i
         /\ (hbar_i <> 0 -> nth i (VSD.nv self') 0 * hbar_i = na_i).
Proof.
  intros N Hna Hh.
  unfold ChengLemlich.to_nv.
  rewrite (bind_ok _ _ _ _ _
             (divide_same_length _ _ w (eq_trans Hna (eq_sym Hh)))).
  unfold Py.ret. eexists. split; [reflexivity |]. simpl.
  split; [reflexivity |]. split.
  - rewrite length_map, length_combine. lia.
  - intros i Hi. cbv zeta.
    rewrite (nth_map_combine _ _ _ i 0 0) by lia. simpl.
    split; [reflexivity |].
    intros Hz. field. exact Hz.
Qed.

Lemma ChengLemlich_to_nv_elementwise_witness :
  exists self',
    ChengLemlich.to_nv sample_vsd [] = inr (self', [])
    /\ nth 1 (VSD.nv self') 0 * 4 = 8.
Proof.
  destruct (ChengLemlich_to_nv_elementwise sample_vsd [] eq_refl eq_refl)
    as (self' & Hrun & _ & _ & Hnv).
  exists self'. split; [exact Hrun |].
  destruct (Hnv 1%nat ltac:(simpl; lia)) as [_ H].
  apply H. simpl. lra.
Defined.

(** In binary64 the product need not give [na[i]] back: for [na = [1.0]]
    and [hbar = [49.0]], [to_nv] stores the quotient rounded, and
    [nv[0] * hbar[0]] is [0.9999999999999999], which [==] tells from
    [na[0] = 1.0]. *)
Lemma ChengLemlich_product_counterexample :
  exists nv,
    float64.to_nv [1%float] [49%float] [] = inr (nv, [])
    /\ PrimFloat.eqb 49%float 0%float = false
    /\ PrimFloat.eqb (PrimFloat.mul (nth 0 nv 0%float) 49%float) 1%float
       = false
    /\ PrimFloat.ltb (PrimFloat.mul (nth 0 nv 0%float) 49%float) 1%float
       = true.
Proof.
  eexists. split; [reflexivity |]. repeat split.
Qed.

(** ** Saltikov *)

Section SaltikovLoops.

Variable self : VSD.t.
Variable w : list Py.warning.

Let na := Bins.na (VSD.bins self).
Let hbar := Bins.hbar (VSD.bins self).
Let lag (i k : nat) : R := nth k Saltikov.coeff 0 * nth (i - k) na 0.

Lemma Saltikov_coeff_length : length Saltikov.coeff = 12%nat.
Proof. reflexivity. Qed.

(** One pass of the inner loop, for a lag the kernel has. *)
Lemma Saltikov_add_lag_ok i k s :
  (k < 12)%nat -> (i < length na)%nat ->
  Saltikov.add_lag self i k s w = inr (s + lag i k, w).
Proof.
  intros Hk Hi. unfold Saltikov.add_lag.
  rewrite (bind_ok _ _ _ _ _ (getitem_ok Saltikov.coeff k 0 w Hk)).
  rewrite (bind_ok _ _ _ _ _
             (getitem_ok (Bins.na (VSD.bins self)) (i - k) 0 w
                ltac:(fold na; lia))).
  reflexivity.
Qed.

(** One pass of the inner loop, for a lag beyond the kernel. *)
Lemma Saltikov_add_lag_raise i k s :
  (12 <= k)%nat -> Saltikov.add_lag self i k s w = inl Py.IndexError.
Proof.
  intros Hk. unfold Saltikov.add_lag.
  apply bind_raise. apply getitem_raise. exact Hk.
Qed.

(** The inner loop for a bin below 12 adds the lags 1 to [i]. *)
Lemma Saltikov_lags_ok i s0 :
  (i < 12)%nat -> (i < length na)%nat ->
  exists s,
    Py.for_in (np.arange2 1 (i + 1)) (Saltikov.add_lag self i) s0 w
    = inr (s, w)
    /\ s = s0 - lag i 0 + rsum (lag i) (S i).
Proof.
  intros Hi Hn. unfold np.arange2.
  destruct (for_in_seq
              (fun k s w' => w' = w /\ s = s0 - lag i 0 + rsum (lag i) k)
              (Saltikov.add_lag self i) (i + 1 - 1) 1 s0 w)
    as (s & w' & Hrun & Hw & Hs).
  - split; [reflexivity | simpl; lra].
  - intros k s1 w1 Hk [-> ->].
    rewrite Saltikov_add_lag_ok by lia.
    eexists _, _. split; [reflexivity |].
    split; [reflexivity | simpl; lra].
  - subst w'. exists s. split; [exact Hrun |].
    replace (1 + (i + 1 - 1))%nat with (S i) in Hs by lia. exact Hs.
Qed.

(** The inner loop for bin 12 reaches lag 12 and raises. *)
Lemma Saltikov_lags_raise s0 :
  (12 < length na)%nat ->
  Py.for_in (np.arange2 1 (12 + 1)) (Saltikov.add_lag self 12) s0 w
  = inl Py.IndexError.
Proof.
  intros Hn. unfold np.arange2.
  apply (for_in_seq_raise (fun _ _ w' => w' = w) _ _ 11);
    [simpl; lia | reflexivity | |].
  - intros k s1 w1 Hk ->.
    rewrite Saltikov_add_lag_ok by lia.
    eexists _, _. split; reflexivity.
  - intros s1 w1 ->. apply Saltikov_add_lag_raise. simpl. lia.
Qed.

End SaltikovLoops.

(** One pass of the outer loop for a bin below 12 stores the kernel sum
    over the characteristic size. *)
Lemma Saltikov_bin_ok (self : VSD.t) w i :
  (i < 12)%nat ->
  (i < length (Bins.na (VSD.bins self)))%nat ->
  (i < length (Bins.hbar (VSD.bins self)))%nat ->
  (i < length (VSD.nv self))%nat ->
  exists v,
    Saltikov.to_nv_bin i self w
    = inr (VSD.set_nv self (Py.update (VSD.nv self) i v), w)
    /\ v = kernel_sum Saltikov.coeff (Bins.na (VSD.bins self)) i
           / nth i (Bins.hbar (VSD.bins self)) 0.
Proof.
  intros H12 Hna Hh Hnv. unfold Saltikov.to_nv_bin.
  rewrite (bind_ok _ _ _ _ _ (getitem_ok Saltikov.coeff 0 0 w ltac:(simpl; lia))).
  rewrite (bind_ok _ _ _ _ _ (getitem_ok _ i 0 w Hna)).
  destruct (Saltikov_lags_ok self w i
              (nth 0 Saltikov.coeff 0 * nth i (Bins.na (VSD.bins self)) 0)
              H12 Hna) as (s & Hrun & Hs).
  rewrite (bind_ok _ _ _ _ _ Hrun).
  rewrite (bind_ok _ _ _ _ _ (getitem_ok _ i 0 w Hh)).
  rewrite (bind_ok _ _ _ _ _ (setitem_ok _ i _ w Hnv)).
  eexists. split; [reflexivity |].
  unfold kernel_sum. rewrite Nat.min_l by lia.
  rewrite Hs. rewrite Nat.sub_0_r. unfold Rdiv. ring.
Qed.

(** The pass for bin 12 raises. *)
Lemma Saltikov_bin_raise (self : VSD.t) w :
  (12 < length (Bins.na (VSD.bins self)))%nat ->
  Saltikov.to_nv_bin 12 self w = inl Py.IndexError.
Proof.
  intros Hna. unfold Saltikov.to_nv_bin.
  rewrite (bind_ok _ _ _ _ _ (getitem_ok Saltikov.coeff 0 0 w ltac:(simpl; lia))).
  rewrite (bind_ok _ _ _ _ _ (getitem_ok _ 12 0 w Hna)).
  apply bind_raise. apply Saltikov_lags_raise. exact Hna.
Qed.

Lemma Saltikov_inv_step (self : VSD.t) w N i s w' :
  length (Bins.na (VSD.bins self)) = N ->
  length (Bins.hbar (VSD.bins self)) = N ->
  length (VSD.nv self) = N ->
  (i < 12)%nat -> (i < N)%nat ->
  Saltikov_inv self w i s w' ->
  exists s1 w1,
    Saltikov.to_nv_bin i s w' = inr (s1, w1)
    /\ Saltikov_inv self w (S i) s1 w1.
Proof.
  intros Hna Hh Hnv H12 HiN (-> & Hb & Hl & Hdone).
  destruct (Saltikov_bin_ok s w i H12) as (v & Hrun & Hv);
    try (rewrite ?Hb; lia).
  exists (VSD.set_nv s (Py.update (VSD.nv s) i v)), w.
  split; [exact Hrun |].
  split; [reflexivity |]. split; [exact Hb |]. simpl.
  split; [rewrite length_update; exact Hl |].
  intros j Hj. destruct (Nat.eq_dec i j) as [<- | Hne].
  - rewrite nth_update_same by lia. rewrite Hv, Hb. reflexivity.
  - rewrite nth_update_other by exact Hne. apply Hdone. lia.
Qed.

(** For at most 12 bins [Saltikov.to_nv] returns and every bin holds the
    kernel sum of the specification over its characteristic size. *)
Lemma Saltikov_to_nv_upto_12 (self : VSD.t) w :
  let N := nbins (VSD.params self) in
  length (Bins.na (VSD.bins self)) = N ->
  length (Bins.hbar (VSD.bins self)) = N ->
  length (VSD.nv self) = N ->
  (N <= 12)%nat ->
  exists self',
    Saltikov.to_nv self w = inr (self', w)
    /\ VSD.bins self' = VSD.bins self
    /\ length (VSD.nv self') = N
    /\ forall i, (i < N)%nat ->
         nth i (VSD.nv self') 0
         = kernel_sum Saltikov.coeff (Bins.na (VSD.bins self)) i
           / nth i (Bins.hbar (VSD.bins self)) 0.
Proof.
  intros N Hna Hh Hnv HN. unfold Saltikov.to_nv, np.arange. fold N.
  destruct (for_in_seq (Saltikov_inv self w) Saltikov.to_nv_bin N 0 self w)
    as (s & w' & Hrun & -> & Hb & Hl & Hdone).
  - repeat split. intros j Hj. lia.
  - intros i s w' Hi. apply (Saltikov_inv_step self w N); auto; lia.
  - exists s. split; [exact Hrun |]. split; [exact Hb |].
    split; [lia |]. exact Hdone.
Qed.

(** With more than 12 bins [Saltikov.to_nv] raises [IndexError]: bin 12
    asks the 12-entry kernel for [coeff[12]]. *)
Lemma Saltikov_to_nv_beyond_12 (self : VSD.t) w :
  let N := nbins (VSD.params self) in
  length (Bins.na (VSD.bins self)) = N ->
  length (Bins.hbar (VSD.bins self)) = N ->
  length (VSD.nv self) = N ->
  (12 < N)%nat ->
  Saltikov.to_nv self w = inl Py.IndexError.
Proof.
  intros N Hna Hh Hnv HN. unfold Saltikov.to_nv, np.arange. fold N.
  apply (for_in_seq_raise (Saltikov_inv self w) _ _ 12); [exact HN | | |].
  - repeat split. intros j Hj. lia.
  - intros i s w' Hi. apply (Saltikov_inv_step self w N); auto; lia.
  - intros s w' (-> & Hb & _). simpl.
    apply Saltikov_bin_raise. rewrite Hb. lia.
Qed.

(** ** Slices, maxima and minima *)

Lemma nth_tl {A} (a : list A) i d : nth i (tl a) d = nth (S i) a d.
Proof. destruct a; [destruct i |]; reflexivity. Qed.

Lemma length_removelast {A} (a : list A) :
  length (removelast a) = (length a - 1)%nat.
Proof.
  rewrite removelast_firstn_len, length_firstn. lia.
Qed.

Lemma nth_removelast {A} (a : list A) i d :
  (S i < length a)%nat -> nth i (removelast a) d = nth i a d.
Proof.
  intros H. rewrite removelast_firstn_len, nth_firstn.
  destruct (Nat.ltb_spec i (Nat.pred (length a))); [reflexivity | lia].
Qed.

Lemma nth_sub (a b : list R) i :
  length a = length b -> (i < length a)%nat ->
  nth i (Bins.sub a b) 0 = nth i a 0 - nth i b 0.
Proof.
  intros Hl Hi. unfold Bins.sub.
  rewrite (nth_map_combine _ _ _ i 0 0) by assumption. reflexivity.
Qed.

Lemma length_sub (a b : list R) :
  length a = length b -> length (Bins.sub a b) = length a.
Proof.
  intros Hl. unfold Bins.sub. rewrite length_map, length_combine. lia.
Qed.

Lemma fold_left_Rmax_spec (a : list R) (x : R) :
  let m := fold_left Rmax a x in
  In m (x :: a) /\ forall y, In y (x :: a) -> y <= m.
Proof.
  revert x. induction a as [| z a IH]; intros x; simpl.
  - split; [left; reflexivity |]. intros y [<- | []]. lra.
  - destruct (IH (Rmax x z)) as [Hin Hle]. simpl in Hin, Hle. split.
    + destruct Hin as [Hin | Hin]; [| right; right; exact Hin].
      rewrite <- Hin. unfold Rmax. destruct (Rle_dec x z); auto.
    + intros y [<- | [<- | Hy]].
      * apply Rle_trans with (Rmax x z); [apply Rmax_l | apply Hle; auto].
      * apply Rle_trans with (Rmax x z); [apply Rmax_r | apply Hle; auto].
      * apply Hle. auto.
Qed.

Lemma fold_left_Rmin_spec (a : list R) (x : R) :
  let m := fold_left Rmin a x in
  In m (x :: a) /\ forall y, In y (x :: a) -> m <= y.
Proof.
  revert x. induction a as [| z a IH]; intros x; simpl.
  - split; [left; reflexivity |]. intros y [<- | []]. lra.
  - destruct (IH (Rmin x z)) as [Hin Hle]. simpl in Hin, Hle. split.
    + destruct Hin as [Hin | Hin]; [| right; right; exact Hin].
      rewrite <- Hin. unfold Rmin. destruct (Rle_dec x z); auto.
    + intros y [<- | [<- | Hy]].
      * apply Rle_trans with (Rmin x z); [apply Hle; auto | apply Rmin_l].
      * apply Rle_trans with (Rmin x z); [apply Hle; auto | apply Rmin_r].
      * apply Hle. auto.
Qed.

(** [np.max] of a non-empty array returns its greatest element. *)
Lemma max_ok (a : list R) w :
  a <> [] ->
  exists m, np.max a w = inr (m, w) /\ In m a /\ forall y, In y a -> y <= m.
Proof.
  destruct a as [| x a]; [congruence |]. intros _.
  exists (fold_left Rmax a x). split; [reflexivity |].
  apply fold_left_Rmax_spec.
Qed.

(** [np.min] of a non-empty array returns its least element. *)
Lemma min_ok (a : list R) w :
  a <> [] ->
  exists m, np.min a w = inr (m, w) /\ In m a /\ forall y, In y a -> m <= y.
Proof.
  destruct a as [| x a]; [congruence |]. intros _.
  exists (fold_left Rmin a x). split; [reflexivity |].
  apply fold_left_Rmin_spec.
Qed.

(** ** Bin edges *)

Lemma INR_pos_of_lt (N : nat) : (0 < N)%nat -> 0 < INR N.
Proof. intros H. apply lt_0_INR. exact H. Qed.

Lemma linspace_length start stop N :
  length (np.linspace start stop (N + 1)) = (N + 1)%nat.
Proof.
  unfold np.linspace, np.arange.
  assert (Hy : forall g : R -> R,
            length (map (fun v => v + start) (map g (map INR (seq 0 (N + 1)))))
            = (N + 1)%nat).
  { intros g. rewrite !length_map, length_seq. reflexivity. }
  destruct (1 <? N + 1)%nat eqn:E1.
  - rewrite length_app, length_removelast. simpl length at 2.
    destruct (0 <? N + 1 - 1)%nat; [destruct (Req_dec_T _ _) |];
      rewrite Hy; lia.
  - destruct (0 <? N + 1 - 1)%nat; [destruct (Req_dec_T _ _) |]; apply Hy.
Qed.

(** The [i]-th of the [N + 1] samples of [np.linspace]. *)
Lemma linspace_nth start stop N i :
  (0 < N)%nat -> (i <= N)%nat ->
  nth i (np.linspace start stop (N + 1)) 0
  = start + INR i * ((stop - start) / INR N).
Proof.
  intros HN Hi. pose proof (INR_pos_of_lt N HN) as HNpos.
  unfold np.linspace, np.arange.
  replace (N + 1 - 1)%nat with N by lia.
  destruct (Nat.ltb_spec 0 N) as [_ | ?]; [| lia].
  destruct (Nat.ltb_spec 1 (N + 1)) as [_ | ?]; [| lia].
  set (g := fun v : R =>
              if Req_dec_T ((stop - start) / INR N) 0
              then v / INR N * (stop - start)
              else v * ((stop - start) / INR N)).
  assert (Hg : forall v, g v = v * ((stop - start) / INR N)).
  { intros v. unfold g. destruct (Req_dec_T _ _); [field; lra | reflexivity]. }
  assert (Hy :
    (if Req_dec_T ((stop - start) / INR N) 0
     then map (fun v => v / INR N * (stop - start)) (map INR (seq 0 (N + 1)))
     else map (fun v => v * ((stop - start) / INR N)) (map INR (seq 0 (N + 1))))
    = map g (map INR (seq 0 (N + 1)))).
  { unfold g. destruct (Req_dec_T _ _); reflexivity. }
  rewrite Hy. clear Hy.
  set (y := map (fun v => v + start) (map g (map INR (seq 0 (N + 1))))).
  assert (Hlen : length y = (N + 1)%nat).
  { unfold y. rewrite !length_map, length_seq. reflexivity. }
  destruct (Nat.eq_dec i N) as [-> | Hne].
  - replace N with (length (removelast y)) at 1
      by (rewrite length_removelast; lia).
    rewrite nth_middle. field. lra.
  - rewrite app_nth1 by (rewrite length_removelast; lia).
    rewrite nth_removelast by lia. unfold y.
    rewrite (nth_map_lt _ _ i 0) by (rewrite !length_map, length_seq; lia).
    rewrite (nth_map_lt _ _ i 0) by (rewrite length_map, length_seq; lia).
    rewrite (nth_map_lt _ _ i O) by (rewrite length_seq; lia).
    rewrite seq_nth by lia. rewrite Hg. simpl. lra.
Qed.

Lemma strictly_decreasing_le (a : list R) i j :
  strictly_decreasing a -> (i <= j)%nat -> (j < length a)%nat ->
  nth j a 0 <= nth i a 0.
Proof.
  intros Hd Hij Hj. induction Hij as [| j Hij IH].
  - lra.
  - specialize (Hd j Hj). specialize (IH ltac:(lia)). lra.
Qed.

Lemma strictly_decreasing_lt (a : list R) i j :
  strictly_decreasing a -> (i < j)%nat -> (j < length a)%nat ->
  nth j a 0 < nth i a 0.
Proof.
  intros Hd Hij Hj. destruct j as [| j]; [lia |].
  pose proof (Hd j Hj).
  pose proof (strictly_decreasing_le a i j Hd ltac:(lia) ltac:(lia)). lra.
Qed.

(** Linear edges over a measurement set. *)
Lemma linear_edges_ok (p : Params) (vs : list R) w :
  bin_method p = linear -> measurements vs -> (0 < nbins p)%nat ->
  exists edges hi lo,
    Bins.edges_of p vs w = inr (edges, w)
    /\ np.max vs w = inr (hi, w) /\ np.min vs w = inr (lo, w)
    /\ length edges = (nbins p + 1)%nat
    /\ (forall i, (i <= nbins p)%nat ->
          nth i edges 0
          = hi * 1.0000001
            + INR i * ((lo * 0.9999999 - hi * 1.0000001) / INR (nbins p)))
    /\ strictly_decreasing edges
    /\ 0 < nth (nbins p) edges 0
    /\ (forall v, In v vs -> v < nth 0 edges 0).
Proof.
  intros Hm [Hne Hpos] HN. unfold Bins.edges_of. rewrite Hm.
  destruct (max_ok vs w Hne) as (hi & Hmax & Hhi & Hle).
  destruct (min_ok vs w Hne) as (lo & Hmin & Hlo & Hge).
  rewrite (bind_ok _ _ _ _ _ Hmax), (bind_ok _ _ _ _ _ Hmin).
  rewrite Forall_forall in Hpos.
  pose proof (Hpos _ Hhi) as Hhi0. pose proof (Hpos _ Hlo) as Hlo0.
  pose proof (Hge _ Hhi) as Hlohi.
  pose proof (INR_pos_of_lt _ HN) as HNpos.
  set (edges := np.linspace (hi * 1.0000001) (lo * 0.9999999) (nbins p + 1)).
  assert (Hnth : forall i, (i <= nbins p)%nat ->
            nth i edges 0
            = hi * 1.0000001
              + INR i * ((lo * 0.9999999 - hi * 1.0000001) / INR (nbins p))).
  { intros i Hi. apply linspace_nth; assumption. }
  assert (Hstep : (lo * 0.9999999 - hi * 1.0000001) / INR (nbins p) < 0).
  { apply Rmult_neg_pos; [lra | apply Rinv_0_lt_compat; exact HNpos]. }
  exists edges, hi, lo. repeat split; auto.
  - apply linspace_length.
  - intros i Hi. unfold edges in Hi. rewrite linspace_length in Hi.
    rewrite !Hnth by lia. rewrite S_INR. lra.
  - rewrite Hnth by lia. field_simplify; lra.
  - intros v Hv. rewrite Hnth by lia. simpl. specialize (Hle v Hv). lra.
Qed.

(** Geometric edges over a measurement set. *)
Lemma geometric_edges_ok (p : Params) (vs : list R) w :
  bin_method p = geometric -> measurements vs -> (0 < nbins p)%nat ->
  exists edges hi,
    Bins.edges_of p vs w = inr (edges, w)
    /\ np.max vs w = inr (hi, w)
    /\ length edges = (nbins p + 1)%nat
    /\ (forall i, (i <= nbins p)%nat ->
          nth i edges 0 = hi * Rpower 10 (-0.1 * INR i))
    /\ strictly_decreasing edges
    /\ 0 < nth (nbins p) edges 0
    /\ (forall v, In v vs -> v <= nth 0 edges 0).
Proof.
  intros Hm [Hne Hpos] HN. unfold Bins.edges_of. rewrite Hm.
  destruct (max_ok vs w Hne) as (hi & Hmax & Hhi & Hle).
  rewrite (bind_ok _ _ _ _ _ Hmax).
  rewrite Forall_forall in Hpos. pose proof (Hpos _ Hhi) as Hhi0.
  set (edges := map (fun k => hi * Rpower 10 (-0.1 * INR k))
                    (np.arange (nbins p + 1))).
  assert (Hlen : length edges = (nbins p + 1)%nat).
  { unfold edges, np.arange. rewrite length_map, length_seq. reflexivity. }
  assert (Hnth : forall i, (i <= nbins p)%nat ->
            nth i edges 0 = hi * Rpower 10 (-0.1 * INR i)).
  { intros i Hi. unfold edges, np.arange.
    rewrite (nth_map_lt _ _ i O) by (rewrite length_seq; lia).
    rewrite seq_nth by lia. reflexivity. }
  exists edges, hi. repeat split; auto.
  - intros i Hi. rewrite Hlen in Hi. rewrite !Hnth by lia.
    apply Rmult_lt_compat_l; [exact Hhi0 |].
    apply Rpower_lt; [lra |]. rewrite S_INR. lra.
  - rewrite Hnth by lia. apply Rmult_lt_0_compat; [exact Hhi0 |].
    unfold Rpower. apply exp_pos.
  - intros v Hv. rewrite Hnth by lia. simpl.
    rewrite Rmult_0_r, Rpower_O by lra. specialize (Hle v Hv). lra.
Qed.

(** Either kind of edges over a measurement set: [N + 1] of them, in
    descending order, the last one positive and none of the measurements
    above the first. *)
Lemma edges_of_ok (p : Params) (vs : list R) w :
  measurements vs -> (0 < nbins p)%nat ->
  exists edges,
    Bins.edges_of p vs w = inr (edges, w)
    /\ length edges = (nbins p + 1)%nat
    /\ strictly_decreasing edges
    /\ 0 < nth (nbins p) edges 0
    /\ (forall v, In v vs -> v <= nth 0 edges 0).
Proof.
  intros Hvs HN. destruct (bin_method p) eqn:Hm.
  - destruct (linear_edges_ok p vs w Hm Hvs HN)
      as (edges & hi & lo & Hrun & _ & _ & Hlen & _ & Hd & Hlast & Hfirst).
    exists edges. repeat split; auto.
    intros v Hv. apply Rlt_le. apply Hfirst. exact Hv.
  - destruct (geometric_edges_ok p vs w Hm Hvs HN)
      as (edges & hi & Hrun & _ & Hlen & _ & Hd & Hlast & Hfirst).
    exists edges. repeat split; auto.
Qed.

(** Widths and centers derived from descending edges. *)
Lemma widths_centers_ok (edges : list R) N :
  length edges = (N + 1)%nat -> strictly_decreasing edges ->
  let widths := map Rabs (Bins.sub (tl edges) (removelast edges)) in
  let centers := Bins.sub (removelast edges) (map (fun w => w / 2) widths) in
  length widths = N /\ length centers = N
  /\ forall i, (i < N)%nat ->
       nth i widths 0 = nth i edges 0 - nth (S i) edges 0
       /\ 0 < nth i widths 0
       /\ nth i centers 0 = nth i edges 0 - nth i widths 0 / 2.
Proof.
  intros Hlen Hd widths centers.
  assert (Htl : length (tl edges) = N) by (rewrite length_tl; lia).
  assert (Hrl : length (removelast edges) = N)
    by (rewrite length_removelast; lia).
  assert (Hw : length widths = N).
  { unfold widths. rewrite length_map, length_sub; lia. }
  assert (Hc : length centers = N).
  { unfold centers. rewrite length_sub; rewrite ?length_map; lia. }
  split; [exact Hw |]. split; [exact Hc |].
  intros i Hi.
  assert (Hwi : nth i widths 0 = nth i edges 0 - nth (S i) edges 0).
  { unfold widths.
    rewrite (nth_map_lt _ _ i 0) by (rewrite length_sub; lia).
    rewrite nth_sub by lia.
    rewrite nth_tl, nth_removelast by lia.
    specialize (Hd i ltac:(lia)).
    rewrite Rabs_left by lra. lra. }
  split; [exact Hwi |]. split.
  - rewrite Hwi. specialize (Hd i ltac:(lia)). lra.
  - unfold centers. rewrite nth_sub by (rewrite ?length_map; lia).
    rewrite nth_removelast by lia.
    rewrite (nth_map_lt _ _ i 0) by lia. reflexivity.
Qed.

(** [_create_bins] over a measurement set. *)
Lemma create_bins_ok (p : Params) (vs : list R) w :
  measurements vs -> (0 < nbins p)%nat ->
  exists edges widths centers,
    Bins._create_bins p vs w = inr ((edges, widths, centers), w)
    /\ Bins.edges_of p vs w = inr (edges, w)
    /\ length edges = (nbins p + 1)%nat
    /\ strictly_decreasing edges
    /\ 0 < nth (nbins p) edges 0
    /\ (forall v, In v vs -> v <= nth 0 edges 0)
    /\ length widths = nbins p /\ length centers = nbins p
    /\ forall i, (i < nbins p)%nat ->
         nth i widths 0 = nth i edges 0 - nth (S i) edges 0
         /\ 0 < nth i widths 0
         /\ nth i centers 0 = nth i edges 0 - nth i widths 0 / 2.
Proof.
  intros Hvs HN.
  destruct (edges_of_ok p vs w Hvs HN)
    as (edges & Hrun & Hlen & Hd & Hlast & Hfirst).
  unfold Bins._create_bins. rewrite (bind_ok _ _ _ _ _ Hrun).
  destruct (widths_centers_ok edges (nbins p) Hlen Hd) as (Hw & Hc & Hi).
  eexists _, _, _. split; [reflexivity |].
  repeat split; auto; apply Hi; assumption.
Qed.

(** C5.  For a non-empty array of positive measurements and a positive
    bin count [N], [_create_bins] (linear or geometric) returns [N + 1]
    edges in strictly descending order and [N] strictly positive widths
    [|edge[i+1] - edge[i]|], with [center[i] = edge[i] - width[i] / 2]. *)
Theorem create_bins_invariant (p : Params) (vs : list R) w :
  measurements vs -> (0 < nbins p)%nat ->
  exists edges widths centers,
    Bins._create_bins p vs w = inr ((edges, widths, centers), w)
    /\ length edges = (nbins p + 1)%nat
    /\ strictly_decreasing edges
    /\ length widths = nbins p
    /\ length centers = nbins p
    /\ forall i, (i < nbins p)%nat ->
         nth i widths 0 = Rabs (nth (S i) edges 0 - nth i edges 0)
         /\ 0 < nth i widths 0
         /\ nth i centers 0 = nth i edges 0 - nth i widths 0 / 2.
Proof.
  intros Hvs HN.
  destruct (create_bins_ok p vs w Hvs HN)
    as (edges & widths & centers & Hrun & _ & Hlen & Hd & _ & _ & Hw & Hc & Hi).
  exists edges, widths, centers. repeat split; auto; try (apply Hi; assumption).
  destruct (Hi i H) as (Hwi & Hpos & _).
  rewrite Rabs_left by lra. lra.
Qed.

(** ** Digitizing against descending edges *)

Lemma strictly_decreasing_tail (x : R) (a : list R) :
  strictly_decreasing (x :: a) -> strictly_decreasing a.
Proof.
  intros H i Hi. apply (H (S i)). simpl. lia.
Qed.

Lemma strictly_decreasing_head (x y : R) (a : list R) :
  strictly_decreasing (x :: y :: a) -> y < x.
Proof.
  intros H. apply (H O). simpl. lia.
Qed.

Lemma nonincreasing_of_decreasing (x : R) (a : list R) :
  strictly_decreasing (x :: a) -> np.nonincreasing x a = true.
Proof.
  revert x. induction a as [| y a IH]; intros x H; simpl; [reflexivity |].
  pose proof (strictly_decreasing_head _ _ _ H).
  destruct (Rlt_dec x y); [lra |].
  apply IH. exact (strictly_decreasing_tail _ _ H).
Qed.

(** Two or more descending edges are recognised as such. *)
Lemma monotonicity_decreasing (a : list R) :
  strictly_decreasing a -> (2 <= length a)%nat -> np.monotonicity a = (-1)%Z.
Proof.
  destruct a as [| x [| y a]]; simpl; try lia. intros H _.
  pose proof (strictly_decreasing_head _ _ _ H).
  destruct (Req_dec_T y x); [lra |].
  destruct (Rlt_dec x y); [lra |].
  rewrite nonincreasing_of_decreasing; [reflexivity |].
  exact (strictly_decreasing_tail _ _ H).
Qed.

(** The scan of [searchsorted] stops at the first element not below [v]. *)
Lemma searchsorted_left_spec (a : list R) (v : R) :
  let s := np.searchsorted_left a v in
  (s <= length a)%nat
  /\ (forall j, (j < s)%nat -> nth j a 0 < v)
  /\ ((s < length a)%nat -> v <= nth s a 0).
Proof.
  induction a as [| y a IH]; simpl.
  - split; [lia |]. split; intros; lia.
  - destruct (Rlt_dec y v) as [Hlt | Hge].
    + destruct IH as (H1 & H2 & H3). split; [lia |]. split.
      * intros [| j] Hj; [exact Hlt | apply H2; lia].
      * intros Hs. apply H3. lia.
    + split; [lia |]. split; [intros; lia |]. intros _. lra.
Qed.

(** Against descending edges the digitized value is the number of edges
    at or above the measurement. *)
Lemma digitize1_decreasing (edges : list R) (v : R) :
  strictly_decreasing edges ->
  let d := np.digitize1 (-1) edges v in
  (d <= length edges)%nat
  /\ (forall j, (j < d)%nat -> v <= nth j edges 0)
  /\ (forall j, (d <= j)%nat -> (j < length edges)%nat -> nth j edges 0 < v).
Proof.
  intros Hd. unfold np.digitize1. simpl Z.eqb. cbv iota.
  destruct (searchsorted_left_spec (rev edges) v) as (H1 & H2 & H3).
  set (s := np.searchsorted_left (rev edges) v) in *.
  rewrite length_rev in H1, H3.
  split; [lia |]. split.
  - intros j Hj.
    assert (Hs : (s < length edges)%nat) by lia.
    specialize (H3 Hs). rewrite rev_nth in H3 by exact Hs.
    pose proof (strictly_decreasing_le edges j (length edges - S s) Hd
                  ltac:(lia) ltac:(lia)). lra.
  - intros j Hj Hlen.
    specialize (H2 (length edges - S j)%nat ltac:(lia)).
    rewrite rev_nth in H2 by lia.
    replace (length edges - S (length edges - S j))%nat with j in H2 by lia.
    exact H2.
Qed.

(** The index assigned to a measurement, in terms of the edges around it. *)
Lemma assign_decreasing (edges : list R) (N : nat) (v : R) :
  (0 < N)%nat -> length edges = (N + 1)%nat -> strictly_decreasing edges ->
  let k := Bins.assign edges v in
  (-1 <= k <= Z.of_nat N)%Z
  /\ (forall j, (Z.of_nat j <= k)%Z -> v <= nth j edges 0)
  /\ (forall j, (k < Z.of_nat j)%Z -> (j <= N)%nat -> nth j edges 0 < v).
Proof.
  intros HN Hlen Hd. unfold Bins.assign.
  rewrite monotonicity_decreasing by (auto; lia).
  destruct (digitize1_decreasing edges v Hd) as (H1 & H2 & H3).
  set (d := np.digitize1 (-1) edges v) in *.
  split; [lia |]. split.
  - intros j Hj. apply H2. lia.
  - intros j Hj HjN. apply H3; lia.
Qed.

Lemma fold_left_Zmax_spec (a : list Z) (x : Z) :
  let m := fold_left Z.max a x in
  In m (x :: a) /\ forall y, In y (x :: a) -> (y <= m)%Z.
Proof.
  revert x. induction a as [| z a IH]; intros x; simpl.
  - split; [left; reflexivity |]. intros y [<- | []]. lia.
  - destruct (IH (Z.max x z)) as [Hin Hle]. simpl in Hin, Hle. split.
    + destruct Hin as [Hin | Hin]; [| right; right; exact Hin].
      rewrite <- Hin. destruct (Z.max_spec x z) as [[_ ->] | [_ ->]]; auto.
    + intros y [<- | [<- | Hy]].
      * specialize (Hle (Z.max x z) (or_introl eq_refl)). lia.
      * specialize (Hle (Z.max x z) (or_introl eq_refl)). lia.
      * apply Hle. auto.
Qed.

Lemma count_ge_zero_iff (idx : list Z) (N : nat) :
  Bins.count_ge idx N = O <-> forall k, In k idx -> (k < Z.of_nat N)%Z.
Proof.
  unfold Bins.count_ge. induction idx as [| x idx IH]; simpl.
  - split; [intros _ k [] | reflexivity].
  - destruct (Z.leb_spec (Z.of_nat N) x) as [Hle | Hlt]; simpl.
    + split; [discriminate |]. intros H. specialize (H x (or_introl eq_refl)). lia.
    + rewrite IH. split.
      * intros H k [<- | Hk]; [exact Hlt | apply H; exact Hk].
      * intros H k Hk. apply H. right. exact Hk.
Qed.

(** [__check_inrange] on a non-empty index array: it returns, and warns
    exactly when some index reaches [nbins], reporting how many do. *)
Lemma check_inrange_ok (b : Bins.t) w :
  Bins.ind b <> [] ->
  let c := Bins.count_ge (Bins.ind b) (nbins (Bins.params b)) in
  Bins.check_inrange b w
  = inr (tt, w ++ (if (c =? 0)%nat then []
                   else [Py.SmallerThanAnyBinEdge c])).
Proof.
  intros Hne. cbv zeta. unfold Bins.check_inrange, np.maxZ.
  destruct (Bins.ind b) as [| x idx]; [congruence |].
  set (c := Bins.count_ge (x :: idx) (nbins (Bins.params b))).
  unfold Py.bind, Py.ret.
  destruct (fold_left_Zmax_spec idx x) as [Hin Hle].
  set (m := fold_left Z.max idx x) in *.
  destruct (Z.leb_spec (Z.of_nat (nbins (Bins.params b))) m) as [Hm | Hm].
  - destruct (Nat.eqb_spec c 0) as [Hc | Hc]; [| reflexivity].
    unfold c in Hc. rewrite count_ge_zero_iff in Hc.
    specialize (Hc m Hin). lia.
  - destruct (Nat.eqb_spec c 0) as [Hc | Hc].
    + rewrite app_nil_r. reflexivity.
    + exfalso. apply Hc. unfold c. apply count_ge_zero_iff.
      intros k Hk. specialize (Hle k Hk). lia.
Qed.

(** [bin_data] against descending edges: every measurement gets its
    [assign]ed index, and the range advisory reports the indices that
    reach [nbins]. *)
Lemma bin_data_ok (b : Bins.t) w :
  let N := nbins (Bins.params b) in
  let idx := map (Bins.assign (Bins.bin_edges b)) (Bins.vesicles b) in
  (0 < N)%nat -> length (Bins.bin_edges b) = (N + 1)%nat ->
  strictly_decreasing (Bins.bin_edges b) -> Bins.vesicles b <> [] ->
  Bins.bin_data b w
  = inr (Bins.set_ind b idx,
         w ++ (if (Bins.count_ge idx N =? 0)%nat then []
               else [Py.SmallerThanAnyBinEdge (Bins.count_ge idx N)])).
Proof.
  intros N idx HN Hlen Hd Hne. unfold Bins.bin_data, np.digitize.
  rewrite monotonicity_decreasing by (auto; lia). simpl Z.eqb. cbv iota.
  unfold Py.bind at 1. unfold Py.ret at 1.
  rewrite map_map.
  assert (Hidx : map (fun x => (Z.of_nat (np.digitize1 (-1) (Bins.bin_edges b) x) - 1)%Z)
                     (Bins.vesicles b) = idx).
  { unfold idx. apply map_ext. intros v. unfold Bins.assign.
    rewrite monotonicity_decreasing by (auto; lia). reflexivity. }
  rewrite Hidx.
  assert (Hind : Bins.ind (Bins.set_ind b idx) <> []).
  { simpl. unfold idx. destruct (Bins.vesicles b); [congruence | discriminate]. }
  rewrite (bind_ok _ _ _ _ _ (check_inrange_ok (Bins.set_ind b idx) w Hind)).
  reflexivity.
Qed.

(** ** Building the bins *)

Lemma measurements_scaled (vs : list R) (m : R) :
  measurements vs -> 0 < m -> measurements (map (fun v => v / m) vs).
Proof.
  intros [Hne Hpos] Hm. split.
  - destruct vs; [congruence | discriminate].
  - rewrite Forall_forall in *. intros y Hy.
    apply in_map_iff in Hy. destruct Hy as (x & <- & Hx).
    apply Rdiv_lt_0_compat; [apply Hpos; exact Hx | exact Hm].
Qed.

(** [Bins.__init__] over a measurement set returns, without an advisory,
    bins that are [built]; without normalization the measurements are kept
    and [norm] is 1. *)
Lemma Bins_init_ok (vs : list R) (p : Params) w :
  measurements vs -> (0 < nbins p)%nat ->
  exists b,
    Bins.init vs p w = inr (b, w)
    /\ built b
    /\ Bins.params b = p
    /\ length (Bins.vesicles b) = length vs
    /\ (normalized p = false -> Bins.vesicles b = vs /\ Bins.norm b = 1)
    /\ Bins.edges_of p (Bins.vesicles b) w = inr (Bins.bin_edges b, w).
Proof.
  intros Hvs HN. unfold Bins.init.
  assert (Hnv : exists m vs',
            (if normalized p
             then m <- np.max vs ;; Py.ret (m, map (fun v => v / m) vs)
             else Py.ret (1, vs)) w = inr ((m, vs'), w)
            /\ 0 < m /\ measurements vs' /\ length vs' = length vs
            /\ (normalized p = false -> vs' = vs /\ m = 1)).
  { destruct (normalized p).
    - destruct Hvs as [Hne Hpos].
      destruct (max_ok vs w Hne) as (m & Hmax & Hin & _).
      rewrite Forall_forall in Hpos. pose proof (Hpos _ Hin) as Hm.
      exists m, (map (fun v => v / m) vs).
      rewrite (bind_ok _ _ _ _ _ Hmax). split; [reflexivity |].
      split; [exact Hm |]. split.
      + apply measurements_scaled; [split; [exact Hne |] | exact Hm].
        rewrite Forall_forall. exact Hpos.
      + split; [apply length_map | discriminate].
    - exists 1, vs. split; [reflexivity |]. split; [lra |]. auto. }
  destruct Hnv as (m & vs' & Hrun & Hm & Hvs' & Hlen & Hraw).
  rewrite (bind_ok _ _ _ _ _ Hrun).
  destruct (create_bins_ok p vs' w Hvs' HN)
    as (edges & widths & centers & Hcb & Heq & He & Hd & Hlast & Hfirst
        & Hw & Hc & Hi).
  simpl fst. simpl snd.
  rewrite (bind_ok _ _ _ _ _ Hcb).
  eexists. split; [reflexivity |]. simpl.
  split; [constructor; simpl; auto |]. auto 10.
Qed.

(** ** Bin assignment *)

(** The three cases of the assignment of one measurement [v] against
    [N + 1] descending edges. *)
Lemma assign_cases (edges : list R) (N : nat) (v : R) :
  (0 < N)%nat -> length edges = (N + 1)%nat -> strictly_decreasing edges ->
  let k := Bins.assign edges v in
  let edge := fun i => nth i edges 0 in
  (edge N < v <= edge O ->
     exists i, k = Z.of_nat i /\ (i < N)%nat
       /\ edge (S i) < v <= edge i
       /\ forall j, (j < i)%nat -> ~ (edge (S j) < v <= edge j))
  /\ (v = edge O -> k = 0%Z)
  /\ (v <= edge N ->
        k = Z.of_nat N
        /\ forall i, (i < N)%nat -> (k =? Z.of_nat i)%Z = false).
Proof.
  intros HN Hlen Hd k edge.
  destruct (assign_decreasing edges N v HN Hlen Hd) as (Hk & Hge & Hlt).
  fold k in Hk, Hge, Hlt.
  assert (Hin : edge N < v <= edge O -> (0 <= k < Z.of_nat N)%Z).
  { intros [HvN Hv0]. split.
    - destruct (Z_lt_le_dec k 0) as [Hneg | ?]; [| assumption].
      specialize (Hlt O ltac:(lia) ltac:(lia)). fold (edge O) in Hlt. lra.
    - destruct (Z_lt_le_dec k (Z.of_nat N)) as [? | Hbig]; [assumption |].
      specialize (Hge N Hbig). fold (edge N) in Hge. lra. }
  split; [| split].
  - intros Hv. specialize (Hin Hv).
    exists (Z.to_nat k). split; [lia |]. split; [lia |]. split.
    + split.
      * apply Hlt; lia.
      * apply Hge. lia.
    + intros j Hj [Hbelow _].
      specialize (Hge (S j) ltac:(lia)). fold (edge (S j)) in Hge. lra.
  - intros Hv.
    assert (Hv' : edge N < v <= edge O).
    { split; [| lra]. rewrite Hv.
      apply strictly_decreasing_lt; [exact Hd | lia | lia]. }
    specialize (Hin Hv').
    destruct (Z.eq_dec k 0) as [? | Hnz]; [assumption |].
    specialize (Hge 1%nat ltac:(lia)).
    specialize (Hd O ltac:(lia)). fold (edge O) in Hd. lra.
  - intros Hv.
    assert (HkN : k = Z.of_nat N).
    { destruct (Z.eq_dec k (Z.of_nat N)) as [? | Hne]; [assumption |].
      specialize (Hlt N ltac:(lia) ltac:(lia)). fold (edge N) in Hlt. lra. }
    split; [exact HkN |]. intros i Hi. apply Z.eqb_neq. lia.
Qed.

(** C4.  [bin_data] against [N + 1] descending edges gives every
    measurement [v] one index [k]: for [edge[N] < v <= edge[0]] it is the
    smallest [i] with [edge[i] >= v > edge[i+1]], in [0, N); [v = edge[0]]
    goes to 0; [v <= edge[N]] goes to [N], which the mask [ind == i] of no
    bin [i < N] selects. *)
Theorem bin_data_right_inclusive (b : Bins.t) w :
  let N := nbins (Bins.params b) in
  let edge := fun i => nth i (Bins.bin_edges b) 0 in
  (0 < N)%nat -> length (Bins.bin_edges b) = (N + 1)%nat ->
  strictly_decreasing (Bins.bin_edges b) -> Bins.vesicles b <> [] ->
  exists b' w',
    Bins.bin_data b w = inr (b', w')
    /\ length (Bins.ind b') = length (Bins.vesicles b)
    /\ forall m, (m < length (Bins.vesicles b))%nat ->
         let v := nth m (Bins.vesicles b) 0 in
         let k := nth m (Bins.ind b') 0%Z in
         (edge N < v <= edge O ->
            exists i, k = Z.of_nat i /\ (i < N)%nat
              /\ edge (S i) < v <= edge i
              /\ forall j, (j < i)%nat -> ~ (edge (S j) < v <= edge j))
         /\ (v = edge O -> k = 0%Z)
         /\ (v <= edge N ->
               k = Z.of_nat N
               /\ forall i, (i < N)%nat -> (k =? Z.of_nat i)%Z = false).
Proof.
  intros N edge HN Hlen Hd Hne.
  eexists _, _. split; [apply bin_data_ok; assumption |]. simpl Bins.ind.
  split; [apply length_map |].
  intros m Hm v k. unfold k.
  rewrite (nth_map_lt _ _ m 0) by exact Hm. fold v.
  apply (assign_cases (Bins.bin_edges b) N v HN Hlen Hd).
Qed.

(** [VSD.__init__] over a measurement set: the bins are built and every
    measurement holds its [assign]ed index. *)
Lemma VSD_init_ok (vs : list R) (p : Params) w :
  measurements vs -> (0 < nbins p)%nat ->
  exists b0 w',
    Bins.init vs p w = inr (b0, w)
    /\ built b0 /\ Bins.params b0 = p
    /\ (normalized p = false -> Bins.vesicles b0 = vs /\ Bins.norm b0 = 1)
    /\ Bins.edges_of p (Bins.vesicles b0) w = inr (Bins.bin_edges b0, w)
    /\ VSD.init vs p w
       = inr (Bins.set_ind b0 (map (Bins.assign (Bins.bin_edges b0))
                                   (Bins.vesicles b0)), w').
Proof.
  intros Hvs HN.
  destruct (Bins_init_ok vs p w Hvs HN)
    as (b0 & Hrun & Hb & Hp & Hlen & Hraw & Hedges).
  eexists b0, _.
  split; [exact Hrun |]. split; [exact Hb |]. split; [exact Hp |].
  split; [exact Hraw |]. split; [exact Hedges |].
  unfold VSD.init, Py.bind. rewrite Hrun.
  destruct Hb. destruct built_vesicles0 as [Hne _].
  apply bin_data_ok; assumption.
Qed.

(** C10.  Over a non-empty array of positive measurements and a positive
    bin count [N], the bins are built and the measurements assigned
    ([VSD.__init__]) with every index in [0, N]; for linear bins the first
    edge is [max * 1.0000001], above every measurement. *)
Theorem assigned_indices_in_range (vs : list R) (p : Params) w :
  measurements vs -> (0 < nbins p)%nat ->
  exists b w',
    VSD.init vs p w = inr (b, w')
    /\ length (Bins.ind b) = length vs
    /\ Forall (fun k => (0 <= k <= Z.of_nat (nbins p))%Z) (Bins.ind b)
    /\ (bin_method p = linear ->
        exists hi,
          np.max (Bins.vesicles b) w = inr (hi, w)
          /\ nth 0 (Bins.bin_edges b) 0 = hi * 1.0000001
          /\ forall v, In v (Bins.vesicles b) -> v < nth 0 (Bins.bin_edges b) 0).
Proof.
  intros Hvs HN.
  destruct (VSD_init_ok vs p w Hvs HN)
    as (b0 & w' & Hinit & Hb & Hp & _ & Hedges & Hrun).
  pose proof (Bins_init_ok vs p w Hvs HN) as (b1 & Hinit1 & _ & _ & Hlen & _).
  assert (b1 = b0) by congruence. subst b1.
  eexists _, _. split; [exact Hrun |]. simpl.
  destruct Hb. rewrite Hp in *.
  split; [rewrite length_map; exact Hlen |]. split.
  - rewrite Forall_forall. intros k Hk.
    apply in_map_iff in Hk. destruct Hk as (v & <- & Hv).
    destruct (assign_decreasing (Bins.bin_edges b0) (nbins p) v HN
                built_edges0 built_descending0) as (Hk & Hge & Hlt).
    split; [| lia].
    destruct (Z_lt_le_dec (Bins.assign (Bins.bin_edges b0) v) 0)
      as [Hneg | ?]; [| assumption].
    specialize (Hlt O Hneg ltac:(lia)).
    specialize (built_first0 v Hv). lra.
  - intros Hm.
    destruct (linear_edges_ok p (Bins.vesicles b0) w Hm built_vesicles0 HN)
      as (edges & hi & lo & He & Hmax & _ & _ & Hnth & _ & _ & Hfirst).
    assert (edges = Bins.bin_edges b0) by congruence. subst edges.
    exists hi. split; [exact Hmax |]. split; [| exact Hfirst].
    rewrite Hnth by lia. simpl. lra.
Qed.

(** ** Area density *)

Lemma nth_zeros_like (a : list R) i : nth i (np.zeros_like a) 0 = 0.
Proof. unfold np.zeros_like. apply nth_repeat. Qed.

Lemma length_zeros_like (a : list R) : length (np.zeros_like a) = length a.
Proof. unfold np.zeros_like. apply repeat_length. Qed.

(** [compute_na] fills one entry per bin with the count of the bin over
    the reference area. *)
Lemma compute_na_ok (b : Bins.t) (roi_area : R) w :
  let N := nbins (Bins.params b) in
  length (Bins.bin_centers b) = N ->
  exists a,
    Bins.compute_na b roi_area w = inr (Bins.set_na b a, w)
    /\ length a = N
    /\ forall i, (i < N)%nat ->
         nth i a 0 = INR (Bins.count_eq (Bins.ind b) i) / roi_area.
Proof.
  intros N Hc. unfold Bins.compute_na, np.arange.
  change (nbins (Bins.params (Bins.set_na b (np.zeros_like (Bins.bin_centers b)))))
    with N.
  destruct (for_in_seq
              (fun i s w' =>
                 w' = w /\ exists a, s = Bins.set_na b a /\ length a = N
                 /\ forall j, (j < i)%nat ->
                      nth j a 0 = INR (Bins.count_eq (Bins.ind b) j) / roi_area)
              (Bins.compute_na_bin roi_area) N 0
              (Bins.set_na b (np.zeros_like (Bins.bin_centers b))) w)
    as (s & w' & Hrun & -> & a & -> & Hlen & Ha).
  - split; [reflexivity |]. eexists. split; [reflexivity |].
    split; [rewrite length_zeros_like; exact Hc | intros j Hj; lia].
  - intros i s w' Hi (-> & a & -> & Hlen & Ha).
    unfold Bins.compute_na_bin. simpl Bins.na. simpl Bins.ind.
    rewrite (bind_ok _ _ _ _ _ (setitem_ok a i _ w ltac:(lia))).
    eexists _, _. split; [reflexivity |]. split; [reflexivity |].
    eexists. split; [reflexivity |].
    split; [rewrite length_update; exact Hlen |].
    intros j Hj. destruct (Nat.eq_dec i j) as [<- | Hne].
    + apply nth_update_same. lia.
    + rewrite nth_update_other by exact Hne. apply Ha. lia.
  - exists a. split; [exact Hrun |]. split; [exact Hlen | exact Ha].
Qed.

Lemma count_in_range_succ (idx : list Z) (N : nat) :
  count_in_range idx (S N)
  = (count_in_range idx N + Bins.count_eq idx N)%nat.
Proof.
  unfold count_in_range, Bins.count_eq.
  induction idx as [| k idx IH]; [reflexivity |]. cbn [filter].
  destruct (Z.leb_spec 0 k), (Z.ltb_spec k (Z.of_nat (S N))),
    (Z.ltb_spec k (Z.of_nat N)), (Z.eqb_spec k (Z.of_nat N));
    cbn [andb length]; rewrite ?IH; lia.
Qed.

Lemma count_in_range_sum (idx : list Z) (N : nat) :
  rsum (fun i => INR (Bins.count_eq idx i)) N = INR (count_in_range idx N).
Proof.
  induction N as [| N IH]; simpl.
  - unfold count_in_range. simpl.
    replace (filter _ idx) with (@nil Z); [reflexivity |].
    symmetry. induction idx as [| k idx IHi]; [reflexivity |]. simpl.
    destruct (Z.leb_spec 0 k), (Z.ltb_spec k 0); simpl; try lia; exact IHi.
  - rewrite IH, count_in_range_succ, plus_INR. reflexivity.
Qed.

Lemma rsum_ext (f g : nat -> R) (N : nat) :
  (forall i, (i < N)%nat -> f i = g i) -> rsum f N = rsum g N.
Proof.
  induction N as [| N IH]; intros H; simpl; [reflexivity |].
  rewrite IH by (intros i Hi; apply H; lia). rewrite H by lia. reflexivity.
Qed.

(** C6.  [compute_na] conserves counts: for a non-zero (in particular a
    positive) reference area the sum over the bins of
    [na[i] * reference_area] is the number of measurements whose assigned
    index lies in [0, N); an index outside [0, N) adds to no bin. *)
Theorem compute_na_conserves_counts (b : Bins.t) (roi_area : R) w :
  let N := nbins (Bins.params b) in
  length (Bins.bin_centers b) = N -> roi_area <> 0 ->
  exists b',
    Bins.compute_na b roi_area w = inr (b', w)
    /\ Bins.ind b' = Bins.ind b
    /\ length (Bins.na b') = N
    /\ rsum (fun i => nth i (Bins.na b') 0 * roi_area) N
       = INR (count_in_range (Bins.ind b) N).
Proof.
  intros N Hc Hroi.
  destruct (compute_na_ok b roi_area w Hc) as (a & Hrun & Hlen & Ha).
  eexists. split; [exact Hrun |]. simpl.
  split; [reflexivity |]. split; [exact Hlen |].
  rewrite <- count_in_range_sum. apply rsum_ext.
  intros i Hi. rewrite Ha by exact Hi. field. exact Hroi.
Qed.

(** ** Characteristic size *)

Lemma compute_hbar_bin_center (b : Bins.t) w :
  hbar_method (Bins.params b) = bin_center ->
  Bins.compute_hbar b w = inr (Bins.set_hbar b (Bins.bin_centers b), w).
Proof.
  intros Hm. unfold Bins.compute_hbar.
  change (Bins.params (Bins.set_hbar b (np.zeros_like (Bins.bin_centers b))))
    with (Bins.params b).
  rewrite Hm. reflexivity.
Qed.

Lemma getitem_mask_ok (a : list R) (idx : list Z) i w :
  length idx = length a ->
  np.getitem_mask a idx i w = inr (np.masked a idx i, w).
Proof.
  intros H. unfold np.getitem_mask. apply Nat.eqb_eq in H. rewrite H.
  reflexivity.
Qed.

Lemma reported_empty_succ (b : Bins.t) (n : nat) :
  reported_empty b (S n)
  = reported_empty b n
    ++ (if negb (np.any (np.masked (Bins.vesicles b) (Bins.ind b) n))
        then [n] else []).
Proof.
  unfold reported_empty. rewrite seq_S, filter_app. simpl.
  destruct (negb _); reflexivity.
Qed.

(** [compute_hbar] with a NumPy aggregate: one entry per bin, the
    aggregate where [any()] holds of the bin's measurements and the center
    elsewhere, with one advisory per such bin, in order. *)
Lemma compute_hbar_ok (b : Bins.t) (m : Aggregate) w :
  let N := nbins (Bins.params b) in
  hbar_method (Bins.params b) = np_attr m ->
  length (Bins.bin_centers b) = N ->
  length (Bins.ind b) = length (Bins.vesicles b) ->
  exists h,
    Bins.compute_hbar b w
    = inr (Bins.set_hbar b h,
           w ++ map Py.BinDoesNotContainVesicles (reported_empty b N))
    /\ length h = N
    /\ forall i, (i < N)%nat ->
         nth i h 0
         = if np.any (np.masked (Bins.vesicles b) (Bins.ind b) i)
           then Bins.aggregate m (np.masked (Bins.vesicles b) (Bins.ind b) i)
           else nth i (Bins.bin_centers b) 0.
Proof.
  intros N Hm Hc Hmask. unfold Bins.compute_hbar.
  change (Bins.params (Bins.set_hbar b (np.zeros_like (Bins.bin_centers b))))
    with (Bins.params b).
  rewrite Hm. unfold np.arange. fold N.
  destruct (for_in_seq
              (fun i s w' =>
                 w' = w ++ map Py.BinDoesNotContainVesicles (reported_empty b i)
                 /\ exists h, s = Bins.set_hbar b h /\ length h = N
                 /\ forall j, (j < i)%nat ->
                      nth j h 0
                      = if np.any (np.masked (Bins.vesicles b) (Bins.ind b) j)
                        then Bins.aggregate m
                               (np.masked (Bins.vesicles b) (Bins.ind b) j)
                        else nth j (Bins.bin_centers b) 0)
              (Bins.compute_hbar_bin m) N 0
              (Bins.set_hbar b (np.zeros_like (Bins.bin_centers b))) w)
    as (s & w' & Hrun & -> & h & -> & Hlen & Hh).
  - split; [simpl; rewrite app_nil_r; reflexivity |].
    eexists. split; [reflexivity |].
    split; [rewrite length_zeros_like; exact Hc | intros j Hj; lia].
  - intros i s w' Hi (-> & h & -> & Hlen & Hh).
    unfold Bins.compute_hbar_bin. attrs.
    rewrite (bind_ok _ _ _ _ _ (getitem_mask_ok _ _ i _ Hmask)).
    rewrite reported_empty_succ.
    destruct (np.any (np.masked (Bins.vesicles b) (Bins.ind b) i)) eqn:Hany;
      cbn [negb].
    + rewrite (bind_ok _ _ _ _ _ (setitem_ok h i _ _ ltac:(lia))).
      eexists _, _. split; [reflexivity |].
      split; [rewrite app_nil_r; reflexivity |].
      eexists. split; [reflexivity |].
      split; [rewrite length_update; exact Hlen |].
      intros j Hj. destruct (Nat.eq_dec i j) as [<- | Hne].
      * rewrite nth_update_same by lia. rewrite Hany. reflexivity.
      * rewrite nth_update_other by exact Hne. apply Hh. lia.
    + unfold Py.bind at 1. unfold Py.warn at 1.
      rewrite (bind_ok _ _ _ _ _
                 (getitem_ok (Bins.bin_centers b) i 0 _ ltac:(lia))).
      rewrite (bind_ok _ _ _ _ _ (setitem_ok h i _ _ ltac:(lia))).
      eexists _, _. split; [reflexivity |].
      split; [rewrite map_app, app_assoc; reflexivity |].
      eexists. split; [reflexivity |].
      split; [rewrite length_update; exact Hlen |].
      intros j Hj. destruct (Nat.eq_dec i j) as [<- | Hne].
      * rewrite nth_update_same by lia. rewrite Hany. reflexivity.
      * rewrite nth_update_other by exact Hne. apply Hh. lia.
  - exists h. split; [exact Hrun |]. split; [exact Hlen | exact Hh].
Qed.

Lemma masked_incl (a : list R) (idx : list Z) i x :
  In x (np.masked a idx i) -> In x a.
Proof.
  unfold np.masked. intros H. apply in_map_iff in H.
  destruct H as ([y k] & <- & H). apply filter_In in H. destruct H as [H _].
  simpl. exact (in_combine_l _ _ _ _ H).
Qed.

(** On non-zero numbers [any()] tells whether the array is non-empty. *)
Lemma any_nonzero (a : list R) :
  Forall (fun v => v <> 0) a -> np.any a = match a with [] => false | _ => true end.
Proof.
  destruct a as [| x a]; [reflexivity |]. intros H.
  apply Forall_inv in H. unfold np.any. simpl.
  destruct (Req_dec_T x 0); [contradiction | reflexivity].
Qed.

Lemma in_reported_empty (b : Bins.t) (N i : nat) :
  In i (reported_empty b N)
  <-> (i < N)%nat
      /\ np.any (np.masked (Bins.vesicles b) (Bins.ind b) i) = false.
Proof.
  unfold reported_empty. rewrite filter_In, in_seq, negb_true_iff.
  split; intros [H1 H2]; split; auto; lia.
Qed.

(** ** Means and medians of the measurements of a bin *)

Lemma fold_left_Rplus_shift (l : list R) (s : R) :
  fold_left Rplus l s = s + fold_left Rplus l 0.
Proof.
  revert s. induction l as [| x l IH]; intros s; simpl.
  - ring.
  - rewrite (IH (s + x)), (IH (0 + x)). ring.
Qed.

Lemma sum_cons (x : R) (l : list R) : np.sum (x :: l) = x + np.sum l.
Proof.
  unfold np.sum. simpl. rewrite fold_left_Rplus_shift. ring.
Qed.

Lemma sum_between (a b : R) (l : list R) :
  (forall x, In x l -> a < x <= b) ->
  INR (length l) * a <= np.sum l <= INR (length l) * b
  /\ (l <> [] -> INR (length l) * a < np.sum l).
Proof.
  induction l as [| x l IH]; intros H.
  - unfold np.sum. simpl. split; [lra | congruence].
  - destruct IH as [IH _]; [intros y Hy; apply H; right; exact Hy |].
    specialize (H x (or_introl eq_refl)).
    rewrite sum_cons. change (length (x :: l)) with (S (length l)).
    rewrite S_INR. split; [lra |]. intros _. lra.
Qed.

(** The mean of a non-empty array lies where its elements lie. *)
Lemma mean_between (a b : R) (l : list R) :
  l <> [] -> (forall x, In x l -> a < x <= b) -> a < np.mean l <= b.
Proof.
  intros Hne H. destruct (sum_between a b l H) as [[_ Hle] Hlt].
  specialize (Hlt Hne). unfold np.mean.
  assert (Hn : 0 < INR (length l)).
  { apply lt_0_INR. destruct l; [congruence | simpl; lia]. }
  split.
  - apply Rmult_lt_reg_r with (INR (length l)); [exact Hn |].
    unfold Rdiv. rewrite Rmult_assoc, Rinv_l by lra. lra.
  - apply Rmult_le_reg_r with (INR (length l)); [exact Hn |].
    unfold Rdiv. rewrite Rmult_assoc, Rinv_l by lra. lra.
Qed.

Lemma in_insert (x y : R) (l : list R) :
  In y (np.insert x l) <-> y = x \/ In y l.
Proof.
  induction l as [| z l IH]; simpl.
  - split; [intros [<- | []]; auto | intros [-> | []]; auto].
  - destruct (Rle_dec x z); simpl.
    + split; [intros [<- | H]; auto | intros [-> | H]; auto].
    + rewrite IH. split.
      * intros [<- | [-> | H]]; auto.
      * intros [-> | [<- | H]]; auto.
Qed.

Lemma length_insert (x : R) (l : list R) :
  length (np.insert x l) = S (length l).
Proof.
  induction l as [| z l IH]; simpl; [reflexivity |].
  destruct (Rle_dec x z); simpl; [reflexivity | rewrite IH; reflexivity].
Qed.

Lemma in_sort (y : R) (l : list R) : In y (np.sort l) <-> In y l.
Proof.
  unfold np.sort. induction l as [| x l IH]; simpl; [tauto |].
  rewrite in_insert, IH. split; intros [H | H]; auto.
Qed.

Lemma length_sort (l : list R) : length (np.sort l) = length l.
Proof.
  unfold np.sort. induction l as [| x l IH]; simpl; [reflexivity |].
  rewrite length_insert, IH. reflexivity.
Qed.

(** The array stays in order under insertion, hence [np.sort] sorts. *)
Lemma insert_sorted (x : R) (l : list R) :
  StronglySorted Rle l -> StronglySorted Rle (np.insert x l).
Proof.
  induction 1 as [| z l Hs IH Hz]; simpl.
  - constructor; constructor.
  - destruct (Rle_dec x z) as [Hle | Hgt].
    + constructor; [constructor; assumption |].
      constructor; [exact Hle |].
      rewrite Forall_forall in *. intros y Hy. specialize (Hz y Hy). lra.
    + constructor; [exact IH |].
      rewrite Forall_forall in *. intros y Hy.
      apply in_insert in Hy. destruct Hy as [-> | Hy]; [lra | auto].
Qed.

Lemma sort_sorted (l : list R) : StronglySorted Rle (np.sort l).
Proof.
  unfold np.sort. induction l as [| x l IH]; simpl.
  - constructor.
  - apply insert_sorted. exact IH.
Qed.

(** The median of a non-empty array lies where its elements lie. *)
Lemma median_between (a b : R) (l : list R) :
  l <> [] -> (forall x, In x l -> a < x <= b) -> a < np.median l <= b.
Proof.
  intros Hne H. unfold np.median.
  assert (Hlen : (0 < length l)%nat) by (destruct l; [congruence | simpl; lia]).
  assert (Hnth : forall k, (k < length l)%nat -> a < nth k (np.sort l) 0 <= b).
  { intros k Hk. apply H. apply in_sort. apply nth_In.
    rewrite length_sort. exact Hk. }
  assert (Hhalf : (length l / 2 < length l)%nat)
    by (apply Nat.div_lt; lia).
  destruct (Nat.odd (length l)) eqn:Hodd.
  - apply Hnth. exact Hhalf.
  - apply mean_between; [discriminate |].
    intros x [<- | [<- | []]]; apply Hnth; lia.
Qed.

Lemma aggregate_between (m : Aggregate) (a b : R) (l : list R) :
  l <> [] -> (forall x, In x l -> a < x <= b) ->
  a < Bins.aggregate m l <= b.
Proof.
  destruct m; [apply mean_between | apply median_between].
Qed.

(** [np.mean] and [np.median] are the mean and the median of the
    specification. *)
Lemma sum_rsum (l : list R) :
  np.sum l = rsum (fun k => nth k l 0) (length l).
Proof.
  induction l as [| x l IH] using rev_ind; [reflexivity |].
  assert (Hsum : np.sum (l ++ [x]) = np.sum l + x).
  { unfold np.sum. rewrite fold_left_app. reflexivity. }
  rewrite Hsum, length_app, Nat.add_1_r. cbn [rsum].
  rewrite nth_middle, IH. f_equal.
  apply rsum_ext. intros k Hk. rewrite app_nth1 by exact Hk. reflexivity.
Qed.

Lemma mean_arithmetic (l : list R) : np.mean l = arithmetic_mean l.
Proof.
  unfold np.mean, arithmetic_mean. rewrite sum_rsum. reflexivity.
Qed.

Lemma insert_permutation (x : R) (l : list R) :
  Permutation (x :: l) (np.insert x l).
Proof.
  induction l as [| y l IH]; simpl; [apply Permutation_refl |].
  destruct (Rle_dec x y); [apply Permutation_refl |].
  apply perm_trans with (y :: x :: l); [apply perm_swap |].
  apply perm_skip. exact IH.
Qed.

Lemma sort_permutation (l : list R) : Permutation l (np.sort l).
Proof.
  unfold np.sort. induction l as [| x l IH]; simpl; [apply perm_nil |].
  apply perm_trans with (x :: fold_right np.insert [] l).
  - apply perm_skip. exact IH.
  - apply insert_permutation.
Qed.

Lemma median_is_median (l : list R) : is_median l (np.median l).
Proof.
  exists (np.sort l). split; [apply sort_permutation |].
  split; [apply sort_sorted |].
  unfold np.median. destruct (Nat.odd (length l)); [reflexivity |].
  unfold np.mean, np.sum. simpl. lra.
Qed.

Lemma aggregate_is_aggregate (m : Aggregate) (l : list R) :
  is_aggregate m l (Bins.aggregate m l).
Proof.
  destruct m; simpl; [apply mean_arithmetic | apply median_is_median].
Qed.

(** C8.  With ['mean'] or ['median'] as the characteristic-size method,
    one index per measurement (as [bin_data] leaves them) and non-zero
    measurements (they are lengths), [compute_hbar] returns; a bin
    with no assigned measurement gets its center and an advisory naming
    it; a bin with at least one gets the aggregate of its measurements
    (for ['mean'] their sum over their number, for ['median'] the middle
    of them in ascending order, or the midpoint of the two middle ones)
    and no advisory. *)
Theorem compute_hbar_empty_bin_fallback (b : Bins.t) (m : Aggregate) w :
  let N := nbins (Bins.params b) in
  hbar_method (Bins.params b) = np_attr m ->
  length (Bins.bin_centers b) = N ->
  length (Bins.ind b) = length (Bins.vesicles b) ->
  Forall (fun v => v <> 0) (Bins.vesicles b) ->
  exists b' advisories,
    Bins.compute_hbar b w = inr (b', w ++ advisories)
    /\ length (Bins.hbar b') = N
    /\ forall i, (i < N)%nat ->
         let in_vesicles := np.masked (Bins.vesicles b) (Bins.ind b) i in
         (in_vesicles = [] ->
            nth i (Bins.hbar b') 0 = nth i (Bins.bin_centers b) 0
            /\ In (Py.BinDoesNotContainVesicles i) advisories)
         /\ (in_vesicles <> [] ->
               is_aggregate m in_vesicles (nth i (Bins.hbar b') 0)
               /\ ~ In (Py.BinDoesNotContainVesicles i) advisories).
Proof.
  intros N Hm Hc Hmask Hnz.
  destruct (compute_hbar_ok b m w Hm Hc Hmask) as (h & Hrun & Hlen & Hh).
  eexists _, _. split; [exact Hrun |]. simpl Bins.hbar.
  split; [exact Hlen |].
  intros i Hi. cbv zeta.
  specialize (Hh i Hi).
  set (iv := np.masked (Bins.vesicles b) (Bins.ind b) i) in *.
  assert (Hany : np.any iv = match iv with [] => false | _ => true end).
  { apply any_nonzero. rewrite Forall_forall in *. intros x Hx.
    apply Hnz. exact (masked_incl _ _ _ _ Hx). }
  rewrite Hany in Hh.
  assert (Hrep : In (Py.BinDoesNotContainVesicles i)
                    (map Py.BinDoesNotContainVesicles (reported_empty b N))
                 <-> iv = []).
  { split.
    - intros Hin. apply in_map_iff in Hin.
      destruct Hin as (j & Hj & Hin). injection Hj as ->.
      apply in_reported_empty in Hin. destruct Hin as [_ Hin].
      fold iv in Hin. rewrite Hany in Hin.
      destruct iv; [reflexivity | discriminate].
    - intros Hnil. apply in_map. apply in_reported_empty.
      split; [exact Hi |]. fold iv. rewrite Hany, Hnil. reflexivity. }
  split.
  - intros Hnil. split; [rewrite Hnil in Hh; exact Hh | apply Hrep; exact Hnil].
  - intros Hne. split; [| intros Hin; apply Hne, Hrep; exact Hin].
    destruct iv; [congruence |]. rewrite Hh. apply aggregate_is_aggregate.
Qed.

(** ** The common constructor *)

Lemma built_set_ind (b : Bins.t) x : built b -> built (Bins.set_ind b x).
Proof. intros []. constructor; assumption. Qed.

Lemma built_set_na (b : Bins.t) x : built b -> built (Bins.set_na b x).
Proof. intros []. constructor; assumption. Qed.

Lemma built_set_hbar (b : Bins.t) x : built b -> built (Bins.set_hbar b x).
Proof. intros []. constructor; assumption. Qed.

Lemma compute_hbar_returns (b : Bins.t) w :
  length (Bins.bin_centers b) = nbins (Bins.params b) ->
  length (Bins.ind b) = length (Bins.vesicles b) ->
  exists h w',
    Bins.compute_hbar b w = inr (Bins.set_hbar b h, w')
    /\ length h = nbins (Bins.params b)
    /\ (hbar_method (Bins.params b) = bin_center -> h = Bins.bin_centers b).
Proof.
  intros Hc Hmask. destruct (hbar_method (Bins.params b)) as [| m] eqn:Hm.
  - eexists _, _. split; [apply compute_hbar_bin_center; exact Hm |].
    split; [exact Hc | reflexivity].
  - destruct (compute_hbar_ok b m w Hm Hc Hmask) as (h & Hrun & Hlen & _).
    eexists _, _. split; [exact Hrun |]. split; [exact Hlen | discriminate].
Qed.

(** [VSDCorrection.__init__] over a measurement set returns a distribution
    whose bins are built, with one entry per bin in [na], [hbar] and
    [nv]. *)
Lemma VSDCorrection_init_ok (vs : list R) (roi_area : R) (p : Params) w :
  measurements vs -> (0 < nbins p)%nat ->
  exists self w',
    VSDCorrection.init vs roi_area p w = inr (self, w')
    /\ built (VSD.bins self)
    /\ VSD.params self = p
    /\ (normalized p = false ->
        Bins.vesicles (VSD.bins self) = vs /\ Bins.norm (VSD.bins self) = 1)
    /\ Bins.edges_of p (Bins.vesicles (VSD.bins self)) w
       = inr (Bins.bin_edges (VSD.bins self), w)
    /\ Bins.ind (VSD.bins self)
       = map (Bins.assign (Bins.bin_edges (VSD.bins self)))
             (Bins.vesicles (VSD.bins self))
    /\ length (Bins.na (VSD.bins self)) = nbins p
    /\ (forall i, (i < nbins p)%nat ->
          nth i (Bins.na (VSD.bins self)) 0
          = INR (Bins.count_eq (Bins.ind (VSD.bins self)) i) / roi_area)
    /\ length (Bins.hbar (VSD.bins self)) = nbins p
    /\ (hbar_method p = bin_center ->
        Bins.hbar (VSD.bins self) = Bins.bin_centers (VSD.bins self))
    /\ VSD.nv self = repeat 0 (nbins p).
Proof.
  intros Hvs HN.
  destruct (VSD_init_ok vs p w Hvs HN)
    as (b0 & w1 & _ & Hb & Hp & Hraw & Hedges & Hrun).
  set (b1 := Bins.set_ind b0 (map (Bins.assign (Bins.bin_edges b0))
                                  (Bins.vesicles b0))) in *.
  assert (Hc : length (Bins.bin_centers b1) = nbins (Bins.params b1)).
  { destruct Hb. assumption. }
  destruct (compute_na_ok b1 roi_area w1 Hc) as (a & Hna & Hla & Ha).
  assert (Hmask : length (Bins.ind (Bins.set_na b1 a))
                  = length (Bins.vesicles (Bins.set_na b1 a))).
  { unfold b1. attrs. apply length_map. }
  destruct (compute_hbar_returns (Bins.set_na b1 a) w1 Hc Hmask)
    as (h & w2 & Hhbar & Hlh & Hh).
  unfold VSDCorrection.init.
  rewrite (bind_ok _ _ _ _ _ Hrun), (bind_ok _ _ _ _ _ Hna),
    (bind_ok _ _ _ _ _ Hhbar).
  eexists _, _. split; [reflexivity |].
  unfold VSD.params. cbn [VSD.bins VSD.nv].
  change (Bins.params (Bins.set_na b1 a)) with (Bins.params b0) in Hlh, Hh.
  change (Bins.params b1) with (Bins.params b0) in Hc, Hla, Ha.
  rewrite Hp in Hlh, Hh, Hc, Hla, Ha.
  split; [apply built_set_hbar, built_set_na, built_set_ind; exact Hb |].
  split; [exact Hp |]. split; [exact Hraw |]. split; [exact Hedges |].
  split; [reflexivity |]. split; [exact Hla |]. split; [exact Ha |].
  split; [exact Hlh |]. split; [exact Hh |].
  unfold np.zeros_like. rewrite Hc. reflexivity.
Qed.

(** ** SahagianProussevitch *)

(** [intersection_probabilities] fills one entry per bin with the
    probability of the specification. *)
Lemma intersection_probabilities_ok (self : VSD.t) w :
  let N := nbins (VSD.params self) in
  let edge := fun i => nth i (Bins.bin_edges (VSD.bins self)) 0 in
  length (Bins.bin_edges (VSD.bins self)) = (N + 1)%nat ->
  length (Bins.bin_centers (VSD.bins self)) = N ->
  exists P,
    SahagianProussevitch.intersection_probabilities self w
    = inr (VSD.set_inter_prob self P, w)
    /\ length P = N
    /\ forall i, (i < N)%nat -> nth i P 0 = intersection_probability edge i.
Proof.
  intros N edge He Hc.
  unfold SahagianProussevitch.intersection_probabilities, np.arange.
  change (nbins (VSD.params (VSD.set_inter_prob self
            (np.zeros_like (Bins.bin_centers (VSD.bins self)))))) with N.
  destruct (for_in_seq
              (fun i s w' =>
                 w' = w /\ exists P, s = VSD.set_inter_prob self P
                 /\ length P = N
                 /\ forall j, (j < i)%nat ->
                      nth j P 0 = intersection_probability edge j)
              SahagianProussevitch.inter_prob_bin N 0
              (VSD.set_inter_prob self
                 (np.zeros_like (Bins.bin_centers (VSD.bins self)))) w)
    as (s & w' & Hrun & -> & P & -> & Hlen & HP).
  - split; [reflexivity |]. eexists. split; [reflexivity |].
    split; [rewrite length_zeros_like; exact Hc | intros j Hj; lia].
  - intros i s w' Hi (-> & P & -> & Hlen & HP).
    unfold SahagianProussevitch.inter_prob_bin.
    cbn [VSD.bins VSD.set_inter_prob VSD.inter_prob].
    set (edges := Bins.bin_edges (VSD.bins self)) in *.
    rewrite (bind_ok _ _ _ _ _ (getitem_ok edges 0 0 w ltac:(lia))).
    rewrite (bind_ok _ _ _ _ _ (getitem_ok edges (i + 1) 0 w ltac:(lia))).
    rewrite (bind_ok _ _ _ _ _ (getitem_ok edges i 0 w ltac:(lia))).
    rewrite (bind_ok _ _ _ _ _ (setitem_ok P i _ w ltac:(lia))).
    eexists _, _. split; [reflexivity |]. split; [reflexivity |].
    eexists. split; [reflexivity |].
    split; [rewrite length_update; exact Hlen |].
    intros j Hj. destruct (Nat.eq_dec i j) as [<- | Hne].
    + rewrite nth_update_same by lia. unfold intersection_probability, edge.
      replace (i + 1)%nat with (S i) by lia. reflexivity.
    + rewrite nth_update_other by exact Hne. apply HP. lia.
  - exists P. split; [exact Hrun |]. split; [exact Hlen | exact HP].
Qed.

(** The sum subtracted for bin [i] reads [nv] below [i] only. *)
Lemma previously_solved_ext (P hbar v v' : list R) (i : nat) :
  (forall k, (k < i)%nat -> nth k v' 0 = nth k v 0) ->
  previously_solved P hbar v' i = previously_solved P hbar v i.
Proof.
  intros H. unfold previously_solved. apply rsum_ext.
  intros j Hj. rewrite H by lia. reflexivity.
Qed.

(** The inner loop of [to_nv] adds up the sum over the bins solved so
    far. *)
Lemma SP_previous_ok (self : VSD.t) w i :
  let N := nbins (VSD.params self) in
  (i < N)%nat ->
  length (VSD.inter_prob self) = N ->
  length (Bins.hbar (VSD.bins self)) = N ->
  length (VSD.nv self) = N ->
  exists previous,
    Py.for_in (np.arange i) (SahagianProussevitch.add_previous self i) 0 w
    = inr (previous, w)
    /\ previous
       = previously_solved (VSD.inter_prob self) (Bins.hbar (VSD.bins self))
           (VSD.nv self) i.
Proof.
  intros N Hi HP Hh Hv. unfold np.arange.
  set (term := fun j =>
         nth (j + 1) (VSD.inter_prob self) 0
         * nth (j + 1) (Bins.hbar (VSD.bins self)) 0
         * nth (i - j - 1) (VSD.nv self) 0).
  destruct (for_in_seq (fun j s w' => w' = w /\ s = rsum term j)
              (SahagianProussevitch.add_previous self i) i 0 0 w)
    as (s & w' & Hrun & -> & Hs).
  - split; reflexivity.
  - intros j s w' Hj [-> ->]. unfold SahagianProussevitch.add_previous.
    rewrite (bind_ok _ _ _ _ _
               (getitem_ok (VSD.inter_prob self) (j + 1) 0 w ltac:(lia))).
    rewrite (bind_ok _ _ _ _ _
               (getitem_ok (Bins.hbar (VSD.bins self)) (j + 1) 0 w ltac:(lia))).
    rewrite (bind_ok _ _ _ _ _
               (getitem_ok (VSD.nv self) (i - j - 1) 0 w ltac:(lia))).
    eexists _, _. split; [reflexivity |]. split; reflexivity.
  - exists s. split; [exact Hrun | exact Hs].
Qed.

(** [SahagianProussevitch.to_nv] solves the bins in increasing order;
    every entry satisfies the recurrence of the specification. *)
Lemma SP_to_nv_ok (self : VSD.t) w :
  let N := nbins (VSD.params self) in
  let P := VSD.inter_prob self in
  let na := Bins.na (VSD.bins self) in
  let hbar := Bins.hbar (VSD.bins self) in
  length P = N -> length na = N -> length hbar = N ->
  length (VSD.nv self) = N ->
  exists v,
    SahagianProussevitch.to_nv self w = inr (VSD.set_nv self v, w)
    /\ length v = N
    /\ forall i, (i < N)%nat ->
         nth i v 0
         = (nth i na 0 - previously_solved P hbar v i)
           / (nth 0 P 0 * nth i hbar 0).
Proof.
  intros N P na hbar HP Hna Hh Hv.
  unfold SahagianProussevitch.to_nv, np.arange. fold N.
  destruct (for_in_seq
              (fun i s w' =>
                 w' = w /\ exists v, s = VSD.set_nv self v /\ length v = N
                 /\ forall k, (k < i)%nat ->
                      nth k v 0
                      = (nth k na 0 - previously_solved P hbar v k)
                        / (nth 0 P 0 * nth k hbar 0))
              SahagianProussevitch.to_nv_bin N 0 self w)
    as (s & w' & Hrun & -> & v & -> & Hlen & Hrec).
  - split; [reflexivity |]. exists (VSD.nv self).
    split; [destruct self; reflexivity |].
    split; [exact Hv | intros k Hk; lia].
  - intros i s w' Hi (-> & v & -> & Hlen & Hrec).
    unfold SahagianProussevitch.to_nv_bin.
    assert (Hinner : exists prev,
              Py.for_in (np.arange i)
                (SahagianProussevitch.add_previous (VSD.set_nv self v) i) 0 w
              = inr (prev, w)
              /\ prev = previously_solved P hbar v i).
    { apply (SP_previous_ok (VSD.set_nv self v) w i);
        [change (i < N)%nat; lia | exact HP | exact Hh | exact Hlen]. }
    destruct Hinner as (prev & Hprev & Heq).
    rewrite (bind_ok _ _ _ _ _ Hprev).
    cbn [VSD.set_nv VSD.inter_prob VSD.bins VSD.nv] in *.
    rewrite (bind_ok _ _ _ _ _ (getitem_ok P 0 0 w ltac:(lia))).
    rewrite (bind_ok _ _ _ _ _ (getitem_ok hbar i 0 w ltac:(lia))).
    rewrite (bind_ok _ _ _ _ _ (getitem_ok na i 0 w ltac:(lia))).
    rewrite (bind_ok _ _ _ _ _ (setitem_ok v i _ w ltac:(lia))).
    eexists _, _. split; [reflexivity |]. split; [reflexivity |].
    eexists. split; [reflexivity |].
    split; [rewrite length_update; exact Hlen |].
    intros k Hk.
    rewrite (previously_solved_ext P hbar v)
      by (intros k' Hk'; apply nth_update_other; lia).
    destruct (Nat.eq_dec i k) as [<- | Hne].
    + rewrite nth_update_same by lia. rewrite Heq.
      fold P hbar na. unfold Rdiv. ring.
    + rewrite nth_update_other by exact Hne. apply Hrec. lia.
  - exists v. split; [exact Hrun |]. split; [exact Hlen | exact Hrec].
Qed.

(** C3.  [intersection_probabilities] followed by [to_nv] returns for every
    positive bin count [N]; [P[i]] is the intersection probability of the
    specification for [i] in [0, N), and every [nv[i]] satisfies
    [nv[i] = (na[i] - sum_{j<i} P[j+1] * hbar[j+1] * nv[i-j-1])
             / (P[0] * hbar[i])],
    a sum that reads [nv] at indices below [i] only. *)
Theorem SP_recursive_unfolding (self : VSD.t) w :
  let N := nbins (VSD.params self) in
  let edge := fun i => nth i (Bins.bin_edges (VSD.bins self)) 0 in
  let na := Bins.na (VSD.bins self) in
  let hbar := Bins.hbar (VSD.bins self) in
  (0 < N)%nat ->
  length (Bins.bin_edges (VSD.bins self)) = (N + 1)%nat ->
  length (Bins.bin_centers (VSD.bins self)) = N ->
  length na = N -> length hbar = N -> length (VSD.nv self) = N ->
  exists self1 self2,
    SahagianProussevitch.intersection_probabilities self w = inr (self1, w)
    /\ SahagianProussevitch.to_nv self1 w = inr (self2, w)
    /\ VSD.bins self2 = VSD.bins self
    /\ length (VSD.inter_prob self2) = N /\ length (VSD.nv self2) = N
    /\ forall i, (i < N)%nat ->
         let P := VSD.inter_prob self2 in
         let nv := VSD.nv self2 in
         nth i P 0 = intersection_probability edge i
         /\ nth i nv 0
            = (nth i na 0 - previously_solved P hbar nv i)
              / (nth 0 P 0 * nth i hbar 0)
         /\ forall nv', (forall k, (k < i)%nat -> nth k nv' 0 = nth k nv 0) ->
              previously_solved P hbar nv' i = previously_solved P hbar nv i.
Proof.
  intros N edge na hbar HN He Hc Hna Hh Hv.
  destruct (intersection_probabilities_ok self w He Hc) as (P & Hrun1 & HlP & HP).
  destruct (SP_to_nv_ok (VSD.set_inter_prob self P) w HlP Hna Hh Hv)
    as (v & Hrun2 & Hlv & Hrec).
  eexists _, _. split; [exact Hrun1 |]. split; [exact Hrun2 |].
  cbn [VSD.set_nv VSD.set_inter_prob VSD.bins VSD.inter_prob VSD.nv] in *.
  split; [reflexivity |]. split; [exact HlP |]. split; [exact Hlv |].
  intros i Hi. cbv zeta.
  split; [apply HP; exact Hi |]. split; [apply Hrec; exact Hi |].
  intros nv' Hsame. apply previously_solved_ext. exact Hsame.
Qed.

(** With one bin, [P[0] = sqrt(edge[0]^2 - edge[1]^2) / edge[0]] and
    [nv[0] = na[0] / (P[0] * hbar[0])]. *)
Lemma SP_single_bin (self : VSD.t) w :
  let edge := fun i => nth i (Bins.bin_edges (VSD.bins self)) 0 in
  let na := Bins.na (VSD.bins self) in
  let hbar := Bins.hbar (VSD.bins self) in
  nbins (VSD.params self) = 1%nat ->
  length (Bins.bin_edges (VSD.bins self)) = 2%nat ->
  length (Bins.bin_centers (VSD.bins self)) = 1%nat ->
  length na = 1%nat -> length hbar = 1%nat -> length (VSD.nv self) = 1%nat ->
  exists P0 nv0,
    (self1 <- SahagianProussevitch.intersection_probabilities self ;;
     SahagianProussevitch.to_nv self1) w
    = inr (VSD.set_nv (VSD.set_inter_prob self [P0]) [nv0], w)
    /\ P0 = sqrt (edge O ^ 2 - edge 1%nat ^ 2) / edge O
    /\ nv0 = nth 0 na 0 / (P0 * nth 0 hbar 0).
Proof.
  intros edge na hbar HN He Hc Hna Hh Hv.
  destruct (intersection_probabilities_ok self w) as (P & Hrun1 & HlP & HP);
    rewrite ?HN; auto.
  rewrite HN in HlP, HP.
  destruct (SP_to_nv_ok (VSD.set_inter_prob self P) w) as (v & Hrun2 & Hlv & Hrec);
    try (change (nbins (VSD.params (VSD.set_inter_prob self P)))
          with (nbins (VSD.params self)); rewrite HN; assumption).
  change (nbins (VSD.params (VSD.set_inter_prob self P)))
    with (nbins (VSD.params self)) in Hlv, Hrec.
  rewrite HN in Hlv, Hrec.
  specialize (HP O ltac:(lia)). specialize (Hrec O ltac:(lia)).
  cbn [VSD.set_inter_prob VSD.inter_prob VSD.bins] in Hrec.
  destruct P as [| P0 [| ? ?]]; try discriminate.
  destruct v as [| nv0 [| ? ?]]; try discriminate.
  cbn [nth] in HP, Hrec.
  exists P0, nv0. rewrite (bind_ok _ _ _ _ _ Hrun1). split; [exact Hrun2 |].
  split.
  - rewrite HP. unfold intersection_probability. fold (edge O) (edge 1%nat).
    replace (edge O ^ 2 - edge O ^ 2) with 0 by ring.
    rewrite sqrt_0. unfold Rdiv. ring.
  - rewrite Hrec. unfold previously_solved. simpl rsum.
    fold na hbar. unfold Rdiv. ring.
Qed.

(** ** The log-number density *)

(** [to_lnn] with one volume density per width: it returns, changes
    nothing but [n] and [lnn], and divides [nv[i] * 1e9] by
    [width[i] * 1e-3 * norm], doubled unless the convention is
    ['diameter']. *)
Lemma to_lnn_ok (self : VSD.t) w :
  let widths := Bins.bin_widths (VSD.bins self) in
  let factor :=
    if String.eqb (length_type (VSD.params self)) "diameter" then 1 else 2 in
  length (VSD.nv self) = length widths ->
  exists q,
    VSD.to_lnn self w = inr (VSD.set_n_lnn self q (map ln q), w)
    /\ length q = length widths
    /\ forall i, (i < length widths)%nat ->
         nth i q 0
         = nth i (VSD.nv self) 0 * 1e9
           / (nth i widths 0 * 1e-3 * Bins.norm (VSD.bins self) * factor).
Proof.
  intros widths factor Hlen. unfold VSD.to_lnn. fold widths.
  set (d0 := map (fun x => x * 1e-3 * Bins.norm (VSD.bins self)) widths).
  set (d := if negb (String.eqb (length_type (VSD.params self)) "diameter")
            then map (fun x => x * 2) d0 else d0).
  assert (Hd : length d = length widths).
  { unfold d, d0. destruct (negb _); rewrite ?length_map; reflexivity. }
  assert (Hdi : forall i, (i < length widths)%nat ->
            nth i d 0
            = nth i widths 0 * 1e-3 * Bins.norm (VSD.bins self) * factor).
  { intros i Hi. unfold d, d0, factor.
    destruct (String.eqb (length_type (VSD.params self)) "diameter");
      cbn [negb].
    - rewrite (nth_map_lt _ _ i 0) by exact Hi. ring.
    - rewrite (nth_map_lt _ _ i 0) by (rewrite length_map; exact Hi).
      rewrite (nth_map_lt _ _ i 0) by exact Hi. ring. }
  assert (Hl2 : length (map (fun x => x * 1e9) (VSD.nv self)) = length d).
  { rewrite length_map, Hd. exact Hlen. }
  rewrite (bind_ok _ _ _ _ _ (divide_same_length _ d w Hl2)).
  eexists. split; [reflexivity |]. split.
  - rewrite length_map, length_combine, length_map. lia.
  - intros i Hi.
    rewrite (nth_map_combine _ _ _ i 0 0)
      by (rewrite length_map; lia).
    cbn [fst snd].
    rewrite (nth_map_lt _ _ i 0) by lia. rewrite Hdi by exact Hi.
    reflexivity.
Qed.

(** C7.  For the radius or the diameter convention, positive widths and
    a positive [norm] (as [_create_bins] and [__init__] leave them),
    [to_lnn] returns; for every bin with [nv[i] > 0] it stores
    [n[i] = nv[i] * 1e9 / (width[i] * 1e-3 * norm * factor)] and
    [lnn[i] = ln(n[i])], and
    [exp(lnn[i]) * width[i] * 1e-3 * norm * factor / 1e9] is [nv[i]]
    again, hence within a relative tolerance of [1e-9]. *)
Theorem lnn_round_trip (self : VSD.t) w :
  let N := nbins (VSD.params self) in
  let convention := length_type (VSD.params self) in
  let factor := convention_factor convention in
  let norm := Bins.norm (VSD.bins self) in
  convention = "radius"%string \/ convention = "diameter"%string ->
  length (Bins.bin_widths (VSD.bins self)) = N ->
  length (VSD.nv self) = N ->
  0 < norm ->
  exists self',
    VSD.to_lnn self w = inr (self', w)
    /\ VSD.bins self' = VSD.bins self /\ VSD.nv self' = VSD.nv self
    /\ forall i, (i < N)%nat ->
         let width_i := nth i (Bins.bin_widths (VSD.bins self)) 0 in
         let nv_i := nth i (VSD.nv self) 0 in
         let lnn_i := nth i (VSD.lnn self') 0 in
         let recovered := exp lnn_i * width_i * 1e-3 * norm * factor / 1e9 in
         0 < width_i -> 0 < nv_i ->
         nth i (VSD.n self') 0 = nv_i * 1e9 / (width_i * 1e-3 * norm * factor)
         /\ lnn_i = ln (nth i (VSD.n self') 0)
         /\ recovered = nv_i
         /\ Rabs (recovered - nv_i) <= 1e-9 * Rabs nv_i.
Proof.
  intros N convention factor norm Hconv Hw Hv Hnorm.
  destruct (to_lnn_ok self w ltac:(lia)) as (q & Hrun & Hlq & Hq).
  eexists. split; [exact Hrun |].
  cbn [VSD.set_n_lnn VSD.bins VSD.nv VSD.n VSD.lnn].
  split; [reflexivity |]. split; [reflexivity |].
  intros i Hi. cbv zeta.
  set (width_i := nth i (Bins.bin_widths (VSD.bins self)) 0).
  set (nv_i := nth i (VSD.nv self) 0).
  set (lnn_i := nth i (map ln q) 0).
  set (recovered := exp lnn_i * width_i * 1e-3 * norm * factor / 1e9).
  intros Hwi Hnvi.
  assert (Hf : (if String.eqb (length_type (VSD.params self)) "diameter"
                then 1 else 2) = factor /\ 0 < factor).
  { unfold factor, convention_factor. fold convention.
    destruct Hconv as [-> | ->]; simpl; split; lra. }
  destruct Hf as [Hf Hfpos].
  specialize (Hq i ltac:(lia)). rewrite Hf in Hq.
  fold width_i nv_i norm in Hq.
  assert (Hdiv : 0 < width_i * 1e-3 * norm * factor).
  { repeat apply Rmult_lt_0_compat; try assumption; lra. }
  assert (Hn : 0 < nth i q 0).
  { rewrite Hq. apply Rdiv_lt_0_compat; [| exact Hdiv].
    apply Rmult_lt_0_compat; [exact Hnvi | lra]. }
  assert (Hl : lnn_i = ln (nth i q 0)).
  { unfold lnn_i. apply nth_map_lt. lia. }
  assert (Hrec : recovered = nv_i).
  { unfold recovered. rewrite Hl, exp_ln by exact Hn. rewrite Hq.
    field. repeat split; lra. }
  split; [exact Hq |]. split; [exact Hl |]. split; [exact Hrec |].
  rewrite Hrec. replace (nv_i - nv_i) with 0 by ring. rewrite Rabs_R0.
  apply Rmult_le_pos; [lra | apply Rabs_pos].
Qed.

(** ** The constructors of the corrections *)

(** The check of the measurement convention warns at most; it returns. *)
Lemma convention_check_ok (mismatch : bool) (x : Py.warning) w :
  exists w0,
    (if mismatch then Py.warn x else Py.ret tt) w = inr (tt, w0)
    /\ w0 = w ++ (if mismatch then [x] else []).
Proof.
  destruct mismatch; eexists; (split; [reflexivity |]);
    rewrite ?app_nil_r; reflexivity.
Qed.

(** [Saltikov(vesicles, roi_area, length_type, nbins)] over a measurement
    set raises [IndexError] as soon as [nbins] exceeds 12. *)
Lemma Saltikov_init_beyond_12 (vs : list R) (roi_area : R)
    (convention : string) (N : nat) w :
  measurements vs -> (12 < N)%nat ->
  Saltikov.init vs roi_area convention N w = inl Py.IndexError.
Proof.
  intros Hvs HN. unfold Saltikov.init.
  destruct (convention_check_ok (negb (String.eqb convention "diameter"))
              (Py.InputLengthShouldBe "S" "diameter") w) as (w0 & Hchk & _).
  rewrite (bind_ok _ _ _ _ _ Hchk).
  destruct (VSDCorrection_init_ok vs roi_area
              (mkParams linear (np_attr mean) convention N false) w0 Hvs
              ltac:(simpl; lia))
    as (self & w1 & Hrun & _ & Hp & _ & _ & _ & Hna & _ & Hh & _ & Hnv).
  rewrite (bind_ok _ _ _ _ _ Hrun).
  apply bind_raise. cbn [nbins] in Hna, Hh.
  apply Saltikov_to_nv_beyond_12; rewrite ?Hp; cbn [nbins]; auto.
  rewrite Hnv. apply repeat_length.
Qed.

(** C1.  The kernel is not truncated: [Saltikov] over the measurements
    1, 2, 3 with 13 bins raises [IndexError], where the claim has the
    computation succeed for any bin count. *)
Theorem Saltikov_13_bins_raise :
  Saltikov.init [1; 2; 3] 100 "diameter" 13 [] = inl Py.IndexError.
Proof.
  apply Saltikov_init_beyond_12; [| lia].
  split; [discriminate |]. repeat constructor; lra.
Qed.

Lemma count_eq_pos (idx : list Z) (i : nat) :
  In (Z.of_nat i) idx -> (0 < Bins.count_eq idx i)%nat.
Proof.
  intros H. unfold Bins.count_eq.
  assert (Hin : In (Z.of_nat i) (filter (fun k => (k =? Z.of_nat i)%Z) idx)).
  { apply filter_In. split; [exact H | apply Z.eqb_refl]. }
  destruct (filter _ idx); [contradiction | simpl; lia].
Qed.

(** Between two positive descending edges the probability of the single
    bin lies strictly between 0 and 1. *)
Lemma single_bin_probability (e0 e1 : R) :
  0 < e1 -> e1 < e0 ->
  0 < sqrt (e0 ^ 2 - e1 ^ 2) / e0 < 1.
Proof.
  intros H1 H0.
  assert (Hpos : 0 < e0 ^ 2 - e1 ^ 2) by nra.
  assert (Hs : 0 < sqrt (e0 ^ 2 - e1 ^ 2)) by (apply sqrt_lt_R0; exact Hpos).
  assert (Hlt : sqrt (e0 ^ 2 - e1 ^ 2) < e0).
  { rewrite <- (sqrt_pow2 e0) at 2 by lra.
    apply sqrt_lt_1; nra. }
  split.
  - apply Rdiv_lt_0_compat; lra.
  - apply Rmult_lt_reg_r with e0; [lra |].
    unfold Rdiv. rewrite Rmult_assoc, Rinv_l by lra. lra.
Qed.

(** [SahagianProussevitch] with one bin over a measurement set and a
    positive reference area: it returns, [na[0]] and [hbar[0]] are
    positive, [nv[0] = na[0] / (P0 * hbar[0])] for a [P0] strictly between
    0 and 1, and so [nv[0]] is above [na[0] / hbar[0]]. *)
Lemma SP_init_one_bin (vs : list R) (roi_area : R) (convention : string) w :
  measurements vs -> 0 < roi_area ->
  exists self w' P0,
    SahagianProussevitch.init vs roi_area convention 1 w = inr (self, w')
    /\ 0 < nth 0 (Bins.na (VSD.bins self)) 0
    /\ 0 < nth 0 (Bins.hbar (VSD.bins self)) 0
    /\ 0 < P0 < 1
    /\ nth 0 (VSD.nv self) 0
       = nth 0 (Bins.na (VSD.bins self)) 0
         / (P0 * nth 0 (Bins.hbar (VSD.bins self)) 0)
    /\ nth 0 (Bins.na (VSD.bins self)) 0 / nth 0 (Bins.hbar (VSD.bins self)) 0
       < nth 0 (VSD.nv self) 0.
Proof.
  intros Hvs Hroi. unfold SahagianProussevitch.init.
  destruct (convention_check_ok (negb (String.eqb convention "diameter"))
              (Py.InputLengthShouldBe "S&P" "diameter") w) as (w0 & Hchk & _).
  rewrite (bind_ok _ _ _ _ _ Hchk).
  set (p := mkParams geometric bin_center convention 1 false).
  destruct (VSDCorrection_init_ok vs roi_area p w0 Hvs ltac:(simpl; lia))
    as (self & w1 & Hrun & Hb & Hp & Hraw & Hedges & Hind & Hlna & Hna
        & Hlh & Hh & Hnv).
  rewrite (bind_ok _ _ _ _ _ Hrun).
  cbn [nbins p] in Hlna, Hna, Hlh, Hnv.
  specialize (Hh eq_refl). destruct (Hraw eq_refl) as [Hves _].
  pose proof Hb as Hb'. destruct Hb'.
  unfold VSD.params in Hp. rewrite Hp in *. cbn [nbins p] in *.
  (* the two edges *)
  destruct (geometric_edges_ok p (Bins.vesicles (VSD.bins self)) w0 eq_refl
              built_vesicles0 ltac:(simpl; lia))
    as (edges & hi & He & Hmax & _ & Hnth & _ & _ & _).
  assert (edges = Bins.bin_edges (VSD.bins self)) by congruence. subst edges.
  set (edge := fun i => nth i (Bins.bin_edges (VSD.bins self)) 0) in *.
  assert (He1 : 0 < edge 1%nat) by exact built_last0.
  assert (He0 : edge 1%nat < edge O) by (apply built_descending0; lia).
  (* the largest measurement sits in bin 0 *)
  assert (Hhi : In hi (Bins.vesicles (VSD.bins self)) /\ hi = edge O).
  { destruct built_vesicles0 as [Hne _].
    destruct (max_ok (Bins.vesicles (VSD.bins self)) w0 Hne)
      as (m & Hm & Hin & _).
    assert (m = hi) by congruence. subst m. split; [exact Hin |].
    unfold edge. rewrite (Hnth O) by (simpl; lia). simpl.
    rewrite Rmult_0_r, Rpower_O by lra. ring. }
  destruct Hhi as [Hin Hhi0].
  assert (Hcount : (0 < Bins.count_eq (Bins.ind (VSD.bins self)) 0)%nat).
  { apply count_eq_pos. rewrite Hind. apply in_map_iff. exists hi.
    split; [| exact Hin].
    destruct (assign_cases (Bins.bin_edges (VSD.bins self)) 1 hi
                ltac:(lia) built_edges0 built_descending0) as (_ & H0 & _).
    apply H0. exact Hhi0. }
  assert (Hna0 : 0 < nth 0 (Bins.na (VSD.bins self)) 0).
  { rewrite Hna by lia. apply Rdiv_lt_0_compat; [| exact Hroi].
    apply lt_0_INR. exact Hcount. }
  assert (Hh0 : 0 < nth 0 (Bins.hbar (VSD.bins self)) 0).
  { rewrite Hh. destruct (built_bins0 O ltac:(lia)) as (Hw & _ & Hc).
    rewrite Hc, Hw. fold (edge O) (edge 1%nat). lra. }
  (* the unfolding *)
  assert (HN1 : nbins (VSD.params self) = 1%nat)
    by (unfold VSD.params; rewrite Hp; reflexivity).
  assert (Hlnv : length (VSD.nv self) = 1%nat) by (rewrite Hnv; reflexivity).
  destruct (SP_single_bin self w1 HN1 built_edges0 built_centers0 Hlna Hlh Hlnv)
    as (P0 & nv0 & Hsp & HP0 & Hnv0).
  assert (HP : 0 < P0 < 1).
  { rewrite HP0. exact (single_bin_probability (edge O) (edge 1%nat) He1 He0). }
  unfold Py.bind in Hsp.
  destruct (SahagianProussevitch.intersection_probabilities self w1)
    as [e | [self1 w2]] eqn:Hip; [discriminate |].
  rewrite (bind_ok _ _ _ _ _ Hip), (bind_ok _ _ _ _ _ Hsp).
  destruct (to_lnn_ok (VSD.set_nv (VSD.set_inter_prob self [P0]) [nv0]) w1)
    as (q & Hlnn & _).
  { cbn [VSD.set_nv VSD.set_inter_prob VSD.nv VSD.bins]. simpl.
    rewrite built_widths0. reflexivity. }
  eexists _, _, P0. split; [exact Hlnn |].
  cbn [VSD.set_n_lnn VSD.set_nv VSD.set_inter_prob VSD.nv VSD.bins nth].
  split; [exact Hna0 |]. split; [exact Hh0 |]. split; [exact HP |].
  split; [exact Hnv0 |].
  rewrite Hnv0.
  set (a := nth 0 (Bins.na (VSD.bins self)) 0) in *.
  set (h := nth 0 (Bins.hbar (VSD.bins self)) 0) in *.
  assert (Hph : 0 < P0 * h) by (apply Rmult_lt_0_compat; lra).
  apply Rmult_lt_reg_r with (P0 * h); [exact Hph |].
  replace (a / (P0 * h) * (P0 * h)) with a by (field; lra).
  replace (a / h * (P0 * h)) with (a * P0) by (field; lra).
  nra.
Qed.

(** C2 (as amended).  With one bin the geometric recursive unfolding
    returns [nv[0] = na[0] / (P[0] * hbar[0])], where
    [P[0] = sqrt(edge[0]^2 - edge[1]^2) / edge[0]]. *)
Theorem SP_one_bin_unfolding (self : VSD.t) w :
  let edge := fun i => nth i (Bins.bin_edges (VSD.bins self)) 0 in
  let na := Bins.na (VSD.bins self) in
  let hbar := Bins.hbar (VSD.bins self) in
  nbins (VSD.params self) = 1%nat ->
  length (Bins.bin_edges (VSD.bins self)) = 2%nat ->
  length (Bins.bin_centers (VSD.bins self)) = 1%nat ->
  length na = 1%nat -> length hbar = 1%nat -> length (VSD.nv self) = 1%nat ->
  exists self',
    (self1 <- SahagianProussevitch.intersection_probabilities self ;;
     SahagianProussevitch.to_nv self1) w = inr (self', w)
    /\ VSD.bins self' = VSD.bins self
    /\ nth 0 (VSD.inter_prob self') 0
       = sqrt (edge O ^ 2 - edge 1%nat ^ 2) / edge O
    /\ nth 0 (VSD.nv self') 0
       = nth 0 na 0 / (nth 0 (VSD.inter_prob self') 0 * nth 0 hbar 0).
Proof.
  intros edge na hbar HN He Hc Hna Hh Hv.
  destruct (SP_single_bin self w HN He Hc Hna Hh Hv)
    as (P0 & nv0 & Hrun & HP0 & Hnv0).
  eexists. split; [exact Hrun |].
  cbn [VSD.set_nv VSD.set_inter_prob VSD.bins VSD.inter_prob VSD.nv nth].
  split; [reflexivity |]. split; [exact HP0 | exact Hnv0].
Qed.

(** C2 (as stated) fails: over the measurements 4 and 5, a reference area
    of 100 and one bin, [nv[0]] is not [na[0] / hbar[0]]. *)
Lemma SP_one_bin_counterexample :
  exists self w',
    SahagianProussevitch.init [4; 5] 100 "diameter" 1 [] = inr (self, w')
    /\ nth 0 (VSD.nv self) 0
       <> nth 0 (Bins.na (VSD.bins self)) 0
          / nth 0 (Bins.hbar (VSD.bins self)) 0.
Proof.
  destruct (SP_init_one_bin [4; 5] 100 "diameter" [])
    as (self & w' & P0 & Hrun & _ & _ & _ & _ & Hlt).
  - split; [discriminate |]. repeat constructor; lra.
  - lra.
  - exists self, w'. split; [exact Hrun |]. lra.
Qed.

(** ** The theorems at sample objects *)

Lemma sample_edges_descending : strictly_decreasing [3; 2; 1].
Proof.
  intros [| [| i]] Hi; simpl in *; try lra. lia.
Qed.

Lemma sample_measurements : measurements [1; 2; 3; 4; 5].
Proof. split; [discriminate |]. repeat constructor; lra. Qed.

Lemma create_bins_invariant_witness :
  exists edges widths centers,
    Bins._create_bins (sample_params 2) [1; 2; 3; 4; 5] []
    = inr ((edges, widths, centers), [])
    /\ length edges = 3%nat /\ strictly_decreasing edges
    /\ 0 < nth 1 widths 0.
Proof.
  destruct (create_bins_invariant (sample_params 2) [1; 2; 3; 4; 5] []
              sample_measurements ltac:(simpl; lia))
    as (edges & widths & centers & Hrun & Hlen & Hd & _ & _ & Hi).
  exists edges, widths, centers.
  split; [exact Hrun |]. split; [exact Hlen |]. split; [exact Hd |].
  apply (Hi 1%nat). simpl. lia.
Defined.

Lemma assigned_indices_in_range_witness :
  exists b w',
    VSD.init [1; 2; 3; 4; 5] (sample_params 2) [] = inr (b, w')
    /\ Forall (fun k => (0 <= k <= 2)%Z) (Bins.ind b).
Proof.
  destruct (assigned_indices_in_range [1; 2; 3; 4; 5] (sample_params 2) []
              sample_measurements ltac:(simpl; lia))
    as (b & w' & Hrun & _ & Hall & _).
  exists b, w'. split; [exact Hrun | exact Hall].
Defined.

Lemma bin_data_right_inclusive_witness :
  exists b' w',
    Bins.bin_data sample_bins [] = inr (b', w')
    /\ nth 1 (Bins.ind b') 0%Z = 0%Z
    /\ nth 2 (Bins.ind b') 0%Z = 2%Z.
Proof.
  destruct (bin_data_right_inclusive sample_bins []
              ltac:(simpl; lia) eq_refl sample_edges_descending
              ltac:(discriminate))
    as (b' & w' & Hrun & _ & Hm).
  exists b', w'. split; [exact Hrun |]. split.
  - destruct (Hm 1%nat ltac:(simpl; lia)) as (_ & H0 & _).
    apply H0. reflexivity.
  - destruct (Hm 2%nat ltac:(simpl; lia)) as (_ & _ & HN).
    apply HN. simpl. lra.
Defined.

Lemma compute_na_conserves_counts_witness :
  exists b',
    Bins.compute_na sample_assigned 100 [] = inr (b', [])
    /\ rsum (fun i => nth i (Bins.na b') 0 * 100) 2 = 3.
Proof.
  destruct (compute_na_conserves_counts sample_assigned 100 []
              eq_refl ltac:(lra))
    as (b' & Hrun & _ & _ & Hsum).
  exists b'. split; [exact Hrun |].
  etransitivity; [exact Hsum |]. simpl. lra.
Defined.

Lemma compute_hbar_empty_bin_fallback_witness :
  exists b' advisories,
    Bins.compute_hbar sample_sparse [] = inr (b', [] ++ advisories)
    /\ nth 1 (Bins.hbar b') 0 = 2.75
    /\ In (Py.BinDoesNotContainVesicles 1) advisories
    /\ nth 0 (Bins.hbar b') 0 = 4.5.
Proof.
  destruct (compute_hbar_empty_bin_fallback sample_sparse mean []
              eq_refl eq_refl eq_refl
              ltac:(repeat constructor; lra))
    as (b' & advisories & Hrun & _ & Hi).
  exists b', advisories. split; [exact Hrun |].
  destruct (Hi 1%nat ltac:(simpl; lia)) as [Hempty _].
  destruct (Hempty eq_refl) as [Hc Hadv].
  destruct (Hi 0%nat ltac:(simpl; lia)) as [_ Hfull].
  destruct (Hfull ltac:(discriminate)) as [Hagg _].
  split; [exact Hc |]. split; [exact Hadv |].
  rewrite Hagg. unfold arithmetic_mean. simpl. lra.
Defined.

Lemma SP_recursive_unfolding_witness :
  exists self1 self2,
    SahagianProussevitch.intersection_probabilities sample_vsd []
    = inr (self1, [])
    /\ SahagianProussevitch.to_nv self1 [] = inr (self2, [])
    /\ nth 1 (VSD.nv self2) 0
       = (8 - nth 1 (VSD.inter_prob self2) 0 * 4 * nth 0 (VSD.nv self2) 0)
         / (nth 0 (VSD.inter_prob self2) 0 * 4).
Proof.
  destruct (SP_recursive_unfolding sample_vsd []
              ltac:(simpl; lia) eq_refl eq_refl eq_refl eq_refl eq_refl)
    as (self1 & self2 & Hrun1 & Hrun2 & _ & _ & _ & Hi).
  exists self1, self2. split; [exact Hrun1 |]. split; [exact Hrun2 |].
  destruct (Hi 1%nat ltac:(simpl; lia)) as (_ & Hrec & _).
  rewrite Hrec. unfold previously_solved. simpl. f_equal. lra.
Defined.

Lemma SP_one_bin_unfolding_witness :
  exists self',
    (self1 <- SahagianProussevitch.intersection_probabilities sample_single ;;
     SahagianProussevitch.to_nv self1) [] = inr (self', [])
    /\ nth 0 (VSD.inter_prob self') 0 = sqrt (5 ^ 2 - 4 ^ 2) / 5
    /\ nth 0 (VSD.nv self') 0 = 2 / (nth 0 (VSD.inter_prob self') 0 * 4.5).
Proof.
  destruct (SP_one_bin_unfolding sample_single []
              eq_refl eq_refl eq_refl eq_refl eq_refl eq_refl)
    as (self' & Hrun & _ & HP & Hnv).
  exists self'. split; [exact Hrun |]. split; [exact HP | exact Hnv].
Defined.

Lemma lnn_round_trip_witness :
  exists self',
    VSD.to_lnn sample_corrected [] = inr (self', [])
    /\ nth 0 (VSD.lnn self') 0 = ln (nth 0 (VSD.n self') 0)
    /\ exp (nth 0 (VSD.lnn self') 0) * 1 * 1e-3 * 1 * 2 / 1e9 = 2.
Proof.
  destruct (lnn_round_trip sample_corrected []
              (or_introl eq_refl) eq_refl eq_refl ltac:(simpl; lra))
    as (self' & Hrun & _ & _ & Hi).
  exists self'. split; [exact Hrun |].
  destruct (Hi 0%nat ltac:(simpl; lia) ltac:(simpl; lra) ltac:(simpl; lra))
    as (_ & Hl & Hrec & _).
  split; [exact Hl | exact Hrec].
Defined.

(** ** The corrections end to end *)

Lemma ChengLemlich_to_nv_ok (self : VSD.t) w :
  length (Bins.na (VSD.bins self)) = length (Bins.hbar (VSD.bins self)) ->
  ChengLemlich.to_nv self w
  = inr (VSD.set_nv self
           (map (fun x => fst x / snd x)
                (combine (Bins.na (VSD.bins self))
                         (Bins.hbar (VSD.bins self)))), w).
Proof.
  intros Hl. unfold ChengLemlich.to_nv.
  rewrite (bind_ok _ _ _ _ _ (divide_same_length _ _ w Hl)). reflexivity.
Qed.

(** [ChengLemlich(...)] over a measurement set returns, with
    [nv[i] = na[i] / hbar[i]] in every bin. *)
Lemma ChengLemlich_init_ok (vs : list R) (roi_area : R)
    (convention : string) (N : nat) w :
  measurements vs -> (0 < N)%nat ->
  exists self w',
    ChengLemlich.init vs roi_area convention N w = inr (self, w')
    /\ built (VSD.bins self)
    /\ length (VSD.nv self) = N
    /\ forall i, (i < N)%nat ->
         nth i (VSD.nv self) 0
         = nth i (Bins.na (VSD.bins self)) 0
           / nth i (Bins.hbar (VSD.bins self)) 0.
Proof.
  intros Hvs HN. unfold ChengLemlich.init.
  destruct (convention_check_ok (negb (String.eqb convention "radius"))
              (Py.InputLengthShouldBe "C&L" "radius") w) as (w0 & Hchk & _).
  rewrite (bind_ok _ _ _ _ _ Hchk).
  set (p := mkParams linear (np_attr mean) convention N false).
  destruct (VSDCorrection_init_ok vs roi_area p w0 Hvs HN)
    as (self & w1 & Hrun & Hb & Hp & _ & _ & _ & Hlna & _ & Hlh & _ & _).
  rewrite (bind_ok _ _ _ _ _ Hrun).
  cbn [nbins p] in Hlna, Hlh.
  assert (HNp : nbins (Bins.params (VSD.bins self)) = N)
    by (unfold VSD.params in Hp; rewrite Hp; reflexivity).
  rewrite (bind_ok _ _ _ _ _
             (ChengLemlich_to_nv_ok self w1 (eq_trans Hlna (eq_sym Hlh)))).
  set (q := map (fun x => fst x / snd x)
                (combine (Bins.na (VSD.bins self)) (Bins.hbar (VSD.bins self)))).
  assert (Hlq : length q = N).
  { unfold q. rewrite length_map, length_combine. lia. }
  destruct (to_lnn_ok (VSD.set_nv self q) w1) as (l & Hlnn & _).
  { cbn [VSD.set_nv VSD.nv VSD.bins]. destruct Hb. congruence. }
  eexists _, _. split; [exact Hlnn |].
  cbn [VSD.set_n_lnn VSD.set_nv VSD.nv VSD.bins].
  split; [exact Hb |]. split; [exact Hlq |].
  intros i Hi. unfold q.
  rewrite (nth_map_combine _ _ _ i 0 0) by lia. reflexivity.
Qed.

(** [SahagianProussevitch(...)] over a measurement set returns for every
    positive bin count, with the recurrence of the specification in every
    bin. *)
Lemma SP_init_ok (vs : list R) (roi_area : R) (convention : string)
    (N : nat) w :
  measurements vs -> (0 < N)%nat ->
  exists self w',
    SahagianProussevitch.init vs roi_area convention N w = inr (self, w')
    /\ built (VSD.bins self)
    /\ Bins.hbar (VSD.bins self) = Bins.bin_centers (VSD.bins self)
    /\ length (VSD.nv self) = N
    /\ forall i, (i < N)%nat ->
         nth i (VSD.inter_prob self) 0
         = intersection_probability
             (fun k => nth k (Bins.bin_edges (VSD.bins self)) 0) i
         /\ nth i (VSD.nv self) 0
            = (nth i (Bins.na (VSD.bins self)) 0
               - previously_solved (VSD.inter_prob self)
                   (Bins.hbar (VSD.bins self)) (VSD.nv self) i)
              / (nth 0 (VSD.inter_prob self) 0
                 * nth i (Bins.hbar (VSD.bins self)) 0).
Proof.
  intros Hvs HN. unfold SahagianProussevitch.init.
  destruct (convention_check_ok (negb (String.eqb convention "diameter"))
              (Py.InputLengthShouldBe "S&P" "diameter") w) as (w0 & Hchk & _).
  rewrite (bind_ok _ _ _ _ _ Hchk).
  set (p := mkParams geometric bin_center convention N false).
  destruct (VSDCorrection_init_ok vs roi_area p w0 Hvs HN)
    as (self & w1 & Hrun & Hb & Hp & _ & _ & _ & Hlna & _ & Hlh & Hh & Hnv).
  rewrite (bind_ok _ _ _ _ _ Hrun).
  cbn [nbins p] in Hlna, Hlh, Hnv. specialize (Hh eq_refl).
  assert (HNp : nbins (VSD.params self) = N) by (rewrite Hp; reflexivity).
  assert (Hlnv : length (VSD.nv self) = N)
    by (rewrite Hnv; apply repeat_length).
  pose proof Hb as Hb'. destruct Hb'.
  fold (VSD.params self) in built_edges0, built_centers0, built_widths0.
  rewrite HNp in built_edges0, built_centers0, built_widths0.
  destruct (intersection_probabilities_ok self w1)
    as (P & Hrun1 & HlP & HP); rewrite ?HNp; auto.
  rewrite HNp in HlP, HP.
  rewrite (bind_ok _ _ _ _ _ Hrun1).
  destruct (SP_to_nv_ok (VSD.set_inter_prob self P) w1)
    as (v & Hrun2 & Hlv & Hrec);
    try (change (nbins (VSD.params (VSD.set_inter_prob self P)))
          with (nbins (VSD.params self)); rewrite HNp; assumption).
  change (nbins (VSD.params (VSD.set_inter_prob self P)))
    with (nbins (VSD.params self)) in Hlv, Hrec.
  rewrite HNp in Hlv, Hrec.
  rewrite (bind_ok _ _ _ _ _ Hrun2).
  destruct (to_lnn_ok (VSD.set_nv (VSD.set_inter_prob self P) v) w1)
    as (q & Hlnn & _).
  { cbn [VSD.set_nv VSD.set_inter_prob VSD.nv VSD.bins]. congruence. }
  eexists _, _. split; [exact Hlnn |].
  cbn [VSD.set_n_lnn VSD.set_nv VSD.set_inter_prob VSD.nv VSD.bins
       VSD.inter_prob] in *.
  split; [exact Hb |]. split; [exact Hh |]. split; [exact Hlv |].
  intros i Hi. split; [apply HP; exact Hi | apply Hrec; exact Hi].
Qed.

(** [Saltikov(...)] over a measurement set returns for 1 to 12 bins, with
    the kernel sum over the characteristic size in every bin. *)
Lemma Saltikov_init_upto_12 (vs : list R) (roi_area : R)
    (convention : string) (N : nat) w :
  measurements vs -> (0 < N <= 12)%nat ->
  exists self w',
    Saltikov.init vs roi_area convention N w = inr (self, w')
    /\ built (VSD.bins self)
    /\ length (VSD.nv self) = N
    /\ forall i, (i < N)%nat ->
         nth i (VSD.nv self) 0
         = kernel_sum Saltikov.coeff (Bins.na (VSD.bins self)) i
           / nth i (Bins.hbar (VSD.bins self)) 0.
Proof.
  intros Hvs HN. unfold Saltikov.init.
  destruct (convention_check_ok (negb (String.eqb convention "diameter"))
              (Py.InputLengthShouldBe "S" "diameter") w) as (w0 & Hchk & _).
  rewrite (bind_ok _ _ _ _ _ Hchk).
  set (p := mkParams linear (np_attr mean) convention N false).
  destruct (VSDCorrection_init_ok vs roi_area p w0 Hvs (proj1 HN))
    as (self & w1 & Hrun & Hb & Hp & _ & _ & _ & Hlna & _ & Hlh & _ & Hnv).
  rewrite (bind_ok _ _ _ _ _ Hrun).
  cbn [nbins p] in Hlna, Hlh, Hnv.
  assert (HNp : nbins (VSD.params self) = N) by (rewrite Hp; reflexivity).
  assert (Hlnv : length (VSD.nv self) = N)
    by (rewrite Hnv; apply repeat_length).
  destruct (Saltikov_to_nv_upto_12 self w1)
    as (self' & Hrun1 & Hbins & Hlv & Hsum); rewrite ?HNp; auto; try lia.
  rewrite HNp in Hlv, Hsum.
  rewrite (bind_ok _ _ _ _ _ Hrun1).
  destruct (to_lnn_ok self' w1) as (q & Hlnn & _).
  { rewrite Hbins, Hlv. destruct Hb.
    fold (VSD.params self) in built_widths0. congruence. }
  eexists _, _. split; [exact Hlnn |].
  cbn [VSD.set_n_lnn VSD.nv VSD.bins]. rewrite Hbins.
  split; [exact Hb |]. split; [exact Hlv | exact Hsum].
Qed.

(** ** Which indices are reached *)

(** Linear edges end below the smallest measurement, so over a
    measurement set no index reaches [nbins]. *)
Lemma linear_indices_below_nbins (vs : list R) (p : Params) w :
  bin_method p = linear -> measurements vs -> (0 < nbins p)%nat ->
  exists b w',
    VSD.init vs p w = inr (b, w')
    /\ Forall (fun k => (0 <= k < Z.of_nat (nbins p))%Z) (Bins.ind b).
Proof.
  intros Hm Hvs HN.
  destruct (VSD_init_ok vs p w Hvs HN)
    as (b0 & w' & _ & Hb & Hp & _ & Hedges & Hrun).
  eexists _, _. split; [exact Hrun |]. simpl Bins.ind.
  destruct Hb. rewrite Hp in *.
  destruct (linear_edges_ok p (Bins.vesicles b0) w Hm built_vesicles0 HN)
    as (edges & hi & lo & He & _ & Hmin & _ & Hnth & _ & _ & _).
  assert (edges = Bins.bin_edges b0) by congruence. subst edges.
  destruct built_vesicles0 as [Hne Hpos].
  destruct (min_ok (Bins.vesicles b0) w Hne) as (m & Hm' & Hin & Hle).
  assert (m = lo) by congruence. subst m.
  rewrite Forall_forall in Hpos. pose proof (Hpos _ Hin) as Hlo.
  assert (Hlast : nth (nbins p) (Bins.bin_edges b0) 0 = lo * 0.9999999).
  { rewrite Hnth by lia. field.
    apply Rgt_not_eq. apply lt_0_INR. exact HN. }
  rewrite Forall_forall. intros k Hk.
  apply in_map_iff in Hk. destruct Hk as (v & <- & Hv).
  destruct (assign_decreasing (Bins.bin_edges b0) (nbins p) v HN
              built_edges0 built_descending0) as (Hk & Hge & Hlt).
  split.
  - destruct (Z_lt_le_dec (Bins.assign (Bins.bin_edges b0) v) 0)
      as [Hneg | ?]; [| assumption].
    specialize (Hlt O Hneg ltac:(lia)). specialize (built_first0 v Hv). lra.
  - destruct (Z_lt_le_dec (Bins.assign (Bins.bin_edges b0) v)
                (Z.of_nat (nbins p))) as [? | Hbig]; [assumption |].
    specialize (Hge (nbins p) Hbig). specialize (Hle v Hv). lra.
Qed.

(** Geometric edges do not follow the smallest measurement: over the
    measurements 1 and 10 with one bin, the measurement 1 lies below the
    last edge and gets the index [nbins]. *)
Lemma geometric_index_reaches_nbins :
  exists b w',
    VSD.init [1; 10] (mkParams geometric bin_center "diameter" 1 false) []
    = inr (b, w')
    /\ nth 0 (Bins.ind b) 0%Z = 1%Z.
Proof.
  set (p := mkParams geometric bin_center "diameter" 1 false).
  assert (Hvs : measurements [1; 10]).
  { split; [discriminate |]. repeat constructor; lra. }
  destruct (VSD_init_ok [1; 10] p [] Hvs ltac:(simpl; lia))
    as (b0 & w' & _ & Hb & Hp & Hraw & Hedges & Hrun).
  eexists _, _. split; [exact Hrun |]. simpl Bins.ind.
  destruct (Hraw eq_refl) as [Hves _]. rewrite Hves. simpl map. simpl nth.
  destruct Hb. rewrite Hp in *. cbn [nbins p] in *.
  destruct (geometric_edges_ok p (Bins.vesicles b0) [] eq_refl
              built_vesicles0 ltac:(simpl; lia))
    as (edges & hi & He & Hmax & _ & Hnth & _).
  assert (edges = Bins.bin_edges b0) by congruence. subst edges.
  assert (Hhi : hi = 10).
  { rewrite Hves in Hmax. unfold np.max, Py.ret in Hmax. simpl in Hmax.
    injection Hmax as <-. unfold Rmax.
    destruct (Rle_dec 1 10); [reflexivity | lra]. }
  destruct (assign_cases (Bins.bin_edges b0) 1 1 ltac:(lia)
              built_edges0 built_descending0) as (_ & _ & Hlast).
  apply Hlast. rewrite (Hnth 1%nat) by (simpl; lia). rewrite Hhi.
  assert (Hp10 : / 10 < Rpower 10 (-0.1 * INR 1)).
  { replace (/ 10) with (Rpower 10 (- (1))).
    - apply Rpower_lt; [lra |]. simpl. lra.
    - rewrite Rpower_Ropp, Rpower_1 by lra. reflexivity. }
  lra.
Qed.

(** * Further properties of the module *)

(** ** The state the common constructor leaves *)

Lemma length_masked (a : list R) (idx : list Z) i :
  length idx = length a -> length (np.masked a idx i) = Bins.count_eq idx i.
Proof.
  unfold np.masked, Bins.count_eq. rewrite length_map.
  revert idx. induction a as [| x a IH]; intros [| k idx] H; simpl in *;
    try discriminate; try reflexivity.
  destruct (Z.eqb_spec k (Z.of_nat i)); simpl; rewrite IH by lia; reflexivity.
Qed.

(** The elements selected for bin [i] are the measurements whose index
    is [i]. *)
Lemma in_masked_map (f : R -> Z) (a : list R) i x :
  In x (np.masked a (map f a) i) <-> In x a /\ f x = Z.of_nat i.
Proof.
  unfold np.masked. induction a as [| y a IH]; simpl.
  - split; [intros [] | intros [[] _]].
  - destruct (Z.eqb_spec (f y) (Z.of_nat i)) as [Heq | Hne]; simpl.
    + rewrite IH. split.
      * intros [<- | [H1 H2]]; auto.
      * intros [[<- | H1] H2]; auto.
    + rewrite IH. split.
      * intros [H1 H2]; auto.
      * intros [[<- | H1] H2]; [contradiction | auto].
Qed.

(** [VSDCorrection.__init__] over a measurement set, in full: the bins it
    builds, the indices, the densities, the characteristic sizes and the
    advisories (the range advisory, then one per bin reported empty). *)
Lemma VSDCorrection_init_spec (vs : list R) (roi_area : R) (p : Params) w :
  measurements vs -> (0 < nbins p)%nat ->
  exists b0 a h,
    Bins.init vs p w = inr (b0, w)
    /\ built b0 /\ Bins.params b0 = p
    /\ VSDCorrection.init vs roi_area p w
       = inr (VSD.mk (Bins.set_hbar
                        (Bins.set_na (Bins.set_ind b0 (assigned b0)) a) h)
                     roi_area (repeat 0 (nbins p)) [] [] [],
              w ++ range_advisory (assigned b0) (nbins p)
                ++ empty_bin_advisories (Bins.set_ind b0 (assigned b0)))
    /\ length a = nbins p
    /\ (forall i, (i < nbins p)%nat ->
          nth i a 0 = INR (Bins.count_eq (assigned b0) i) / roi_area)
    /\ length h = nbins p
    /\ (forall i, (i < nbins p)%nat ->
          nth i h 0
          = match hbar_method p with
            | bin_center => nth i (Bins.bin_centers b0) 0
            | np_attr m =>
                if np.any (np.masked (Bins.vesicles b0) (assigned b0) i)
                then Bins.aggregate m
                       (np.masked (Bins.vesicles b0) (assigned b0) i)
                else nth i (Bins.bin_centers b0) 0
            end).
Proof.
  intros Hvs HN.
  destruct (Bins_init_ok vs p w Hvs HN)
    as (b0 & Hinit & Hb & Hp & _ & _ & _).
  exists b0.
  set (b1 := Bins.set_ind b0 (assigned b0)).
  pose proof Hb as Hb'. destruct Hb'. rewrite Hp in *.
  assert (Hdata : Bins.bin_data b0 w
                  = inr (b1, w ++ range_advisory (assigned b0) (nbins p))).
  { destruct built_vesicles0 as [Hne _].
    rewrite <- Hp. apply bin_data_ok; rewrite ?Hp; assumption. }
  assert (Hc : length (Bins.bin_centers b1) = nbins (Bins.params b1)).
  { unfold b1. attrs. rewrite Hp. exact built_centers0. }
  destruct (compute_na_ok b1 roi_area
              (w ++ range_advisory (assigned b0) (nbins p)) Hc)
    as (a & Hna & Hla & Ha).
  change (nbins (Bins.params b1)) with (nbins (Bins.params b0)) in Hla, Ha.
  rewrite Hp in Hla, Ha.
  assert (Hhbar : exists h,
            Bins.compute_hbar (Bins.set_na b1 a)
              (w ++ range_advisory (assigned b0) (nbins p))
            = inr (Bins.set_hbar (Bins.set_na b1 a) h,
                   (w ++ range_advisory (assigned b0) (nbins p))
                     ++ empty_bin_advisories b1)
            /\ length h = nbins p
            /\ forall i, (i < nbins p)%nat ->
                 nth i h 0
                 = match hbar_method p with
                   | bin_center => nth i (Bins.bin_centers b0) 0
                   | np_attr m =>
                       if np.any (np.masked (Bins.vesicles b0) (assigned b0) i)
                       then Bins.aggregate m
                              (np.masked (Bins.vesicles b0) (assigned b0) i)
                       else nth i (Bins.bin_centers b0) 0
                   end).
  { unfold empty_bin_advisories.
    change (Bins.params b1) with (Bins.params b0). rewrite Hp.
    destruct (hbar_method p) as [| m] eqn:Hm.
    - exists (Bins.bin_centers b0). rewrite app_nil_r.
      assert (Hm' : hbar_method (Bins.params (Bins.set_na b1 a)) = bin_center).
      { change (hbar_method (Bins.params b0) = bin_center).
        rewrite Hp. exact Hm. }
      split; [exact (compute_hbar_bin_center (Bins.set_na b1 a) _ Hm') |].
      split; [exact built_centers0 | reflexivity].
    - destruct (compute_hbar_ok (Bins.set_na b1 a) m
                  (w ++ range_advisory (assigned b0) (nbins p)))
        as (h & Hrun & Hlh & Hh).
      + change (hbar_method (Bins.params b0) = np_attr m).
        rewrite Hp. exact Hm.
      + exact Hc.
      + unfold b1, assigned. attrs. apply length_map.
      + change (reported_empty (Bins.set_na b1 a)
                  (nbins (Bins.params (Bins.set_na b1 a))))
          with (reported_empty b1 (nbins (Bins.params b0))) in Hrun.
        change (nbins (Bins.params (Bins.set_na b1 a)))
          with (nbins (Bins.params b0)) in Hlh, Hh.
        rewrite Hp in Hrun, Hlh, Hh.
        exists h. split; [exact Hrun |]. split; [exact Hlh | exact Hh]. }
  destruct Hhbar as (h & Hhbar & Hlh & Hh).
  exists a, h. split; [exact Hinit |]. split; [exact Hb |].
  split; [reflexivity |]. split.
  - assert (Hvsd : VSD.init vs p w
                   = inr (b1, w ++ range_advisory (assigned b0) (nbins p))).
    { unfold VSD.init, Py.bind. rewrite Hinit. exact Hdata. }
    unfold VSDCorrection.init.
    rewrite (bind_ok _ _ _ _ _ Hvsd), (bind_ok _ _ _ _ _ Hna),
      (bind_ok _ _ _ _ _ Hhbar).
    unfold Py.ret, np.zeros_like.
    change (Bins.bin_centers b1) with (Bins.bin_centers b0).
    rewrite built_centers0, app_assoc. reflexivity.
  - auto.
Qed.

(** ** The characteristic size of a bin *)

(** A measurement assigned to bin [i] lies between the edges of the
    bin. *)
Lemma assigned_in_bin (b0 : Bins.t) i x :
  built b0 -> (i < nbins (Bins.params b0))%nat ->
  In x (np.masked (Bins.vesicles b0) (assigned b0) i) ->
  nth (S i) (Bins.bin_edges b0) 0 < x <= nth i (Bins.bin_edges b0) 0.
Proof.
  intros Hb Hi Hx. destruct Hb.
  apply in_masked_map in Hx. destruct Hx as [_ Hk].
  destruct (assign_decreasing (Bins.bin_edges b0) (nbins (Bins.params b0)) x
              built_nbins0 built_edges0 built_descending0)
    as (_ & Hge & Hlt).
  split.
  - apply Hlt; lia.
  - apply Hge. lia.
Qed.

Lemma any_masked (b0 : Bins.t) i :
  built b0 ->
  np.any (np.masked (Bins.vesicles b0) (assigned b0) i)
  = match np.masked (Bins.vesicles b0) (assigned b0) i with
    | [] => false
    | _ => true
    end.
Proof.
  intros Hb. apply any_nonzero. destruct Hb.
  destruct built_vesicles0 as [_ Hpos].
  rewrite Forall_forall in *. intros x Hx.
  apply masked_incl in Hx. specialize (Hpos x Hx). lra.
Qed.

(** The edges of built bins are positive. *)
Lemma built_edges_positive (b0 : Bins.t) i :
  built b0 -> (i <= nbins (Bins.params b0))%nat ->
  0 < nth i (Bins.bin_edges b0) 0.
Proof.
  intros Hb Hi. destruct Hb.
  pose proof (strictly_decreasing_le (Bins.bin_edges b0) i
                (nbins (Bins.params b0)) built_descending0 Hi ltac:(lia)).
  lra.
Qed.

(** X1: whatever the method ('bin_center', 'mean' or 'median'), over a
    non-zero reference area the constructor leaves in every bin a
    characteristic size between the edges of the bin,
    [edge[i+1] < hbar[i] <= edge[i]], hence a positive one: no correction
    divides by a zero [hbar]. *)
Theorem hbar_inside_its_bin (vs : list R) (roi_area : R) (p : Params) w :
  measurements vs -> (0 < nbins p)%nat -> roi_area <> 0 ->
  exists self w',
    VSDCorrection.init vs roi_area p w = inr (self, w')
    /\ length (Bins.hbar (VSD.bins self)) = nbins p
    /\ forall i, (i < nbins p)%nat ->
         nth (S i) (Bins.bin_edges (VSD.bins self)) 0
         < nth i (Bins.hbar (VSD.bins self)) 0
         <= nth i (Bins.bin_edges (VSD.bins self)) 0
         /\ 0 < nth i (Bins.hbar (VSD.bins self)) 0.
Proof.
  intros Hvs HN _.
  destruct (VSDCorrection_init_spec vs roi_area p w Hvs HN)
    as (b0 & a & h & _ & Hb & Hp & Hrun & _ & _ & Hlh & Hh).
  eexists _, _. split; [exact Hrun |].
  cbn [VSD.bins]. attrs. split; [exact Hlh |].
  intros i Hi. rewrite <- Hp in Hi.
  assert (Hin : nth (S i) (Bins.bin_edges b0) 0 < nth i h 0
                <= nth i (Bins.bin_edges b0) 0).
  { rewrite Hh by (rewrite <- Hp; exact Hi).
    assert (Hcenter : nth (S i) (Bins.bin_edges b0) 0
                      < nth i (Bins.bin_centers b0) 0
                      <= nth i (Bins.bin_edges b0) 0).
    { pose proof Hb as Hb'. destruct Hb'.
      destruct (built_bins0 i Hi) as (Hw & Hpos & Hc). lra. }
    destruct (hbar_method p) as [| m]; [exact Hcenter |].
    rewrite (any_masked b0 i Hb).
    destruct (np.masked (Bins.vesicles b0) (assigned b0) i) as [| x l] eqn:E;
      [exact Hcenter |].
    apply aggregate_between; [discriminate |].
    intros y Hy. apply (assigned_in_bin b0 i y Hb Hi). rewrite E. exact Hy. }
  split; [exact Hin |].
  pose proof (built_edges_positive b0 (S i) Hb ltac:(lia)). lra.
Qed.

Lemma hbar_inside_its_bin_witness :
  exists self w',
    VSDCorrection.init [1; 2; 3; 4; 5] 100 (sample_params 2) [] = inr (self, w')
    /\ 0 < nth 1 (Bins.hbar (VSD.bins self)) 0.
Proof.
  destruct (hbar_inside_its_bin [1; 2; 3; 4; 5] 100 (sample_params 2) []
              sample_measurements ltac:(simpl; lia) ltac:(lra))
    as (self & w' & Hrun & _ & Hi).
  exists self, w'. split; [exact Hrun |].
  apply (Hi 1%nat). simpl. lia.
Defined.

(** ** An empty measurement array *)

Lemma Bins_init_empty (p : Params) w :
  Bins.init [] p w = inl Py.ValueError.
Proof.
  unfold Bins.init, Bins._create_bins, Bins.edges_of.
  destruct (normalized p); [reflexivity |].
  destruct (bin_method p); reflexivity.
Qed.

Lemma VSDCorrection_init_empty (roi_area : R) (p : Params) w :
  VSDCorrection.init [] roi_area p w = inl Py.ValueError.
Proof.
  unfold VSDCorrection.init, VSD.init.
  apply bind_raise. unfold Py.bind. rewrite Bins_init_empty. reflexivity.
Qed.

(** X2: on an empty measurement array every correction raises [ValueError]
    ([np.max] of an empty array, in [Bins.__init__] or [_create_bins]),
    whatever the reference area, the convention and the bin count. *)
Theorem corrections_reject_empty_input (roi_area : R) (convention : string)
    (N : nat) w :
  ChengLemlich.init [] roi_area convention N w = inl Py.ValueError
  /\ SahagianProussevitch.init [] roi_area convention N w = inl Py.ValueError
  /\ Saltikov.init [] roi_area convention N w = inl Py.ValueError.
Proof.
  unfold ChengLemlich.init, SahagianProussevitch.init, Saltikov.init.
  repeat split.
  - destruct (convention_check_ok (negb (String.eqb convention "radius"))
                (Py.InputLengthShouldBe "C&L" "radius") w) as (w0 & Hchk & _).
    rewrite (bind_ok _ _ _ _ _ Hchk). apply bind_raise.
    apply VSDCorrection_init_empty.
  - destruct (convention_check_ok (negb (String.eqb convention "diameter"))
                (Py.InputLengthShouldBe "S&P" "diameter") w) as (w0 & Hchk & _).
    rewrite (bind_ok _ _ _ _ _ Hchk). apply bind_raise.
    apply VSDCorrection_init_empty.
  - destruct (convention_check_ok (negb (String.eqb convention "diameter"))
                (Py.InputLengthShouldBe "S" "diameter") w) as (w0 & Hchk & _).
    rewrite (bind_ok _ _ _ _ _ Hchk). apply bind_raise.
    apply VSDCorrection_init_empty.
Qed.

(** ** Widths *)

Lemma rsum_telescope (f : nat -> R) (N : nat) :
  rsum (fun i => f i - f (S i)) N = f O - f N.
Proof.
  induction N as [| N IH]; simpl; [ring | rewrite IH; ring].
Qed.

(** X3: over a measurement set the widths add up to the span of the edges,
    [edge[0] - edge[N]]; linear bins all have the width
    [(max * 1.0000001 - min * 0.9999999) / N] and span
    [max * 1.0000001 - min * 0.9999999]. *)
Theorem widths_span_the_edges (p : Params) (vs : list R) w :
  measurements vs -> (0 < nbins p)%nat ->
  exists edges widths centers,
    Bins._create_bins p vs w = inr ((edges, widths, centers), w)
    /\ rsum (fun i => nth i widths 0) (nbins p)
       = nth 0 edges 0 - nth (nbins p) edges 0
    /\ (bin_method p = linear ->
        exists hi lo,
          np.max vs w = inr (hi, w) /\ np.min vs w = inr (lo, w)
          /\ nth 0 edges 0 = hi * 1.0000001
          /\ nth (nbins p) edges 0 = lo * 0.9999999
          /\ forall i, (i < nbins p)%nat ->
               nth i widths 0
               = (hi * 1.0000001 - lo * 0.9999999) / INR (nbins p)).
Proof.
  intros Hvs HN.
  destruct (create_bins_ok p vs w Hvs HN)
    as (edges & widths & centers & Hrun & Hedges & Hlen & Hd & _ & _
        & Hw & Hc & Hi).
  exists edges, widths, centers. split; [exact Hrun |].
  pose proof (INR_pos_of_lt _ HN) as HNpos.
  split.
  - rewrite <- (rsum_telescope (fun i => nth i edges 0)).
    apply rsum_ext. intros i Hlt. apply (Hi i Hlt).
  - intros Hm.
    destruct (linear_edges_ok p vs w Hm Hvs HN)
      as (edges' & hi & lo & He & Hmax & Hmin & _ & Hnth & _).
    assert (edges' = edges) by congruence. subst edges'.
    exists hi, lo. split; [exact Hmax |]. split; [exact Hmin |].
    split; [rewrite Hnth by lia; simpl; lra |].
    split; [rewrite Hnth by lia; field; lra |].
    intros i Hlt. destruct (Hi i Hlt) as (-> & _).
    rewrite !Hnth by lia. rewrite S_INR. field. lra.
Qed.

Lemma widths_span_the_edges_witness :
  exists edges widths centers,
    Bins._create_bins (sample_params 2) [1; 2; 3; 4; 5] []
    = inr ((edges, widths, centers), [])
    /\ rsum (fun i => nth i widths 0) 2 = nth 0 edges 0 - nth 2 edges 0.
Proof.
  destruct (widths_span_the_edges (sample_params 2) [1; 2; 3; 4; 5] []
              sample_measurements ltac:(simpl; lia))
    as (edges & widths & centers & Hrun & Hsum & _).
  exists edges, widths, centers. split; [exact Hrun | exact Hsum].
Defined.

(** ** The range advisory *)

(** An index reaches [N] exactly for a measurement at or below the last
    edge. *)
Lemma assign_reaches_nbins (edges : list R) (N : nat) (v : R) :
  (0 < N)%nat -> length edges = (N + 1)%nat -> strictly_decreasing edges ->
  (Z.of_nat N <=? Bins.assign edges v)%Z
  = if Rle_dec v (nth N edges 0) then true else false.
Proof.
  intros HN Hlen Hd.
  destruct (assign_decreasing edges N v HN Hlen Hd) as (Hk & Hge & Hlt).
  destruct (Rle_dec v (nth N edges 0)) as [Hle | Hgt].
  - apply Z.leb_le.
    destruct (Z_lt_le_dec (Bins.assign edges v) (Z.of_nat N)) as [Hs | ?];
      [| assumption].
    specialize (Hlt N Hs ltac:(lia)). lra.
  - apply Z.leb_gt.
    destruct (Z_lt_le_dec (Bins.assign edges v) (Z.of_nat N)) as [? | Hbig];
      [assumption |].
    specialize (Hge N Hbig). lra.
Qed.

Lemma count_ge_assigned (edges : list R) (N : nat) (vs : list R) :
  (0 < N)%nat -> length edges = (N + 1)%nat -> strictly_decreasing edges ->
  Bins.count_ge (map (Bins.assign edges) vs) N
  = count_at_or_below vs (nth N edges 0).
Proof.
  intros HN Hlen Hd. unfold Bins.count_ge, count_at_or_below.
  induction vs as [| v vs IH]; [reflexivity |]. cbn [map filter].
  rewrite (assign_reaches_nbins edges N v HN Hlen Hd).
  destruct (Rle_dec v (nth N edges 0)); cbn [length]; rewrite IH; reflexivity.
Qed.

(** X4: [bin_data] against [N + 1] descending edges issues the range
    advisory exactly when some measurement is at or below the last edge,
    and the advisory carries the number of such measurements. *)
Theorem range_advisory_counts_small_measurements (b : Bins.t) w :
  let N := nbins (Bins.params b) in
  let c := count_at_or_below (Bins.vesicles b) (nth N (Bins.bin_edges b) 0) in
  (0 < N)%nat -> length (Bins.bin_edges b) = (N + 1)%nat ->
  strictly_decreasing (Bins.bin_edges b) -> Bins.vesicles b <> [] ->
  exists b',
    Bins.bin_data b w
    = inr (b', w ++ (if (c =? 0)%nat then []
                     else [Py.SmallerThanAnyBinEdge c]))
    /\ Bins.vesicles b' = Bins.vesicles b.
Proof.
  intros N c HN Hlen Hd Hne.
  exists (Bins.set_ind b (map (Bins.assign (Bins.bin_edges b))
                              (Bins.vesicles b))).
  split; [| reflexivity].
  rewrite (bin_data_ok b w HN Hlen Hd Hne).
  rewrite (count_ge_assigned _ N _ HN Hlen Hd). fold c. reflexivity.
Qed.

Lemma range_advisory_counts_small_measurements_witness :
  exists b',
    Bins.bin_data sample_bins [] = inr (b', [Py.SmallerThanAnyBinEdge 1]).
Proof.
  destruct (range_advisory_counts_small_measurements sample_bins []
              ltac:(simpl; lia) eq_refl sample_edges_descending
              ltac:(discriminate))
    as (b' & Hrun & _).
  exists b'. rewrite Hrun. f_equal. f_equal.
  unfold count_at_or_below. simpl.
  destruct (Rle_dec 2.5 1); [lra |].
  destruct (Rle_dec 3 1); [lra |].
  destruct (Rle_dec 0.5 1); [| lra]. reflexivity.
Defined.

(** ** Linear and geometric bins over the measurements *)

(** Linear bins enclose every measurement strictly. *)
Lemma Bins_init_linear (vs : list R) (p : Params) w :
  bin_method p = linear -> measurements vs -> (0 < nbins p)%nat ->
  exists b0,
    Bins.init vs p w = inr (b0, w) /\ built b0 /\ Bins.params b0 = p
    /\ forall v, In v (Bins.vesicles b0) ->
         nth (nbins p) (Bins.bin_edges b0) 0 < v < nth 0 (Bins.bin_edges b0) 0.
Proof.
  intros Hm Hvs HN.
  destruct (Bins_init_ok vs p w Hvs HN)
    as (b0 & Hinit & Hb & Hp & _ & _ & Hedges).
  exists b0. split; [exact Hinit |]. split; [exact Hb |].
  split; [exact Hp |].
  destruct Hb.
  destruct (linear_edges_ok p (Bins.vesicles b0) w Hm built_vesicles0 HN)
    as (edges & hi & lo & He & _ & Hmin & _ & Hnth & _ & _ & Hfirst).
  assert (edges = Bins.bin_edges b0) by congruence. subst edges.
  destruct built_vesicles0 as [Hne Hpos].
  destruct (min_ok (Bins.vesicles b0) w Hne) as (m & Hm' & Hin & Hle).
  assert (m = lo) by congruence. subst m.
  rewrite Forall_forall in Hpos. pose proof (Hpos _ Hin) as Hlo.
  assert (Hlast : nth (nbins p) (Bins.bin_edges b0) 0 = lo * 0.9999999).
  { rewrite Hnth by lia. field.
    apply Rgt_not_eq. apply lt_0_INR. exact HN. }
  intros v Hv. split; [| apply Hfirst; exact Hv].
  rewrite Hlast. specialize (Hle v Hv). lra.
Qed.

(** Geometric bins start at the largest measurement and shrink by the
    factor [10 ** -0.1]. *)
Lemma Bins_init_geometric (vs : list R) (p : Params) w :
  bin_method p = geometric -> measurements vs -> (0 < nbins p)%nat ->
  exists b0 hi,
    Bins.init vs p w = inr (b0, w) /\ built b0 /\ Bins.params b0 = p
    /\ In hi (Bins.vesicles b0)
    /\ (forall v, In v (Bins.vesicles b0) -> v <= hi)
    /\ forall i, (i <= nbins p)%nat ->
         nth i (Bins.bin_edges b0) 0 = hi * Rpower 10 (-0.1 * INR i).
Proof.
  intros Hm Hvs HN.
  destruct (Bins_init_ok vs p w Hvs HN)
    as (b0 & Hinit & Hb & Hp & _ & _ & Hedges).
  pose proof (built_vesicles b0 Hb) as Hves.
  destruct (geometric_edges_ok p (Bins.vesicles b0) w Hm Hves HN)
    as (edges & hi & He & Hmax & _ & Hnth & _).
  assert (edges = Bins.bin_edges b0) by congruence. subst edges.
  destruct Hves as [Hne Hpos].
  destruct (max_ok (Bins.vesicles b0) w Hne) as (m & Hm' & Hin & Hle).
  assert (m = hi) by congruence. subst m.
  exists b0, hi. split; [exact Hinit |]. split; [exact Hb |].
  split; [exact Hp |]. split; [exact Hin |]. split; [exact Hle | exact Hnth].
Qed.

Lemma count_in_range_all (idx : list Z) (N : nat) :
  Forall (fun k => (0 <= k < Z.of_nat N)%Z) idx ->
  count_in_range idx N = length idx.
Proof.
  unfold count_in_range. induction 1 as [| k idx Hk _ IH]; [reflexivity |].
  cbn [filter].
  destruct (Z.leb_spec 0 k), (Z.ltb_spec k (Z.of_nat N)); try lia.
  cbn [andb length]. rewrite IH. reflexivity.
Qed.

Lemma count_ge_none (idx : list Z) (N : nat) :
  Forall (fun k => (0 <= k < Z.of_nat N)%Z) idx -> Bins.count_ge idx N = O.
Proof.
  intros H. apply count_ge_zero_iff. rewrite Forall_forall in H.
  intros k Hk. apply H. exact Hk.
Qed.

Lemma linear_assigned_in_range (b0 : Bins.t) :
  built b0 ->
  (forall v, In v (Bins.vesicles b0) ->
     nth (nbins (Bins.params b0)) (Bins.bin_edges b0) 0 < v
     < nth 0 (Bins.bin_edges b0) 0) ->
  Forall (fun k => (0 <= k < Z.of_nat (nbins (Bins.params b0)))%Z)
         (assigned b0).
Proof.
  intros Hb Hin. destruct Hb. unfold assigned.
  rewrite Forall_forall. intros k Hk.
  apply in_map_iff in Hk. destruct Hk as (v & <- & Hv).
  specialize (Hin v Hv).
  destruct (assign_cases (Bins.bin_edges b0) (nbins (Bins.params b0)) v
              built_nbins0 built_edges0 built_descending0)
    as (Hcase & _ & _).
  destruct Hcase as (i & -> & Hi & _); [lra | lia].
Qed.

(** X5: with linear bins over a measurement set no measurement is out of
    range: the only advisories the common constructor issues are those
    for empty bins (never the range advisory), every index is in [0, N),
    and the sum over the bins of [na[i] * roi_area] is the number of
    measurements. *)
Theorem linear_bins_count_every_measurement (vs : list R) (roi_area : R)
    (p : Params) w :
  bin_method p = linear -> measurements vs -> (0 < nbins p)%nat ->
  roi_area <> 0 ->
  exists self empties,
    VSDCorrection.init vs roi_area p w
    = inr (self, w ++ map Py.BinDoesNotContainVesicles empties)
    /\ Forall (fun k => (0 <= k < Z.of_nat (nbins p))%Z)
              (Bins.ind (VSD.bins self))
    /\ rsum (fun i => nth i (Bins.na (VSD.bins self)) 0 * roi_area) (nbins p)
       = INR (length vs).
Proof.
  intros Hm Hvs HN Hroi.
  destruct (VSDCorrection_init_spec vs roi_area p w Hvs HN)
    as (b0 & a & h & Hinit & Hb & Hp & Hrun & Hla & Ha & _ & _).
  destruct (Bins_init_linear vs p w Hm Hvs HN)
    as (b0' & Hinit' & _ & _ & Hin).
  assert (b0' = b0) by congruence. subst b0'.
  destruct (Bins_init_ok vs p w Hvs HN) as (b0' & Hinit'' & _ & _ & Hlen & _).
  assert (b0' = b0) by congruence. subst b0'.
  rewrite <- Hp in Hin.
  pose proof (linear_assigned_in_range b0 Hb Hin) as Hall.
  rewrite Hp in Hall.
  assert (Hadv : exists empties,
            range_advisory (assigned b0) (nbins p)
              ++ empty_bin_advisories (Bins.set_ind b0 (assigned b0))
            = map Py.BinDoesNotContainVesicles empties).
  { unfold range_advisory. rewrite (count_ge_none _ _ Hall).
    cbn [Nat.eqb app]. unfold empty_bin_advisories.
    destruct (hbar_method _); [exists []; reflexivity |].
    eexists. reflexivity. }
  destruct Hadv as (empties & Hadv). rewrite Hadv in Hrun.
  eexists _, empties. split; [exact Hrun |].
  cbn [VSD.bins]. attrs. split; [exact Hall |].
  rewrite <- (rsum_ext (fun i => INR (Bins.count_eq (assigned b0) i))).
  - rewrite count_in_range_sum, (count_in_range_all _ _ Hall).
    unfold assigned. rewrite length_map, Hlen. reflexivity.
  - intros i Hi. rewrite Ha by exact Hi. field. exact Hroi.
Qed.

Lemma linear_bins_count_every_measurement_witness :
  exists self empties,
    VSDCorrection.init [1; 2; 3; 4; 5] 100 (sample_params 2) []
    = inr (self, [] ++ map Py.BinDoesNotContainVesicles empties)
    /\ rsum (fun i => nth i (Bins.na (VSD.bins self)) 0 * 100) 2 = 5.
Proof.
  destruct (linear_bins_count_every_measurement [1; 2; 3; 4; 5] 100
              (sample_params 2) [] eq_refl sample_measurements
              ltac:(simpl; lia) ltac:(lra))
    as (self & empties & Hrun & _ & Hsum).
  exists self, empties. split; [exact Hrun |].
  etransitivity; [exact Hsum |]. simpl. lra.
Defined.

(** ** ChengLemlich over a measurement set *)

Lemma reported_empty_built (b0 : Bins.t) (N : nat) :
  built b0 ->
  reported_empty (Bins.set_ind b0 (assigned b0)) N
  = empty_bins (assigned b0) N.
Proof.
  intros Hb. unfold reported_empty, empty_bins. attrs.
  apply filter_ext. intros i.
  rewrite (any_masked b0 i Hb).
  rewrite <- (length_masked (Bins.vesicles b0) (assigned b0) i)
    by (unfold assigned; apply length_map).
  destruct (np.masked (Bins.vesicles b0) (assigned b0) i); reflexivity.
Qed.

Lemma convention_check_advisory (correction expected given : string) w :
  (if negb (String.eqb given expected)
   then Py.warn (Py.InputLengthShouldBe correction expected)
   else Py.ret tt) w
  = inr (tt, w ++ convention_advisory correction expected given).
Proof.
  unfold convention_advisory.
  destruct (String.eqb given expected); cbn [negb];
    [rewrite app_nil_r |]; reflexivity.
Qed.

(** [ChengLemlich(...)] over a measurement set, in full. *)
Lemma ChengLemlich_init_spec (vs : list R) (roi_area : R)
    (convention : string) (N : nat) w :
  measurements vs -> (0 < N)%nat ->
  exists self b0,
    ChengLemlich.init vs roi_area convention N w
    = inr (self,
           w ++ convention_advisory "C&L" "radius" convention
             ++ map Py.BinDoesNotContainVesicles (empty_bins (assigned b0) N))
    /\ built b0
    /\ nbins (Bins.params b0) = N
    /\ Bins.ind (VSD.bins self) = assigned b0
    /\ Bins.bin_edges (VSD.bins self) = Bins.bin_edges b0
    /\ length (VSD.nv self) = N
    /\ forall i, (i < N)%nat ->
         nth i (Bins.na (VSD.bins self)) 0
         = INR (Bins.count_eq (assigned b0) i) / roi_area
         /\ nth i (VSD.nv self) 0
            = nth i (Bins.na (VSD.bins self)) 0
              / nth i (Bins.hbar (VSD.bins self)) 0
         /\ nth (S i) (Bins.bin_edges b0) 0
            < nth i (Bins.hbar (VSD.bins self)) 0
            <= nth i (Bins.bin_edges b0) 0.
Proof.
  intros Hvs HN. unfold ChengLemlich.init.
  rewrite (bind_ok _ _ _ _ _
             (convention_check_advisory "C&L" "radius" convention w)).
  set (w0 := w ++ convention_advisory "C&L" "radius" convention).
  set (p := mkParams linear (np_attr mean) convention N false).
  destruct (VSDCorrection_init_spec vs roi_area p w0 Hvs HN)
    as (b0 & a & h & Hinit & Hb & Hp & Hrun & Hla & Ha & Hlh & Hh).
  cbn [nbins p] in Hrun, Hla, Ha, Hlh, Hh.
  destruct (Bins_init_linear vs p w0 eq_refl Hvs HN)
    as (b0' & Hinit' & _ & _ & Hin).
  assert (b0' = b0) by congruence. subst b0'.
  rewrite <- Hp in Hin.
  pose proof (linear_assigned_in_range b0 Hb Hin) as Hall.
  assert (HNb : nbins (Bins.params b0) = N) by (rewrite Hp; reflexivity).
  rewrite HNb in Hall.
  unfold range_advisory in Hrun. rewrite (count_ge_none _ _ Hall) in Hrun.
  cbn [Nat.eqb app] in Hrun.
  unfold empty_bin_advisories in Hrun.
  change (Bins.params (Bins.set_ind b0 (assigned b0))) with (Bins.params b0)
    in Hrun.
  rewrite Hp in Hrun. cbn [hbar_method nbins p] in Hrun.
  rewrite (reported_empty_built b0 N Hb) in Hrun.
  rewrite (bind_ok _ _ _ _ _ Hrun).
  set (self0 := VSD.mk (Bins.set_hbar
                          (Bins.set_na (Bins.set_ind b0 (assigned b0)) a) h)
                       roi_area (repeat 0 N) [] [] []) in *.
  assert (Hlah : length (Bins.na (VSD.bins self0))
                 = length (Bins.hbar (VSD.bins self0))).
  { unfold self0. cbn [VSD.bins]. attrs. congruence. }
  rewrite (bind_ok _ _ _ _ _ (ChengLemlich_to_nv_ok self0 _ Hlah)).
  set (q := map (fun x => fst x / snd x)
                (combine (Bins.na (VSD.bins self0)) (Bins.hbar (VSD.bins self0)))).
  assert (Hlq : length q = N).
  { unfold q. rewrite length_map, length_combine.
    unfold self0. cbn [VSD.bins]. attrs. lia. }
  destruct (to_lnn_ok (VSD.set_nv self0 q)
              (w0 ++ map Py.BinDoesNotContainVesicles
                         (empty_bins (assigned b0) N)))
    as (l & Hlnn & _).
  { cbn [VSD.set_nv VSD.nv VSD.bins]. unfold self0. cbn [VSD.bins]. attrs.
    rewrite Hlq. destruct Hb. congruence. }
  eexists _, b0. split.
  { rewrite Hlnn. unfold w0. rewrite <- app_assoc. reflexivity. }
  cbn [VSD.set_n_lnn VSD.set_nv VSD.nv VSD.bins]. unfold self0.
  cbn [VSD.bins]. attrs.
  split; [exact Hb |]. split; [exact HNb |]. split; [reflexivity |].
  split; [reflexivity |]. split; [exact Hlq |].
  intros i Hi. split; [apply Ha; exact Hi |]. split.
  - unfold q, self0. cbn [VSD.bins]. attrs.
    rewrite (nth_map_combine _ _ _ i 0 0) by lia. reflexivity.
  - rewrite Hh by exact Hi. cbn [hbar_method p].
    assert (Hcenter : nth (S i) (Bins.bin_edges b0) 0
                      < nth i (Bins.bin_centers b0) 0
                      <= nth i (Bins.bin_edges b0) 0).
    { pose proof Hb as Hb'. destruct Hb'.
      destruct (built_bins0 i ltac:(lia)) as (Hw & Hpos & Hc). lra. }
    rewrite (any_masked b0 i Hb).
    destruct (np.masked (Bins.vesicles b0) (assigned b0) i) as [| x l'] eqn:E;
      [exact Hcenter |].
    apply mean_between; [discriminate |].
    intros y Hy. apply (assigned_in_bin b0 i y Hb ltac:(lia)).
    rewrite E. exact Hy.
Qed.

(** X6: with linear bins and ['mean'] or ['median'] (the parameters of
    [ChengLemlich] and [Saltikov]), over a measurement set and a non-zero
    reference area the advisories [VSDCorrection.__init__] issues are
    exactly one empty-bin advisory per bin that holds no measurement, in
    ascending order of the bins; never the range advisory. *)
Theorem empty_bin_advisories_in_order (vs : list R) (roi_area : R)
    (p : Params) (m : Aggregate) w :
  bin_method p = linear -> hbar_method p = np_attr m ->
  measurements vs -> (0 < nbins p)%nat -> roi_area <> 0 ->
  exists self,
    VSDCorrection.init vs roi_area p w
    = inr (self,
           w ++ map Py.BinDoesNotContainVesicles
                    (empty_bins (Bins.ind (VSD.bins self)) (nbins p))).
Proof.
  intros Hlin Hm Hvs HN _.
  destruct (VSDCorrection_init_spec vs roi_area p w Hvs HN)
    as (b0 & a & h & Hinit & Hb & Hp & Hrun & _).
  destruct (Bins_init_linear vs p w Hlin Hvs HN)
    as (b0' & Hinit' & _ & _ & Hin).
  assert (b0' = b0) by congruence. subst b0'.
  rewrite <- Hp in Hin.
  pose proof (linear_assigned_in_range b0 Hb Hin) as Hall.
  rewrite Hp in Hall.
  unfold range_advisory in Hrun. rewrite (count_ge_none _ _ Hall) in Hrun.
  cbn [Nat.eqb app] in Hrun.
  unfold empty_bin_advisories in Hrun.
  change (Bins.params (Bins.set_ind b0 (assigned b0))) with (Bins.params b0)
    in Hrun.
  rewrite Hp, Hm in Hrun.
  rewrite (reported_empty_built b0 (nbins p) Hb) in Hrun.
  match type of Hrun with _ = inr (?x, _) => exists x end.
  cbn [VSD.bins]. attrs. exact Hrun.
Qed.

Lemma empty_bin_advisories_in_order_witness :
  exists self,
    VSDCorrection.init [1; 2; 3; 4; 5] 100 (sample_params 2) []
    = inr (self,
           [] ++ map Py.BinDoesNotContainVesicles
                     (empty_bins (Bins.ind (VSD.bins self)) 2)).
Proof.
  destruct (empty_bin_advisories_in_order [1; 2; 3; 4; 5] 100
              (sample_params 2) mean [] eq_refl eq_refl sample_measurements
              ltac:(simpl; lia) ltac:(lra)) as (self & Hrun).
  exists self. exact Hrun.
Defined.

(** X7: over a measurement set and a positive reference area, the
    densities [ChengLemlich] returns are never negative, and [nv[i]] is
    zero exactly for the bins without a measurement. *)
Theorem ChengLemlich_density_sign (vs : list R) (roi_area : R)
    (convention : string) (N : nat) w :
  measurements vs -> (0 < N)%nat -> 0 < roi_area ->
  exists self w',
    ChengLemlich.init vs roi_area convention N w = inr (self, w')
    /\ forall i, (i < N)%nat ->
         0 <= nth i (VSD.nv self) 0
         /\ (nth i (VSD.nv self) 0 = 0
             <-> Bins.count_eq (Bins.ind (VSD.bins self)) i = O).
Proof.
  intros Hvs HN Hroi.
  destruct (ChengLemlich_init_spec vs roi_area convention N w Hvs HN)
    as (self & b0 & Hrun & Hb & HNb & Hind & _ & _ & Hi).
  eexists self, _. split; [exact Hrun |].
  intros i Hlt. destruct (Hi i Hlt) as (Hna & Hnv & Hh).
  rewrite Hind, Hnv, Hna.
  set (c := Bins.count_eq (assigned b0) i).
  set (hb := nth i (Bins.hbar (VSD.bins self)) 0) in *.
  assert (Hhpos : 0 < hb).
  { pose proof (built_edges_positive b0 (S i) Hb ltac:(lia)). lra. }
  assert (Hc : 0 <= INR c) by apply pos_INR.
  assert (Hq : INR c / roi_area / hb = INR c * / (roi_area * hb)).
  { field. lra. }
  rewrite Hq.
  assert (Hinv : 0 < / (roi_area * hb)).
  { apply Rinv_0_lt_compat. apply Rmult_lt_0_compat; assumption. }
  split; [apply Rmult_le_pos; lra |]. split.
  - intros H0. apply Rmult_integral in H0. destruct H0 as [H0 | H0]; [| lra].
    destruct c; [reflexivity |]. rewrite S_INR in H0.
    pose proof (pos_INR c). lra.
  - intros ->. simpl. ring.
Qed.

Lemma ChengLemlich_density_sign_witness :
  exists self w',
    ChengLemlich.init [1; 2; 3; 4; 5] 100 "radius" 2 [] = inr (self, w')
    /\ 0 <= nth 0 (VSD.nv self) 0.
Proof.
  destruct (ChengLemlich_density_sign [1; 2; 3; 4; 5] 100 "radius" 2 []
              sample_measurements ltac:(lia) ltac:(lra))
    as (self & w' & Hrun & Hi).
  exists self, w'. split; [exact Hrun |].
  apply (Hi 0%nat). lia.
Defined.

(** ** Saltikov over a measurement set *)

(** The common constructor with linear bins and mean characteristic
    sizes, as [ChengLemlich] and [Saltikov] call it, in full. *)
Lemma linear_mean_init_spec (vs : list R) (roi_area : R)
    (convention : string) (N : nat) w :
  measurements vs -> (0 < N)%nat ->
  exists b0 a h hi lo,
    built b0
    /\ Bins.params b0 = mkParams linear (np_attr mean) convention N false
    /\ Bins.vesicles b0 = vs
    /\ np.max vs w = inr (hi, w) /\ np.min vs w = inr (lo, w)
    /\ (forall i, (i <= N)%nat ->
          nth i (Bins.bin_edges b0) 0
          = hi * 1.0000001
            + INR i * ((lo * 0.9999999 - hi * 1.0000001) / INR N))
    /\ Forall (fun k => (0 <= k < Z.of_nat N)%Z) (assigned b0)
    /\ VSDCorrection.init vs roi_area
         (mkParams linear (np_attr mean) convention N false) w
       = inr (VSD.mk (Bins.set_hbar
                        (Bins.set_na (Bins.set_ind b0 (assigned b0)) a) h)
                     roi_area (repeat 0 N) [] [] [],
              w ++ map Py.BinDoesNotContainVesicles
                       (empty_bins (assigned b0) N))
    /\ length a = N
    /\ (forall i, (i < N)%nat ->
          nth i a 0 = INR (Bins.count_eq (assigned b0) i) / roi_area)
    /\ length h = N
    /\ (forall i, (i < N)%nat ->
          nth (S i) (Bins.bin_edges b0) 0 < nth i h 0
          <= nth i (Bins.bin_edges b0) 0).
Proof.
  intros Hvs HN.
  set (p := mkParams linear (np_attr mean) convention N false).
  destruct (VSDCorrection_init_spec vs roi_area p w Hvs HN)
    as (b0 & a & h & Hinit & Hb & Hp & Hrun & Hla & Ha & Hlh & Hh).
  cbn [nbins p] in Hrun, Hla, Ha, Hlh, Hh.
  destruct (Bins_init_ok vs p w Hvs HN)
    as (b0' & Hinit' & _ & _ & _ & Hraw & Hedges).
  assert (b0' = b0) by congruence. subst b0'.
  destruct (Hraw eq_refl) as [Hves _].
  destruct (linear_edges_ok p vs w eq_refl Hvs HN)
    as (edges & hi & lo & He & Hmax & Hmin & _ & Hnth & _ & _ & _).
  rewrite Hves in Hedges.
  assert (edges = Bins.bin_edges b0) by congruence. subst edges.
  destruct (Bins_init_linear vs p w eq_refl Hvs HN)
    as (b0' & Hinit'' & _ & _ & Hin).
  assert (b0' = b0) by congruence. subst b0'.
  rewrite <- Hp in Hin.
  pose proof (linear_assigned_in_range b0 Hb Hin) as Hall.
  assert (HNb : nbins (Bins.params b0) = N) by (rewrite Hp; reflexivity).
  rewrite HNb in Hall.
  unfold range_advisory in Hrun. rewrite (count_ge_none _ _ Hall) in Hrun.
  cbn [Nat.eqb app] in Hrun.
  unfold empty_bin_advisories in Hrun.
  change (Bins.params (Bins.set_ind b0 (assigned b0))) with (Bins.params b0)
    in Hrun.
  rewrite Hp in Hrun. cbn [hbar_method nbins p] in Hrun.
  rewrite (reported_empty_built b0 N Hb) in Hrun.
  exists b0, a, h, hi, lo.
  split; [exact Hb |]. split; [exact Hp |]. split; [exact Hves |].
  split; [exact Hmax |]. split; [exact Hmin |]. split; [exact Hnth |].
  split; [exact Hall |]. split; [exact Hrun |]. split; [exact Hla |].
  split; [exact Ha |]. split; [exact Hlh |].
  intros i Hi. rewrite Hh by exact Hi. cbn [hbar_method p].
  assert (Hcenter : nth (S i) (Bins.bin_edges b0) 0
                    < nth i (Bins.bin_centers b0) 0
                    <= nth i (Bins.bin_edges b0) 0).
  { pose proof Hb as Hb'. destruct Hb'.
    destruct (built_bins0 i ltac:(lia)) as (Hw & Hpos & Hc). lra. }
  rewrite (any_masked b0 i Hb).
  destruct (np.masked (Bins.vesicles b0) (assigned b0) i) as [| x l'] eqn:E;
    [exact Hcenter |].
  apply mean_between; [discriminate |].
  intros y Hy. apply (assigned_in_bin b0 i y Hb ltac:(lia)).
  rewrite E. exact Hy.
Qed.

(** [Saltikov(...)] over a measurement set with 1 to 12 bins, in full. *)
Lemma Saltikov_init_spec (vs : list R) (roi_area : R)
    (convention : string) (N : nat) w :
  measurements vs -> (0 < N <= 12)%nat ->
  exists self b0 hi lo,
    Saltikov.init vs roi_area convention N w
    = inr (self,
           w ++ convention_advisory "S" "diameter" convention
             ++ map Py.BinDoesNotContainVesicles (empty_bins (assigned b0) N))
    /\ built b0 /\ nbins (Bins.params b0) = N
    /\ Bins.vesicles b0 = vs
    /\ (forall w', np.max vs w' = inr (hi, w'))
    /\ (forall w', np.min vs w' = inr (lo, w'))
    /\ (forall i, (i <= N)%nat ->
          nth i (Bins.bin_edges b0) 0
          = hi * 1.0000001
            + INR i * ((lo * 0.9999999 - hi * 1.0000001) / INR N))
    /\ Bins.ind (VSD.bins self) = assigned b0
    /\ length (VSD.nv self) = N
    /\ forall i, (i < N)%nat ->
         nth i (Bins.na (VSD.bins self)) 0
         = INR (Bins.count_eq (assigned b0) i) / roi_area
         /\ nth i (VSD.nv self) 0
            = kernel_sum Saltikov.coeff (Bins.na (VSD.bins self)) i
              / nth i (Bins.hbar (VSD.bins self)) 0
         /\ nth (S i) (Bins.bin_edges b0) 0
            < nth i (Bins.hbar (VSD.bins self)) 0
            <= nth i (Bins.bin_edges b0) 0.
Proof.
  intros Hvs HN. unfold Saltikov.init.
  rewrite (bind_ok _ _ _ _ _
             (convention_check_advisory "S" "diameter" convention w)).
  set (w0 := w ++ convention_advisory "S" "diameter" convention).
  destruct (linear_mean_init_spec vs roi_area convention N w0 Hvs (proj1 HN))
    as (b0 & a & h & hi & lo & Hb & Hp & Hves & Hmax & Hmin & Hnth & Hall
        & Hrun & Hla & Ha & Hlh & Hh).
  rewrite (bind_ok _ _ _ _ _ Hrun).
  set (self0 := VSD.mk (Bins.set_hbar
                          (Bins.set_na (Bins.set_ind b0 (assigned b0)) a) h)
                       roi_area (repeat 0 N) [] [] []) in *.
  assert (HNp : nbins (VSD.params self0) = N).
  { unfold VSD.params, self0. cbn [VSD.bins]. attrs. rewrite Hp. reflexivity. }
  destruct (Saltikov_to_nv_upto_12 self0
              (w0 ++ map Py.BinDoesNotContainVesicles
                         (empty_bins (assigned b0) N)))
    as (self' & Hrun1 & Hbins & Hlv & Hsum);
    rewrite ?HNp; try (unfold self0; cbn [VSD.bins VSD.nv]; attrs;
                       rewrite ?repeat_length; auto; lia).
  rewrite HNp in Hlv, Hsum.
  rewrite (bind_ok _ _ _ _ _ Hrun1).
  destruct (to_lnn_ok self'
              (w0 ++ map Py.BinDoesNotContainVesicles
                         (empty_bins (assigned b0) N)))
    as (q & Hlnn & _).
  { rewrite Hbins, Hlv. unfold self0. cbn [VSD.bins]. attrs.
    destruct Hb. rewrite Hp in *. cbn [nbins] in *. congruence. }
  assert (Hany : forall (l : list R) (m : R) w1 w2,
            np.max l w1 = inr (m, w1) -> np.max l w2 = inr (m, w2)).
  { intros [| x l] m w1 w2; [discriminate |]. unfold np.max, Py.ret.
    intros H. injection H as <-. reflexivity. }
  assert (Hany' : forall (l : list R) (m : R) w1 w2,
            np.min l w1 = inr (m, w1) -> np.min l w2 = inr (m, w2)).
  { intros [| x l] m w1 w2; [discriminate |]. unfold np.min, Py.ret.
    intros H. injection H as <-. reflexivity. }
  eexists _, b0, hi, lo. split.
  { rewrite Hlnn. unfold w0. rewrite <- app_assoc. reflexivity. }
  cbn [VSD.set_n_lnn VSD.nv VSD.bins]. rewrite Hbins. unfold self0.
  cbn [VSD.bins]. attrs.
  split; [exact Hb |]. split; [rewrite Hp; reflexivity |].
  split; [exact Hves |].
  split; [intros w'; exact (Hany _ _ _ _ Hmax) |].
  split; [intros w'; exact (Hany' _ _ _ _ Hmin) |].
  split; [exact Hnth |]. split; [reflexivity |]. split; [exact Hlv |].
  intros i Hi. split; [apply Ha; exact Hi |].
  split; [| apply Hh; exact Hi].
  rewrite (Hsum i Hi). unfold self0. cbn [VSD.bins]. attrs. reflexivity.
Qed.

(** X8: over a measurement set and a non-zero reference area, [Saltikov]
    with 1 to 12 bins returns; bin [i] holds the kernel applied to all the
    bins from 0 to [i],
    [nv[i] = (sum_{k=0}^{i} coeff[k] * na[i-k]) / hbar[i]] with
    [hbar[i] > 0], so [nv[0] = 1.6461 * na[0] / hbar[0]]. *)
Theorem Saltikov_full_kernel_upto_12 (vs : list R) (roi_area : R)
    (convention : string) (N : nat) w :
  measurements vs -> (0 < N <= 12)%nat -> roi_area <> 0 ->
  exists self w',
    Saltikov.init vs roi_area convention N w = inr (self, w')
    /\ length (VSD.nv self) = N
    /\ (forall i, (i < N)%nat ->
          0 < nth i (Bins.hbar (VSD.bins self)) 0
          /\ nth i (VSD.nv self) 0
             = rsum (fun k => nth k Saltikov.coeff 0
                              * nth (i - k) (Bins.na (VSD.bins self)) 0)
                    (S i)
               / nth i (Bins.hbar (VSD.bins self)) 0)
    /\ nth 0 (VSD.nv self) 0
       = 1.6461 * nth 0 (Bins.na (VSD.bins self)) 0
         / nth 0 (Bins.hbar (VSD.bins self)) 0.
Proof.
  intros Hvs HN _.
  destruct (Saltikov_init_spec vs roi_area convention N w Hvs HN)
    as (self & b0 & hi & lo & Hrun & Hb & HNb & _ & _ & _ & _ & Hind & Hlv
        & Hi).
  eexists self, _. split; [exact Hrun |]. split; [exact Hlv |].
  assert (Hk : forall i, (i < N)%nat ->
            0 < nth i (Bins.hbar (VSD.bins self)) 0
            /\ nth i (VSD.nv self) 0
               = rsum (fun k => nth k Saltikov.coeff 0
                                * nth (i - k) (Bins.na (VSD.bins self)) 0)
                      (S i)
                 / nth i (Bins.hbar (VSD.bins self)) 0).
  { intros i Hlt. destruct (Hi i Hlt) as (_ & Hnv & Hlo & _).
    split.
    - pose proof (built_edges_positive b0 (S i) Hb ltac:(lia)). lra.
    - rewrite Hnv. unfold kernel_sum. rewrite Nat.min_l by lia.
      reflexivity. }
  split; [exact Hk |].
  destruct (Hk O ltac:(lia)) as [_ H0]. rewrite H0. simpl. f_equal. ring.
Qed.

Lemma Saltikov_full_kernel_upto_12_witness :
  exists self w',
    Saltikov.init [1; 2; 3; 4; 5] 100 "diameter" 12 [] = inr (self, w')
    /\ nth 0 (VSD.nv self) 0
       = 1.6461 * nth 0 (Bins.na (VSD.bins self)) 0
         / nth 0 (Bins.hbar (VSD.bins self)) 0.
Proof.
  destruct (Saltikov_full_kernel_upto_12 [1; 2; 3; 4; 5] 100 "diameter" 12 []
              sample_measurements ltac:(lia) ltac:(lra))
    as (self & w' & Hrun & _ & _ & H0).
  exists self, w'. split; [exact Hrun | exact H0].
Defined.

Lemma Saltikov_coeff_negative (k : nat) :
  (1 <= k < 12)%nat -> nth k Saltikov.coeff 0 < 0.
Proof.
  intros Hk. unfold Saltikov.coeff.
  do 12 (destruct k as [| k]; [simpl; try lia; lra |]). lia.
Qed.

Lemma rsum_negative (f : nat -> R) (n k0 : nat) :
  (forall k, (k < n)%nat -> f k <= 0) -> (k0 < n)%nat -> f k0 < 0 ->
  rsum f n < 0.
Proof.
  induction n as [| n IH]; intros Hle Hk0 Hneg; [lia |]. simpl.
  assert (Hrest : rsum f n <= 0).
  { clear IH Hk0. induction n as [| n IHn]; simpl; [lra |].
    pose proof (Hle n ltac:(lia)).
    specialize (IHn ltac:(intros k Hk; apply Hle; lia)). lra. }
  destruct (Nat.eq_dec k0 n) as [-> | Hne].
  - lra.
  - pose proof (Hle n ltac:(lia)).
    specialize (IH ltac:(intros k Hk; apply Hle; lia) ltac:(lia) Hneg). lra.
Qed.

(** X9: [Saltikov] can return negative densities: over a measurement set
    and a positive reference area, with at most 12 bins, every empty bin
    that comes after a non-empty one gets [nv[i] < 0] (all kernel
    coefficients but the first are negative). *)
Theorem Saltikov_negative_density (vs : list R) (roi_area : R)
    (convention : string) (N : nat) w :
  measurements vs -> (0 < N <= 12)%nat -> 0 < roi_area ->
  exists self w',
    Saltikov.init vs roi_area convention N w = inr (self, w')
    /\ forall i j, (j < i < N)%nat ->
         Bins.count_eq (Bins.ind (VSD.bins self)) i = O ->
         (0 < Bins.count_eq (Bins.ind (VSD.bins self)) j)%nat ->
         nth i (VSD.nv self) 0 < 0.
Proof.
  intros Hvs HN Hroi.
  destruct (Saltikov_init_spec vs roi_area convention N w Hvs HN)
    as (self & b0 & hi & lo & Hrun & Hb & HNb & _ & _ & _ & _ & Hind & _ & Hi).
  eexists self, _. split; [exact Hrun |].
  intros i j Hij Hempty Hfull. rewrite Hind in Hempty, Hfull.
  destruct (Hi i ltac:(lia)) as (_ & Hnv & Hh).
  assert (Hna : forall k, (k < N)%nat ->
            nth k (Bins.na (VSD.bins self)) 0
            = INR (Bins.count_eq (assigned b0) k) / roi_area).
  { intros k Hk. apply (Hi k Hk). }
  assert (Hhpos : 0 < nth i (Bins.hbar (VSD.bins self)) 0).
  { pose proof (built_edges_positive b0 (S i) Hb ltac:(lia)). lra. }
  rewrite Hnv. unfold kernel_sum. rewrite Nat.min_l by lia.
  assert (Hsum : rsum (fun k => nth k Saltikov.coeff 0
                                * nth (i - k) (Bins.na (VSD.bins self)) 0)
                      (S i) < 0).
  { apply (rsum_negative _ _ (i - j)); [| lia |].
    - intros k Hk. rewrite Hna by lia.
      assert (Hc : 0 <= INR (Bins.count_eq (assigned b0) (i - k)) / roi_area).
      { apply Rmult_le_pos; [apply pos_INR |].
        apply Rlt_le, Rinv_0_lt_compat. exact Hroi. }
      destruct k as [| k].
      + rewrite Nat.sub_0_r, Hempty. simpl. unfold Rdiv. lra.
      + pose proof (Saltikov_coeff_negative (S k) ltac:(lia)). nra.
    - replace (i - (i - j))%nat with j by lia. rewrite Hna by lia.
      pose proof (Saltikov_coeff_negative (i - j) ltac:(lia)) as Hc.
      assert (Hp : 0 < INR (Bins.count_eq (assigned b0) j) / roi_area).
      { apply Rdiv_lt_0_compat; [apply lt_0_INR; exact Hfull | exact Hroi]. }
      nra. }
  unfold Rdiv. apply Rinv_0_lt_compat in Hhpos. nra.
Qed.

(** A measurement between two consecutive edges gets the index of the
    upper one. *)
Lemma assign_between (edges : list R) (N : nat) (v : R) (i : nat) :
  (0 < N)%nat -> length edges = (N + 1)%nat -> strictly_decreasing edges ->
  (i < N)%nat -> nth (S i) edges 0 < v <= nth i edges 0 ->
  Bins.assign edges v = Z.of_nat i.
Proof.
  intros HN Hlen Hd Hi [Hlo Hhi].
  destruct (assign_decreasing edges N v HN Hlen Hd) as (Hk & Hge & Hlt).
  destruct (Z.lt_trichotomy (Bins.assign edges v) (Z.of_nat i))
    as [Hs | [He | Hb]]; [| exact He |].
  - specialize (Hlt i Hs ltac:(lia)). lra.
  - specialize (Hge (S i) ltac:(lia)). lra.
Qed.

Lemma Saltikov_negative_density_witness :
  exists self w',
    Saltikov.init [1; 10] 100 "diameter" 3 [] = inr (self, w')
    /\ nth 1 (VSD.nv self) 0 < 0.
Proof.
  assert (Hvs : measurements [1; 10]).
  { split; [discriminate |]. repeat constructor; lra. }
  destruct (Saltikov_negative_density [1; 10] 100 "diameter" 3 []
              Hvs ltac:(lia) ltac:(lra))
    as (self & w' & Hrun & Hneg).
  exists self, w'. split; [exact Hrun |].
  destruct (Saltikov_init_spec [1; 10] 100 "diameter" 3 [] Hvs ltac:(lia))
    as (self2 & b0 & hi & lo & Hrun2 & Hb & HNb & Hves & Hmax & Hmin & Hnth
        & Hind & _).
  rewrite Hrun in Hrun2. injection Hrun2 as <- _.
  assert (Hhi : hi = 10).
  { specialize (Hmax []). unfold np.max, Py.ret in Hmax. simpl in Hmax.
    injection Hmax as <-. apply Rmax_right. lra. }
  assert (Hlo : lo = 1).
  { specialize (Hmin []). unfold np.min, Py.ret in Hmin. simpl in Hmin.
    injection Hmin as <-. apply Rmin_left. lra. }
  subst hi lo.
  pose proof (Hnth 0%nat ltac:(lia)) as He0.
  pose proof (Hnth 1%nat ltac:(lia)) as He1.
  pose proof (Hnth 2%nat ltac:(lia)) as He2.
  pose proof (Hnth 3%nat ltac:(lia)) as He3.
  assert (H3 : INR 3 = 3) by (simpl; lra).
  rewrite H3 in He0, He1, He2, He3.
  simpl INR in He0, He1, He2.
  destruct Hb. rewrite HNb in *.
  assert (Ha1 : Bins.assign (Bins.bin_edges b0) 1 = 2%Z).
  { apply (assign_between _ 3 1 2); auto. rewrite He2, He3. lra. }
  assert (Ha10 : Bins.assign (Bins.bin_edges b0) 10 = 0%Z).
  { apply (assign_between _ 3 10 0); auto. rewrite He0, He1. lra. }
  assert (Hidx : Bins.ind (VSD.bins self) = [2; 0]%Z).
  { rewrite Hind. unfold assigned. rewrite Hves. simpl.
    rewrite Ha1, Ha10. reflexivity. }
  apply (Hneg 1%nat 0%nat); [lia | |]; rewrite Hidx;
    unfold Bins.count_eq; simpl; lia.
Defined.

(** ** Intersection probabilities *)

Lemma rsum_scale (c : R) (f : nat -> R) (N : nat) :
  rsum (fun i => c * f i) N = c * rsum f N.
Proof.
  induction N as [| N IH]; simpl; [ring | rewrite IH; ring].
Qed.

Lemma rsum_telescope_up (f : nat -> R) (N : nat) :
  rsum (fun i => f (S i) - f i) N = f N - f O.
Proof.
  induction N as [| N IH]; simpl; [ring | rewrite IH; ring].
Qed.

(** X10: over [N + 1] descending positive edges every intersection
    probability is positive and they add up to
    [sqrt(edge[0]^2 - edge[N]^2) / edge[0]], which is below 1. *)
Theorem intersection_probabilities_sum (self : VSD.t) w :
  let N := nbins (VSD.params self) in
  let edge := fun i => nth i (Bins.bin_edges (VSD.bins self)) 0 in
  (0 < N)%nat ->
  length (Bins.bin_edges (VSD.bins self)) = (N + 1)%nat ->
  length (Bins.bin_centers (VSD.bins self)) = N ->
  strictly_decreasing (Bins.bin_edges (VSD.bins self)) ->
  0 < edge N ->
  exists self',
    SahagianProussevitch.intersection_probabilities self w = inr (self', w)
    /\ (forall i, (i < N)%nat -> 0 < nth i (VSD.inter_prob self') 0)
    /\ rsum (fun i => nth i (VSD.inter_prob self') 0) N
       = sqrt (edge O ^ 2 - edge N ^ 2) / edge O
    /\ rsum (fun i => nth i (VSD.inter_prob self') 0) N < 1.
Proof.
  intros N edge HN He Hc Hd Hlast.
  destruct (intersection_probabilities_ok self w He Hc) as (P & Hrun & HlP & HP).
  fold N edge in HP.
  eexists. split; [exact Hrun |]. cbn [VSD.set_inter_prob VSD.inter_prob].
  assert (Hpos : forall i, (i <= N)%nat -> 0 < edge i).
  { intros i Hi.
    pose proof (strictly_decreasing_le _ i N Hd Hi ltac:(lia)) as H.
    fold (edge i) (edge N) in H. lra. }
  assert (Hle0 : forall i, (i <= N)%nat -> edge i <= edge O).
  { intros i Hi. apply (strictly_decreasing_le _ O i Hd); lia. }
  assert (H0 : 0 < edge O) by (apply Hpos; lia).
  assert (Hsum : rsum (fun i => nth i P 0) N
                 = sqrt (edge O ^ 2 - edge N ^ 2) / edge O).
  { rewrite (rsum_ext _ (fun i => (1 / edge O)
                                  * (sqrt (edge O ^ 2 - edge (S i) ^ 2)
                                     - sqrt (edge O ^ 2 - edge i ^ 2)))).
    - rewrite rsum_scale.
      rewrite (rsum_telescope_up (fun i => sqrt (edge O ^ 2 - edge i ^ 2))).
      replace (edge O ^ 2 - edge O ^ 2) with 0 by ring.
      rewrite sqrt_0. unfold Rdiv. ring.
    - intros i Hi. rewrite HP by exact Hi. reflexivity. }
  split; [| split; [exact Hsum |]].
  - intros i Hi. rewrite HP by exact Hi. unfold intersection_probability.
    pose proof (Hpos i ltac:(lia)). pose proof (Hpos (S i) ltac:(lia)).
    pose proof (Hle0 i ltac:(lia)).
    assert (Hstep : edge (S i) < edge i) by (apply Hd; lia).
    assert (Hs : sqrt (edge O ^ 2 - edge i ^ 2)
                 < sqrt (edge O ^ 2 - edge (S i) ^ 2)).
    { apply sqrt_lt_1; nra. }
    apply Rmult_lt_0_compat; [| lra].
    apply Rdiv_lt_0_compat; lra.
  - rewrite Hsum.
    assert (HlastN : edge N < edge O).
    { apply (strictly_decreasing_lt _ O N Hd); lia. }
    apply (single_bin_probability (edge O) (edge N) Hlast HlastN).
Qed.

Lemma intersection_probabilities_sum_witness :
  exists self',
    SahagianProussevitch.intersection_probabilities sample_vsd []
    = inr (self', [])
    /\ rsum (fun i => nth i (VSD.inter_prob self') 0) 2 < 1.
Proof.
  destruct (intersection_probabilities_sum sample_vsd []
              ltac:(simpl; lia) eq_refl eq_refl sample_edges_descending
              ltac:(simpl; lra))
    as (self' & Hrun & _ & _ & Hlt).
  exists self'. split; [exact Hrun | exact Hlt].
Defined.

(** ** The recursive unfolding over a measurement set *)

(** [SahagianProussevitch(...)] over a measurement set, in full. *)
Lemma SP_init_spec (vs : list R) (roi_area : R) (convention : string)
    (N : nat) w :
  measurements vs -> (0 < N)%nat ->
  exists self b0 hi,
    SahagianProussevitch.init vs roi_area convention N w
    = inr (self,
           w ++ convention_advisory "S&P" "diameter" convention
             ++ range_advisory (assigned b0) N)
    /\ built b0 /\ nbins (Bins.params b0) = N
    /\ Bins.vesicles b0 = vs
    /\ In hi vs /\ (forall v, In v vs -> v <= hi)
    /\ (forall i, (i <= N)%nat ->
          nth i (Bins.bin_edges b0) 0 = hi * Rpower 10 (-0.1 * INR i))
    /\ Bins.ind (VSD.bins self) = assigned b0
    /\ Bins.hbar (VSD.bins self) = Bins.bin_centers b0
    /\ length (VSD.nv self) = N
    /\ forall i, (i < N)%nat ->
         nth i (Bins.na (VSD.bins self)) 0
         = INR (Bins.count_eq (assigned b0) i) / roi_area
         /\ nth i (VSD.inter_prob self) 0
            = intersection_probability
                (fun k => nth k (Bins.bin_edges b0) 0) i
         /\ nth i (VSD.nv self) 0
            = (nth i (Bins.na (VSD.bins self)) 0
               - previously_solved (VSD.inter_prob self)
                   (Bins.hbar (VSD.bins self)) (VSD.nv self) i)
              / (nth 0 (VSD.inter_prob self) 0
                 * nth i (Bins.hbar (VSD.bins self)) 0).
Proof.
  intros Hvs HN. unfold SahagianProussevitch.init.
  rewrite (bind_ok _ _ _ _ _
             (convention_check_advisory "S&P" "diameter" convention w)).
  set (w0 := w ++ convention_advisory "S&P" "diameter" convention).
  set (p := mkParams geometric bin_center convention N false).
  destruct (VSDCorrection_init_spec vs roi_area p w0 Hvs HN)
    as (b0 & a & h & Hinit & Hb & Hp & Hrun & Hla & Ha & Hlh & Hh).
  cbn [nbins hbar_method p] in Hrun, Hla, Ha, Hlh, Hh.
  destruct (Bins_init_geometric vs p w0 eq_refl Hvs HN)
    as (b0' & hi & Hinit' & _ & _ & Hin & Hle & Hnth).
  assert (b0' = b0) by congruence. subst b0'.
  destruct (Bins_init_ok vs p w0 Hvs HN)
    as (b0' & Hinit'' & _ & _ & _ & Hraw & _).
  assert (b0' = b0) by congruence. subst b0'.
  destruct (Hraw eq_refl) as [Hves _].
  rewrite Hves in Hin, Hle. cbn [nbins p] in Hnth.
  assert (HNb : nbins (Bins.params b0) = N) by (rewrite Hp; reflexivity).
  pose proof Hb as Hb'. destruct Hb'. rewrite HNb in *.
  assert (Hh' : h = Bins.bin_centers b0).
  { apply (nth_ext h (Bins.bin_centers b0) 0 0); [congruence |].
    intros i Hi. apply Hh. lia. }
  subst h.
  unfold empty_bin_advisories in Hrun.
  change (Bins.params (Bins.set_ind b0 (assigned b0))) with (Bins.params b0)
    in Hrun.
  rewrite Hp in Hrun. cbn [hbar_method p] in Hrun. rewrite app_nil_r in Hrun.
  rewrite (bind_ok _ _ _ _ _ Hrun).
  set (w1 := w0 ++ range_advisory (assigned b0) N).
  set (self0 := VSD.mk (Bins.set_hbar
                          (Bins.set_na (Bins.set_ind b0 (assigned b0)) a)
                          (Bins.bin_centers b0))
                       roi_area (repeat 0 N) [] [] []) in *.
  assert (HNp : nbins (VSD.params self0) = N).
  { unfold VSD.params, self0. cbn [VSD.bins]. attrs. rewrite Hp. reflexivity. }
  destruct (intersection_probabilities_ok self0 w1)
    as (P & Hrun1 & HlP & HP);
    rewrite ?HNp; try (unfold self0; cbn [VSD.bins]; attrs; assumption).
  rewrite HNp in HlP, HP.
  rewrite (bind_ok _ _ _ _ _ Hrun1).
  destruct (SP_to_nv_ok (VSD.set_inter_prob self0 P) w1)
    as (v & Hrun2 & Hlv & Hrec);
    try (change (nbins (VSD.params (VSD.set_inter_prob self0 P)))
          with (nbins (VSD.params self0)); rewrite HNp;
         unfold self0; cbn [VSD.set_inter_prob VSD.bins VSD.nv VSD.inter_prob];
         attrs; rewrite ?repeat_length; first [assumption | reflexivity]).
  change (nbins (VSD.params (VSD.set_inter_prob self0 P)))
    with (nbins (VSD.params self0)) in Hlv, Hrec.
  rewrite HNp in Hlv, Hrec.
  rewrite (bind_ok _ _ _ _ _ Hrun2).
  destruct (to_lnn_ok (VSD.set_nv (VSD.set_inter_prob self0 P) v) w1)
    as (q & Hlnn & _).
  { unfold self0. cbn [VSD.set_nv VSD.set_inter_prob VSD.nv VSD.bins]. attrs.
    congruence. }
  eexists _, b0, hi. split.
  { rewrite Hlnn. unfold w1, w0. rewrite <- app_assoc. reflexivity. }
  unfold self0 in *.
  cbn [VSD.set_n_lnn VSD.set_nv VSD.set_inter_prob VSD.nv VSD.bins
       VSD.inter_prob] in *.
  attrs.
  split; [exact Hb |]. split; [exact HNb |]. split; [exact Hves |].
  split; [exact Hin |]. split; [exact Hle |]. split; [exact Hnth |].
  split; [reflexivity |]. split; [reflexivity |]. split; [exact Hlv |].
  intros i Hi. split; [apply Ha; exact Hi |].
  split; [apply HP; exact Hi |].
  specialize (Hrec i Hi). revert Hrec. attrs. intros Hrec. exact Hrec.
Qed.

Lemma geometric_sqrt (hi x : R) :
  0 < hi -> 0 <= x ->
  sqrt (hi ^ 2 - (hi * Rpower 10 (-0.1 * x)) ^ 2)
  = hi * sqrt (1 - Rpower 10 (-0.2 * x)).
Proof.
  intros Hhi Hx.
  assert (Hr : Rpower 10 (-0.1 * x) * Rpower 10 (-0.1 * x)
               = Rpower 10 (-0.2 * x)).
  { rewrite <- Rpower_plus. f_equal. lra. }
  assert (Hle : Rpower 10 (-0.2 * x) <= 1).
  { rewrite <- (Rpower_O 10) by lra. apply Rle_Rpower; lra. }
  replace (hi ^ 2 - (hi * Rpower 10 (-0.1 * x)) ^ 2)
    with (hi ^ 2 * (1 - Rpower 10 (-0.2 * x)))
    by (rewrite <- Hr; ring).
  rewrite sqrt_mult_alt by nra.
  rewrite sqrt_pow2 by lra. reflexivity.
Qed.

(** X11: the intersection probabilities [SahagianProussevitch] computes
    over a measurement set and a non-zero reference area depend on the
    bin alone, not on the measurements:
    [P[i] = sqrt(1 - 10^(-0.2 (i+1))) - sqrt(1 - 10^(-0.2 i))], so
    [P[0] = sqrt(1 - 10^(-0.2))]. *)
Theorem SP_probabilities_depend_on_bin_only (vs : list R) (roi_area : R)
    (convention : string) (N : nat) w :
  measurements vs -> (0 < N)%nat -> roi_area <> 0 ->
  exists self w',
    SahagianProussevitch.init vs roi_area convention N w = inr (self, w')
    /\ (forall i, (i < N)%nat ->
          nth i (VSD.inter_prob self) 0
          = sqrt (1 - Rpower 10 (-0.2 * INR (S i)))
            - sqrt (1 - Rpower 10 (-0.2 * INR i)))
    /\ nth 0 (VSD.inter_prob self) 0 = sqrt (1 - Rpower 10 (-0.2)).
Proof.
  intros Hvs HN _.
  destruct (SP_init_spec vs roi_area convention N w Hvs HN)
    as (self & b0 & hi & Hrun & Hb & HNb & Hves & Hin & Hle & Hnth & _ & _
        & _ & Hall).
  assert (Hhi : 0 < hi).
  { destruct Hvs as [_ Hpos]. rewrite Forall_forall in Hpos.
    apply Hpos. exact Hin. }
  assert (HP : forall i, (i < N)%nat ->
            nth i (VSD.inter_prob self) 0
            = sqrt (1 - Rpower 10 (-0.2 * INR (S i)))
              - sqrt (1 - Rpower 10 (-0.2 * INR i))).
  { intros i Hi. destruct (Hall i Hi) as (_ & HPi & _). rewrite HPi.
    unfold intersection_probability.
    rewrite (Hnth O) by lia. rewrite (Hnth (S i)) by lia.
    rewrite (Hnth i) by lia.
    replace (hi * Rpower 10 (-0.1 * INR 0)) with hi.
    2:{ simpl INR. rewrite Rmult_0_r, Rpower_O by lra. ring. }
    rewrite (geometric_sqrt hi (INR (S i)) Hhi (pos_INR _)).
    rewrite (geometric_sqrt hi (INR i) Hhi (pos_INR _)).
    field. lra. }
  eexists self, _. split; [exact Hrun |]. split; [exact HP |].
  rewrite (HP O HN). simpl INR.
  rewrite Rmult_0_r, Rpower_O by lra.
  replace (1 - 1) with 0 by ring. rewrite sqrt_0.
  replace (-0.2 * 1) with (-0.2) by lra. ring.
Qed.

Lemma SP_probabilities_depend_on_bin_only_witness :
  exists self w',
    SahagianProussevitch.init [1; 2; 3; 4; 5] 100 "diameter" 2 []
    = inr (self, w')
    /\ nth 0 (VSD.inter_prob self) 0 = sqrt (1 - Rpower 10 (-0.2)).
Proof.
  destruct (SP_probabilities_depend_on_bin_only [1; 2; 3; 4; 5] 100
              "diameter" 2 [] sample_measurements ltac:(lia) ltac:(lra))
    as (self & w' & Hrun & _ & H0).
  exists self, w'. split; [exact Hrun | exact H0].
Defined.

Lemma count_split (idx : list Z) (N : nat) :
  Forall (fun k => (0 <= k)%Z) idx ->
  (count_in_range idx N + Bins.count_ge idx N)%nat = length idx.
Proof.
  unfold count_in_range, Bins.count_ge.
  induction 1 as [| k idx Hk _ IH]; [reflexivity |]. cbn [filter].
  destruct (Z.leb_spec 0 k), (Z.ltb_spec k (Z.of_nat N)),
    (Z.leb_spec (Z.of_nat N) k); try lia; cbn [andb length]; lia.
Qed.

Lemma assigned_nonneg (b0 : Bins.t) :
  built b0 -> Forall (fun k => (0 <= k)%Z) (assigned b0).
Proof.
  intros Hb. destruct Hb. unfold assigned. rewrite Forall_forall.
  intros k Hk. apply in_map_iff in Hk. destruct Hk as (v & <- & Hv).
  destruct (assign_decreasing (Bins.bin_edges b0) (nbins (Bins.params b0)) v
              built_nbins0 built_edges0 built_descending0) as (_ & _ & Hlt).
  destruct (Z_lt_le_dec (Bins.assign (Bins.bin_edges b0) v) 0) as [Hneg | ?];
    [| assumption].
  specialize (Hlt O Hneg ltac:(lia)). specialize (built_first0 v Hv). lra.
Qed.

(** X12: with geometric bins and the bin centers as characteristic sizes
    (the parameters of [SahagianProussevitch]), [VSDCorrection.__init__]
    over a measurement set and a non-zero reference area leaves out
    exactly the measurements at or below the last edge it has built: no
    measurement is above the first edge; with [c] the number of those at
    or below the last one, the only advisory is the range advisory with
    [c], issued when [c > 0]; and the sum over the bins of
    [na[i] * roi_area] is the number of measurements less [c]. *)
Theorem geometric_bins_count_what_they_leave_out (vs : list R)
    (roi_area : R) (p : Params) w :
  bin_method p = geometric -> hbar_method p = bin_center ->
  measurements vs -> (0 < nbins p)%nat -> roi_area <> 0 ->
  exists self,
    let bins := VSD.bins self in
    let c :=
      count_at_or_below (Bins.vesicles bins)
        (nth (nbins p) (Bins.bin_edges bins) 0) in
    VSDCorrection.init vs roi_area p w
    = inr (self,
           w ++ (if (c =? 0)%nat then [] else [Py.SmallerThanAnyBinEdge c]))
    /\ length (Bins.vesicles bins) = length vs
    /\ (forall v, In v (Bins.vesicles bins) ->
          v <= nth 0 (Bins.bin_edges bins) 0)
    /\ rsum (fun i => nth i (Bins.na bins) 0 * roi_area) (nbins p)
       = INR (length vs) - INR c.
Proof.
  intros Hgeo Hm Hvs HN Hroi.
  destruct (VSDCorrection_init_spec vs roi_area p w Hvs HN)
    as (b0 & a & h & Hinit & Hb & Hp & Hrun & Hla & Ha & _).
  destruct (Bins_init_ok vs p w Hvs HN)
    as (b0' & Hinit' & _ & _ & Hlen & _).
  assert (b0' = b0) by congruence. subst b0'.
  pose proof Hb as Hb'. destruct Hb'. rewrite Hp in *.
  assert (Hc : Bins.count_ge (assigned b0) (nbins p)
               = count_at_or_below (Bins.vesicles b0)
                   (nth (nbins p) (Bins.bin_edges b0) 0)).
  { unfold assigned.
    apply (count_ge_assigned _ _ _ HN built_edges0 built_descending0). }
  unfold empty_bin_advisories in Hrun.
  change (Bins.params (Bins.set_ind b0 (assigned b0))) with (Bins.params b0)
    in Hrun.
  rewrite Hp, Hm, app_nil_r in Hrun.
  unfold range_advisory in Hrun. rewrite Hc in Hrun.
  match type of Hrun with _ = inr (?x, _) => exists x end.
  cbv zeta. cbn [VSD.bins]. attrs.
  split; [exact Hrun |]. split; [exact Hlen |].
  split; [exact built_first0 |].
  rewrite <- Hc.
  rewrite <- (rsum_ext (fun i => INR (Bins.count_eq (assigned b0) i))).
  - rewrite count_in_range_sum.
    pose proof (count_split (assigned b0) (nbins p) (assigned_nonneg b0 Hb))
      as Hs.
    assert (Hl : length (assigned b0) = length vs).
    { unfold assigned. rewrite length_map. exact Hlen. }
    rewrite <- Hl, <- Hs, plus_INR. ring.
  - intros i Hi. rewrite Ha by exact Hi. field. exact Hroi.
Qed.

Lemma geometric_bins_count_what_they_leave_out_witness :
  exists self,
    VSDCorrection.init [1; 2; 3; 4; 5] 100
      (mkParams geometric bin_center "diameter" 2 false) []
    = inr (self,
           [] ++ (if Nat.eqb (count_at_or_below
                                (Bins.vesicles (VSD.bins self))
                                (nth 2 (Bins.bin_edges (VSD.bins self)) 0)) 0
                  then []
                  else [Py.SmallerThanAnyBinEdge
                          (count_at_or_below
                             (Bins.vesicles (VSD.bins self))
                             (nth 2 (Bins.bin_edges (VSD.bins self)) 0))]))
    /\ length (Bins.vesicles (VSD.bins self)) = 5%nat.
Proof.
  destruct (geometric_bins_count_what_they_leave_out [1; 2; 3; 4; 5] 100
              (mkParams geometric bin_center "diameter" 2 false) []
              eq_refl eq_refl sample_measurements ltac:(simpl; lia)
              ltac:(lra))
    as (self & Hrun & Hlen & _).
  exists self. split; [exact Hrun | exact Hlen].
Defined.

(** X13: with geometric bins the first bin is never empty: over a
    measurement set and a positive reference area,
    [SahagianProussevitch(...)] assigns the largest measurement to bin 0,
    so [na[0] > 0] and [nv[0] > 0]. *)
Theorem SP_first_bin_never_empty (vs : list R) (roi_area : R)
    (convention : string) (N : nat) w :
  measurements vs -> (0 < N)%nat -> 0 < roi_area ->
  exists self w',
    SahagianProussevitch.init vs roi_area convention N w = inr (self, w')
    /\ (0 < Bins.count_eq (Bins.ind (VSD.bins self)) 0)%nat
    /\ 0 < nth 0 (Bins.na (VSD.bins self)) 0
    /\ 0 < nth 0 (VSD.nv self) 0.
Proof.
  intros Hvs HN Hroi.
  destruct (SP_init_spec vs roi_area convention N w Hvs HN)
    as (self & b0 & hi & Hrun & Hb & HNb & Hves & Hin & Hle & Hnth & Hind
        & Hhbar & _ & Hall).
  pose proof Hb as Hb'. destruct Hb'. rewrite HNb in *.
  assert (Hhi : 0 < hi).
  { destruct Hvs as [_ Hpos]. rewrite Forall_forall in Hpos.
    apply Hpos. exact Hin. }
  assert (He0 : nth 0 (Bins.bin_edges b0) 0 = hi).
  { rewrite (Hnth O) by lia. simpl INR.
    rewrite Rmult_0_r, Rpower_O by lra. ring. }
  assert (Hcount : (0 < Bins.count_eq (assigned b0) 0)%nat).
  { apply count_eq_pos. unfold assigned. apply in_map_iff.
    exists hi. split; [| rewrite Hves; exact Hin].
    destruct (assign_cases (Bins.bin_edges b0) N hi HN built_edges0
                built_descending0) as (_ & H0 & _).
    apply H0. symmetry. exact He0. }
  destruct (Hall O HN) as (Ha & HP & Hv).
  assert (Hna : 0 < nth 0 (Bins.na (VSD.bins self)) 0).
  { rewrite Ha. apply Rdiv_lt_0_compat; [| exact Hroi].
    apply lt_0_INR. exact Hcount. }
  eexists self, _. split; [exact Hrun |]. rewrite Hind.
  split; [exact Hcount |]. split; [exact Hna |].
  rewrite Hv. unfold previously_solved. cbn [rsum]. rewrite Rminus_0_r.
  apply Rdiv_lt_0_compat; [exact Hna |].
  apply Rmult_lt_0_compat.
  - rewrite HP. unfold intersection_probability.
    replace (nth 0 (Bins.bin_edges b0) 0 ^ 2 - nth 0 (Bins.bin_edges b0) 0 ^ 2)
      with 0 by ring.
    rewrite sqrt_0, Rminus_0_r.
    pose proof (built_edges_positive b0 1 Hb ltac:(lia)) as H1.
    assert (H10 : nth 1 (Bins.bin_edges b0) 0 < nth 0 (Bins.bin_edges b0) 0)
      by (apply built_descending0; lia).
    pose proof (single_bin_probability _ _ H1 H10) as [Hp _].
    unfold Rdiv in Hp. rewrite Rmult_comm in Hp.
    unfold Rdiv. rewrite Rmult_1_l. exact Hp.
  - rewrite Hhbar.
    destruct (built_bins0 O HN) as (Hw & Hwpos & Hc).
    pose proof (built_edges_positive b0 1 Hb ltac:(lia)) as H1.
    rewrite Hc. lra.
Qed.

Lemma SP_first_bin_never_empty_witness :
  exists self w',
    SahagianProussevitch.init [1; 2; 3; 4; 5] 100 "diameter" 2 []
    = inr (self, w')
    /\ 0 < nth 0 (VSD.nv self) 0.
Proof.
  destruct (SP_first_bin_never_empty [1; 2; 3; 4; 5] 100 "diameter" 2 []
              sample_measurements ltac:(lia) ltac:(lra))
    as (self & w' & Hrun & _ & _ & Hnv).
  exists self, w'. split; [exact Hrun | exact Hnv].
Defined.

(** ** Normalized measurements *)






(** * Properties of the sample classes *)

(** ** Dictionaries and tables *)

Lemma get_update_same (V : Type) (d : pd.named V) (key : string) (v : V) :
  pd.get (pd.update d key v) key = Some v.
Proof.
  induction d as [| [k v'] d IH]; simpl.
  - rewrite String.eqb_refl. reflexivity.
  - destruct (String.eqb k key) eqn:E; simpl; rewrite E; auto.
Qed.

Lemma get_update_other (V : Type) (d : pd.named V) (key k' : string) (v : V) :
  k' <> key -> pd.get (pd.update d key v) k' = pd.get d k'.
Proof.
  intros Hne. induction d as [| [k v'] d IH]; simpl.
  - destruct (String.eqb_spec key k'); [congruence | reflexivity].
  - destruct (String.eqb_spec k key) as [-> | Hk]; simpl.
    + destruct (String.eqb_spec key k'); [congruence | reflexivity].
    + rewrite IH. reflexivity.
Qed.

Lemma getattr_correction (bound : string -> bool) (method : string) (N : nat) :
  method = "ChengLemlich"%string \/ method = "SahagianProussevitch"%string
  \/ method = "Saltikov"%string ->
  exists init,
    stereology.getattr bound method = Some (stereology.Correction init)
    /\ (forall vs roi convention w,
          measurements vs -> (0 < N)%nat ->
          (method = "Saltikov"%string -> (N <= 12)%nat) ->
          exists c w', init vs roi convention N w = inr (c, w'))
    /\ (forall vs roi convention w,
          measurements vs -> method = "Saltikov"%string -> (12 < N)%nat ->
          init vs roi convention N w = inl Py.IndexError)
    /\ (forall roi convention w, init [] roi convention N w = inl Py.ValueError).
Proof.
  intros [-> | [-> | ->]].
  - exists ChengLemlich.init. split; [reflexivity |]. split; [| split].
    + intros vs roi convention w Hvs HN _.
      destruct (ChengLemlich_init_ok vs roi convention N w Hvs HN)
        as (c & w' & Hrun & _).
      exists c, w'. exact Hrun.
    + intros vs roi convention w _ Hm. discriminate Hm.
    + intros roi convention w. unfold ChengLemlich.init.
      rewrite (bind_ok _ _ _ _ _
                 (convention_check_advisory "C&L" "radius" convention w)).
      unfold Py.bind. rewrite VSDCorrection_init_empty. reflexivity.
  - exists SahagianProussevitch.init. split; [reflexivity |]. split; [| split].
    + intros vs roi convention w Hvs HN _.
      destruct (SP_init_ok vs roi convention N w Hvs HN)
        as (c & w' & Hrun & _).
      exists c, w'. exact Hrun.
    + intros vs roi convention w _ Hm. discriminate Hm.
    + intros roi convention w. unfold SahagianProussevitch.init.
      rewrite (bind_ok _ _ _ _ _
                 (convention_check_advisory "S&P" "diameter" convention w)).
      unfold Py.bind. rewrite VSDCorrection_init_empty. reflexivity.
  - exists Saltikov.init. split; [reflexivity |]. split; [| split].
    + intros vs roi convention w Hvs HN H12.
      destruct (Saltikov_init_upto_12 vs roi convention N w Hvs
                  (conj HN (H12 eq_refl)))
        as (c & w' & Hrun & _).
      exists c, w'. exact Hrun.
    + intros vs roi convention w Hvs _ H12.
      apply Saltikov_init_beyond_12; assumption.
    + intros roi convention w. unfold Saltikov.init.
      rewrite (bind_ok _ _ _ _ _
                 (convention_check_advisory "S" "diameter" convention w)).
      unfold Py.bind. rewrite VSDCorrection_init_empty. reflexivity.
Qed.

(** ** Applying a correction to an image *)

(** X15: [Image.apply_vsd_corr] with one of the three corrections (for
    [Saltikov], at most 12 bins) over a column of positive measurements
    returns; the image gains the correction its constructor builds from
    that column and the reference area of the image, [vsd_index[key]] is
    its position in [vsd], the other keys keep their entries,
    [vsd_num = len(vsd)] still holds, and the table is untouched. *)
Theorem Image_apply_vsd_corr_round_trip (bound : string -> bool)
    (key method length_type : string) (N : nat) (self : Image.t)
    (vesicles : list R) w :
  Image.vsd_num self = length (Image.vsd self) ->
  pd.get (Image.image_data self) length_type = Some vesicles ->
  measurements vesicles -> (0 < N)%nat ->
  method = "ChengLemlich"%string \/ method = "SahagianProussevitch"%string
  \/ method = "Saltikov"%string ->
  (method = "Saltikov"%string -> (N <= 12)%nat) ->
  exists self' w' c init,
    Image.apply_vsd_corr bound key method length_type N self w
    = pd.Done self' w'
    /\ stereology.getattr bound method = Some (stereology.Correction init)
    /\ init vesicles (Image.roi_area self) length_type N w = inr (c, w')
    /\ Image.vsd self' = Image.vsd self ++ [c]
    /\ Image.vsd_num self' = length (Image.vsd self')
    /\ pd.get (Image.vsd_index self') key = Some (Image.vsd_num self)
    /\ nth_error (Image.vsd self') (Image.vsd_num self) = Some c
    /\ (forall k, k <> key ->
          pd.get (Image.vsd_index self') k = pd.get (Image.vsd_index self) k)
    /\ Image.image_data self' = Image.image_data self.
Proof.
  intros Hinv Hcol Hvs HN Hmethod H12.
  destruct (getattr_correction bound method N Hmethod)
    as (init & Hget & Hok & _ & _).
  destruct (Hok vesicles (Image.roi_area self) length_type w Hvs HN H12)
    as (c & w' & Hrun).
  eexists _, w', c, init. split.
  { unfold Image.apply_vsd_corr. rewrite Hget.
    cbn [Image.set_vsd_index Image.image_data Image.roi_area].
    rewrite Hcol, Hrun. reflexivity. }
  cbn [Image.set_vsd_num Image.set_vsd Image.set_vsd_index Image.vsd
       Image.vsd_num Image.vsd_index Image.image_data].
  split; [exact Hget |]. split; [exact Hrun |]. split; [reflexivity |].
  split; [rewrite length_app, Hinv; reflexivity |].
  split; [apply get_update_same |].
  split.
  { rewrite Hinv, nth_error_app2 by lia. rewrite Nat.sub_diag. reflexivity. }
  split; [| reflexivity].
  intros k Hk. apply get_update_other. exact Hk.
Qed.

Lemma Image_apply_vsd_corr_round_trip_witness :
  exists self' w',
    Image.apply_vsd_corr (fun _ => false) "first" "ChengLemlich" "diameter" 3
      sample_image [] = pd.Done self' w'
    /\ pd.get (Image.vsd_index self') "first" = Some 0%nat
    /\ length (Image.vsd self') = 1%nat.
Proof.
  destruct (Image_apply_vsd_corr_round_trip (fun _ => false) "first"
              "ChengLemlich" "diameter" 3 sample_image [1; 2; 3; 4; 5] []
              eq_refl eq_refl sample_measurements ltac:(lia)
              (or_introl eq_refl) ltac:(discriminate))
    as (self' & w' & c & init & Hrun & _ & _ & Hvsd & _ & Hkey & _).
  exists self', w'. split; [exact Hrun |]. split; [exact Hkey |].
  rewrite Hvsd. reflexivity.
Defined.

(** X16: [Image.apply_vsd_corr] records the key before it builds the
    correction.  When it raises, the image is left with
    [vsd_index[key] = len(vsd)], an index that names no correction, and
    is otherwise as before; and it raises for one of four reasons: the
    module has no such name ([AttributeError]), the table has no such
    column ([KeyError]), the name is not one of the corrections
    ([TypeError]), or the constructor of the correction raised. *)
Theorem Image_apply_vsd_corr_failure_leaves_key (bound : string -> bool)
    (key method length_type : string) (N : nat) (self self' : Image.t)
    (e : pd.exn) w :
  Image.vsd_num self = length (Image.vsd self) ->
  Image.apply_vsd_corr bound key method length_type N self w
  = pd.Raise e self' ->
  (pd.get (Image.vsd_index self') key = Some (length (Image.vsd self'))
   /\ nth_error (Image.vsd self') (length (Image.vsd self')) = None
   /\ (forall k, k <> key ->
         pd.get (Image.vsd_index self') k = pd.get (Image.vsd_index self) k)
   /\ Image.vsd self' = Image.vsd self
   /\ Image.vsd_num self' = Image.vsd_num self
   /\ Image.image_data self' = Image.image_data self)
  /\ ((e = pd.AttributeError /\ stereology.getattr bound method = None)
      \/ (e = pd.KeyError
          /\ stereology.getattr bound method <> None
          /\ pd.get (Image.image_data self) length_type = None)
      \/ (e = pd.TypeError
          /\ stereology.getattr bound method = Some stereology.Other)
      \/ (exists init vesicles e',
            e = pd.Builtin e'
            /\ stereology.getattr bound method
               = Some (stereology.Correction init)
            /\ pd.get (Image.image_data self) length_type = Some vesicles
            /\ init vesicles (Image.roi_area self) length_type N w
               = inl e')).
Proof.
  intros Hinv Hrun.
  set (s1 := Image.set_vsd_index self
               (pd.update (Image.vsd_index self) key (Image.vsd_num self))).
  assert (Hs1 : pd.get (Image.vsd_index s1) key = Some (length (Image.vsd s1))
                /\ nth_error (Image.vsd s1) (length (Image.vsd s1)) = None
                /\ (forall k, k <> key ->
                      pd.get (Image.vsd_index s1) k
                      = pd.get (Image.vsd_index self) k)
                /\ Image.vsd s1 = Image.vsd self
                /\ Image.vsd_num s1 = Image.vsd_num self
                /\ Image.image_data s1 = Image.image_data self).
  { unfold s1. cbn [Image.set_vsd_index Image.vsd_index Image.vsd
                    Image.vsd_num Image.image_data].
    split; [rewrite get_update_same, Hinv; reflexivity |].
    split; [apply nth_error_None; lia |].
    split; [intros k Hk; apply get_update_other; exact Hk |].
    repeat split. }
  unfold Image.apply_vsd_corr in Hrun. fold s1 in Hrun.
  change (Image.image_data s1) with (Image.image_data self) in Hrun.
  change (Image.roi_area s1) with (Image.roi_area self) in Hrun.
  destruct (stereology.getattr bound method) as [a |] eqn:Hget.
  - destruct (pd.get (Image.image_data self) length_type) as [vs |] eqn:Hcol.
    + destruct a as [init |].
      * destruct (init vs (Image.roi_area self) length_type N w)
          as [e' | [v w']] eqn:Hinit; [| discriminate].
        injection Hrun as <- <-. split; [exact Hs1 |].
        right. right. right. exists init, vs, e'. auto.
      * injection Hrun as <- <-. split; [exact Hs1 |].
        right. right. left. auto.
    + injection Hrun as <- <-. split; [exact Hs1 |].
      right. left. split; [reflexivity |]. split; [discriminate | reflexivity].
  - injection Hrun as <- <-. split; [exact Hs1 |]. left. auto.
Qed.

Lemma Image_apply_vsd_corr_failure_leaves_key_witness :
  exists self',
    Image.apply_vsd_corr (fun _ => false) "fine" "Saltikov" "diameter" 13
      sample_image [] = pd.Raise (pd.Builtin Py.IndexError) self'
    /\ pd.get (Image.vsd_index self') "fine" = Some 0%nat
    /\ Image.vsd self' = [].
Proof.
  assert (Hrun : Image.apply_vsd_corr (fun _ => false) "fine" "Saltikov"
                   "diameter" 13 sample_image []
                 = pd.Raise (pd.Builtin Py.IndexError)
                     (Image.set_vsd_index sample_image [("fine"%string, 0%nat)])).
  { pose proof (Saltikov_init_beyond_12 [1; 2; 3; 4; 5] 100 "diameter" 13 []
                  sample_measurements ltac:(lia)) as Hraise.
    unfold Image.apply_vsd_corr. cbv - [Saltikov.init IZR].
    cbv - [Saltikov.init IZR] in Hraise. rewrite Hraise. reflexivity. }
  destruct (Image_apply_vsd_corr_failure_leaves_key (fun _ => false) "fine"
              "Saltikov" "diameter" 13 sample_image _ _ [] eq_refl Hrun)
    as ((Hkey & _ & _ & Hvsd & _) & _).
  eexists. split; [exact Hrun |]. split; [exact Hkey | exact Hvsd].
Defined.
(** ** Building an image *)

Lemma keep_map (mask : list bool) (g : R -> R) (c : list R) :
  pd.keep mask (map g c) = map g (pd.keep mask c).
Proof.
  revert c. induction mask as [| b mask IH]; intros [| x c]; try reflexivity.
  simpl. destruct b; simpl; rewrite IH; reflexivity.
Qed.

Lemma keep_gt (d : R -> R) (x : R) (c : list R) :
  pd.keep (pd.gt (map d c) x) c
  = filter (fun a => if Rlt_dec x (d a) then true else false) c.
Proof.
  unfold pd.gt. induction c as [| a c IH]; [reflexivity |]. simpl.
  destruct (Rlt_dec x (d a)); rewrite IH; reflexivity.
Qed.

Lemma length_keep (mask : list bool) (c c' : list R) :
  length c = length mask -> length c' = length mask ->
  length (pd.keep mask c) = length (pd.keep mask c').
Proof.
  revert c c'. induction mask as [| b mask IH]; intros [| x c] [| x' c'];
    simpl; try discriminate; try reflexivity.
  intros H H'. injection H as H. injection H' as H'.
  destruct b; simpl; rewrite (IH c c' H H'); reflexivity.
Qed.

(** The image the constructor builds from 13 columns. *)
Lemma Image_init_table (file meta_file units : string)
    (min_diameter pixel roi : R)
    (c0 c1 c2 c3 c4 c5 c6 c7 c8 c9 c10 c11 c12 : list R) w :
  let mask :=
    pd.gt (map (fun v => v * pixel)
             (map (fun r => r * 2) (map (fun a => sqrt (a / PI)) c0)))
          min_diameter in
  let by_pixel := fun c => pd.keep mask (map (fun v => v * pixel) c) in
  Image.init file meta_file units min_diameter
    [c0; c1; c2; c3; c4; c5; c6; c7; c8; c9; c10; c11; c12] pixel roi w
  = inr (Image.mk file meta_file units true true min_diameter [] [] 0
           [("area"%string, pd.keep mask (map (fun a => a * pixel ^ 2) c0));
            ("x"%string, by_pixel c1); ("y"%string, by_pixel c2);
            ("perimeter"%string, by_pixel c3); ("bx"%string, by_pixel c4);
            ("by"%string, by_pixel c5); ("width"%string, by_pixel c6);
            ("height"%string, by_pixel c7);
            ("major_axis"%string, by_pixel c8);
            ("minor_axis"%string, by_pixel c9);
            ("angle"%string, pd.keep mask c10);
            ("xstart"%string, by_pixel c11); ("ystart"%string, by_pixel c12);
            ("radius"%string, by_pixel (map (fun a => sqrt (a / PI)) c0));
            ("diameter"%string,
             by_pixel (map (fun r => r * 2)
                         (map (fun a => sqrt (a / PI)) c0)))]
           pixel roi,
         w).
Proof. reflexivity. Qed.

(** The image [Image(...)] builds, column by column. *)
Lemma Image_init_spec (file meta_file units : string)
    (min_diameter pixel roi : R) (csv : list (list R)) (n : nat) w :
  let diameter_of := fun a => sqrt (a / PI) * 2 * pixel in
  let large :=
    fun a => if Rlt_dec min_diameter (diameter_of a) then true else false in
  let kept := filter large (nth 0 csv []) in
  length csv = 13%nat -> Forall (fun c => length c = n) csv ->
  exists img,
    Image.init file meta_file units min_diameter csv pixel roi w
    = inr (img, w)
    /\ Image.scaled img = true /\ Image.thresholded img = true
    /\ Image.pixel_size img = pixel /\ Image.roi_area img = roi
    /\ Image.vsd img = [] /\ Image.vsd_num img = 0%nat
    /\ map fst (Image.image_data img)
       = Image.column_names ++ ["radius"%string; "diameter"%string]
    /\ Forall (fun nc => length (snd nc) = length kept) (Image.image_data img)
    /\ pd.get (Image.image_data img) "area"
       = Some (map (fun a => a * pixel ^ 2) kept)
    /\ pd.get (Image.image_data img) "radius"
       = Some (map (fun a => sqrt (a / PI) * pixel) kept)
    /\ pd.get (Image.image_data img) "diameter"
       = Some (map diameter_of kept)
    /\ Forall (fun d => min_diameter < d) (map diameter_of kept)
    /\ pd.get (Image.image_data img) "angle"
       = Some (pd.keep (map large (nth 0 csv [])) (nth 10 csv []))
    /\ forall w', Image.scale_data img w' = pd.Raise pd.AttributeError img.
Proof.
  intros diameter_of large kept Hlen Hrect.
  do 13 (destruct csv as [| ? csv]; [discriminate Hlen |]).
  destruct csv; [| discriminate Hlen]. clear Hlen.
  cbn [nth] in kept |- *.
  pose proof (Image_init_table file meta_file units min_diameter pixel roi
                l l0 l1 l2 l3 l4 l5 l6 l7 l8 l9 l10 l11 w) as Hrun.
  cbv zeta in Hrun.
  set (mask := pd.gt (map (fun v => v * pixel)
                        (map (fun r => r * 2)
                           (map (fun a => sqrt (a / PI)) l)))
                     min_diameter) in *.
  set (by_pixel := fun c : list R => pd.keep mask (map (fun v => v * pixel) c))
    in *.
  eexists. split; [exact Hrun |]. clear Hrun.
  assert (Hd : map (fun v => v * pixel)
                   (map (fun r => r * 2) (map (fun a => sqrt (a / PI)) l))
               = map diameter_of l).
  { rewrite !map_map. reflexivity. }
  assert (Hmask : mask = map large l).
  { unfold mask, pd.gt. rewrite Hd, map_map. reflexivity. }
  assert (Hkept : pd.keep mask l = kept).
  { unfold mask. rewrite Hd. apply keep_gt. }
  assert (Hlm : length mask = n).
  { rewrite Hmask, length_map. inversion Hrect; assumption. }
  assert (Hrows : forall c, length c = n ->
            length (pd.keep mask c) = length kept).
  { intros c Hc. rewrite <- Hkept. apply length_keep; [congruence |].
    inversion Hrect; congruence. }
  assert (Hlens : Forall (fun c => length c = n)
                    [l; l0; l1; l2; l3; l4; l5; l6; l7; l8; l9; l10; l11])
    by exact Hrect.
  repeat match goal with
         | H : Forall _ (_ :: _) |- _ => inversion H; subst; clear H
         | H : Forall _ [] |- _ => clear H
         end.
  cbn [Image.scaled Image.thresholded Image.pixel_size Image.roi_area
       Image.vsd Image.vsd_num Image.image_data].
  do 7 (split; [reflexivity |]).
  split.
  { unfold by_pixel.
    repeat (apply Forall_cons;
            [cbn [snd]; apply Hrows; rewrite ?length_map; congruence |]).
    apply Forall_nil. }
  split.
  { transitivity (Some (pd.keep mask (map (fun a => a * pixel ^ 2) l)));
      [reflexivity |].
    rewrite keep_map, Hkept. reflexivity. }
  split.
  { transitivity (Some (by_pixel (map (fun a => sqrt (a / PI)) l)));
      [reflexivity |].
    unfold by_pixel. rewrite map_map, keep_map, Hkept. reflexivity. }
  split.
  { transitivity (Some (by_pixel (map (fun r => r * 2)
                                    (map (fun a => sqrt (a / PI)) l))));
      [reflexivity |].
    unfold by_pixel. rewrite Hd, keep_map, Hkept. reflexivity. }
  split.
  { rewrite Forall_forall. intros d Hin. apply in_map_iff in Hin.
    destruct Hin as (a & <- & Ha). unfold kept in Ha.
    apply filter_In in Ha. destruct Ha as [_ Ha]. unfold large in Ha.
    destruct (Rlt_dec min_diameter (diameter_of a)); [assumption | discriminate]. }
  split.
  { transitivity (Some (pd.keep mask l9)); [reflexivity |].
    rewrite Hmask. reflexivity. }
  intros w'. reflexivity.
Qed.

(** X17: [Image(...)] over a table of 13 columns of equal length, with
    [min_diameter >= 0], returns.  It keeps the vesicles whose diameter
    [2 * sqrt(area / pi) * pixel_size] exceeds [min_diameter], in their
    order (a negative area, whose root NumPy leaves undefined, is never
    kept): for the kept areas [a], the columns are
    [area = a * pixel_size^2], [radius = sqrt(a / pi) * pixel_size] and
    [diameter = 2 * radius]; every column has one entry per kept vesicle;
    ['angle'] is not converted; both flags are set; and a later
    [scale_data] raises [AttributeError] (the advisory is never issued)
    and leaves the image as it is. *)
Theorem Image_init_keeps_large_vesicles (file meta_file units : string)
    (min_diameter pixel roi : R) (csv : list (list R)) (n : nat) w :
  let diameter_of := fun a => sqrt (a / PI) * 2 * pixel in
  let large :=
    fun a => if Rlt_dec min_diameter (diameter_of a) then true else false in
  let kept := filter large (nth 0 csv []) in
  length csv = 13%nat -> Forall (fun c => length c = n) csv ->
  0 <= min_diameter ->
  exists img,
    Image.init file meta_file units min_diameter csv pixel roi w
    = inr (img, w)
    /\ Image.scaled img = true /\ Image.thresholded img = true
    /\ Image.pixel_size img = pixel /\ Image.roi_area img = roi
    /\ Image.vsd img = [] /\ Image.vsd_num img = 0%nat
    /\ map fst (Image.image_data img)
       = Image.column_names ++ ["radius"%string; "diameter"%string]
    /\ Forall (fun nc => length (snd nc) = length kept) (Image.image_data img)
    /\ pd.get (Image.image_data img) "area"
       = Some (map (fun a => a * pixel ^ 2) kept)
    /\ pd.get (Image.image_data img) "radius"
       = Some (map (fun a => sqrt (a / PI) * pixel) kept)
    /\ pd.get (Image.image_data img) "diameter"
       = Some (map diameter_of kept)
    /\ Forall (fun d => min_diameter < d) (map diameter_of kept)
    /\ pd.get (Image.image_data img) "angle"
       = Some (pd.keep (map large (nth 0 csv [])) (nth 10 csv []))
    /\ forall w', Image.scale_data img w' = pd.Raise pd.AttributeError img.
Proof.
  intros diameter_of large kept Hlen Hrect _.
  exact (Image_init_spec file meta_file units min_diameter pixel roi csv n w
           Hlen Hrect).
Qed.

Lemma Image_init_keeps_large_vesicles_witness :
  exists img,
    Image.init "results.csv" "scale.txt" "micrometers" 3 sample_csv 1 100 []
    = inr (img, [])
    /\ Image.thresholded img = true
    /\ forall w', Image.scale_data img w' = pd.Raise pd.AttributeError img.
Proof.
  destruct (Image_init_keeps_large_vesicles "results.csv" "scale.txt"
              "micrometers" 3 1 100 sample_csv 2 [] eq_refl
              ltac:(repeat constructor) ltac:(lra))
    as (img & Hrun & _ & Hth & _ & _ & _ & _ & _ & _ & _ & _ & _ & _ & _
        & Hscale).
  exists img. split; [exact Hrun |]. split; [exact Hth | exact Hscale].
Defined.

(** ** Thresholding a scan *)

(** X18: [Scan.threshold_data] never thresholds: [load_i3d_data] names
    the columns of the table, none of them ['Volume-equivalent sphere
    diameter'], so on every scan it has loaded [threshold_data] raises
    [KeyError] and leaves the scan as it was, ['thresholded'] included;
    the table holds the eight columns, ['radius'] being half of
    ['diameter']. *)
Theorem Scan_threshold_data_raises (csv : list (list R)) (self : Scan.t) w :
  length csv = 7%nat ->
  exists scan,
    Scan.load_i3d_data csv self = inr scan
    /\ map fst (Scan.i3d_data scan)
       = Scan.column_names ++ ["radius"%string]
    /\ pd.get (Scan.i3d_data scan) "diameter" = Some (nth 5 csv [])
    /\ pd.get (Scan.i3d_data scan) "radius"
       = Some (map (fun d => d / 2) (nth 5 csv []))
    /\ Scan.thresholded scan = Scan.thresholded self
    /\ Scan.threshold_data scan w = pd.Raise pd.KeyError scan.
Proof.
  intros Hlen.
  do 7 (destruct csv as [| ? csv]; [discriminate Hlen |]).
  destruct csv; [| discriminate Hlen].
  eexists. split; [reflexivity |].
  repeat split.
Qed.

Lemma Scan_threshold_data_raises_witness :
  exists scan,
    Scan.load_i3d_data sample_i3d
      (Scan.mk "objects.csv" "report.csv" false false 1 "micrometers" [])
    = inr scan
    /\ Scan.threshold_data scan [] = pd.Raise pd.KeyError scan.
Proof.
  destruct (Scan_threshold_data_raises sample_i3d
              (Scan.mk "objects.csv" "report.csv" false false 1
                       "micrometers" []) [] eq_refl)
    as (scan & Hrun & _ & _ & _ & _ & Hraise).
  exists scan. split; [exact Hrun | exact Hraise].
Defined.

(** ** Adding images to a sample *)

Lemma get_in (V : Type) (d : pd.named V) (key : string) (v : V) :
  pd.get d key = Some v -> In key (map fst d).
Proof.
  induction d as [| [k v'] d IH]; simpl; [discriminate |].
  destruct (String.eqb_spec k key); auto.
Qed.

Lemma in_get (V : Type) (d : pd.named V) (key : string) :
  In key (map fst d) -> exists v, pd.get d key = Some v.
Proof.
  induction d as [| [k v'] d IH]; simpl; [intros [] |].
  destruct (String.eqb_spec k key) as [_ | Hne].
  - intros _. exists v'. reflexivity.
  - intros [Heq | Hin]; [contradiction | apply IH; exact Hin].
Qed.

Lemma get_concat (a b : pd.DataFrame) (name : string) :
  a <> [] ->
  pd.get (pd.concat a b) name
  = match pd.get a name with
    | Some ca => Some (ca ++ match pd.get b name with
                             | Some cb => cb
                             | None => []
                             end)
    | None => None
    end.
Proof.
  intros Hne. unfold pd.concat. destruct a as [| p a]; [congruence |].
  clear Hne. generalize (p :: a). clear p a.
  induction l as [| [k c] l IH]; [reflexivity |]. cbn [map fst snd pd.get].
  destruct (String.eqb_spec k name) as [-> | _]; [reflexivity | exact IH].
Qed.

Lemma fst_concat (a b : pd.DataFrame) :
  a <> [] -> map fst (pd.concat a b) = map fst a.
Proof.
  intros Hne. unfold pd.concat. destruct a as [| p a]; [congruence |].
  rewrite map_map. reflexivity.
Qed.

(** What [add_image] does to a sample whose table is empty or has the
    columns of an image. *)
Lemma add_image_spec (image_id file meta_file units : string)
    (min_diameter pixel roi : R) (csv : list (list R)) (self : Sample.t) w :
  length csv = 13%nat ->
  Sample.image_num self = length (Sample.images self) ->
  Sample.image_data self = []
  \/ map fst (Sample.image_data self)
     = Image.column_names ++ ["radius"%string; "diameter"%string] ->
  exists img self',
    Image.init file meta_file units min_diameter csv pixel roi w
    = inr (img, w)
    /\ Sample.add_image image_id file meta_file units min_diameter csv pixel
         roi self w = pd.Done self' w
    /\ Sample.images self' = Sample.images self ++ [img]
    /\ Sample.image_num self' = length (Sample.images self')
    /\ pd.get (Sample.image_index self') image_id
       = Some (Sample.image_num self)
    /\ nth_error (Sample.images self') (Sample.image_num self) = Some img
    /\ (forall k, k <> image_id ->
          pd.get (Sample.image_index self') k
          = pd.get (Sample.image_index self) k)
    /\ Sample.roi_area self' = Sample.roi_area self + roi
    /\ map fst (Sample.image_data self')
       = Image.column_names ++ ["radius"%string; "diameter"%string]
    /\ (forall name c,
          pd.get (Image.image_data img) name = Some c ->
          pd.get (Sample.image_data self') name
          = Some (match pd.get (Sample.image_data self) name with
                  | Some c0 => c0
                  | None => []
                  end ++ c))
    /\ Sample.vsd self' = Sample.vsd self
    /\ Sample.vsd_num self' = Sample.vsd_num self
    /\ Sample.vsd_index self' = Sample.vsd_index self.
Proof.
  intros Hlen Hinv Hdata.
  do 13 (destruct csv as [| ? csv]; [discriminate Hlen |]).
  destruct csv; [| discriminate Hlen]. clear Hlen.
  pose proof (Image_init_table file meta_file units min_diameter pixel roi
                l l0 l1 l2 l3 l4 l5 l6 l7 l8 l9 l10 l11 w) as Hrun.
  cbv zeta in Hrun.
  match type of Hrun with _ = inr (?i, _) => set (img := i) in * end.
  assert (Hnames : map fst (Image.image_data img)
                   = Image.column_names ++ ["radius"%string; "diameter"%string])
    by reflexivity.
  assert (Hnth : nth_error (Sample.images self ++ [img])
                   (Sample.image_num self) = Some img).
  { rewrite Hinv, nth_error_app2 by lia. rewrite Nat.sub_diag. reflexivity. }
  exists img. eexists. split; [exact Hrun |]. split.
  { unfold Sample.add_image. rewrite Hrun.
    cbn [Sample.set_images Sample.images Sample.image_num
         Sample.set_image_data Sample.set_roi_area].
    rewrite Hnth. reflexivity. }
  cbn [Sample.set_image_num Sample.set_image_index Sample.set_roi_area
       Sample.set_image_data Sample.set_images Sample.images
       Sample.image_num Sample.image_index Sample.roi_area
       Sample.image_data Sample.vsd Sample.vsd_num Sample.vsd_index].
  split; [reflexivity |].
  split; [rewrite length_app, Hinv; simpl; lia |].
  split; [apply get_update_same |].
  split; [exact Hnth |].
  split; [intros k Hk; apply get_update_other; exact Hk |].
  split; [reflexivity |].
  split.
  { destruct Hdata as [-> | Hcols]; [exact Hnames |].
    rewrite fst_concat; [exact Hcols |].
    intros Hnil. rewrite Hnil in Hcols. discriminate Hcols. }
  split; [| repeat split].
  intros name c Hc.
  destruct Hdata as [-> | Hcols]; [exact Hc |].
  rewrite get_concat.
  2:{ intros Hnil. rewrite Hnil in Hcols. discriminate Hcols. }
  destruct (in_get _ (Sample.image_data self) name) as (c0 & Hc0).
  { rewrite Hcols, <- Hnames. apply (get_in _ _ _ _ Hc). }
  rewrite Hc0, Hc. reflexivity.
Qed.

(** X19: [Sample.add_image] on a sample whose table is empty or has the
    columns of an image, and whose [image_num] is [len(images)], returns
    for every table of 13 columns: the image the constructor builds is
    appended, [image_index[image_id]] is its position in [images], the
    reference area grows by that of the image, and every column of the
    sample's table is the old column followed by the column of the
    image; the corrections of the sample are untouched. *)
Theorem Sample_add_image_accumulates (image_id file meta_file units : string)
    (min_diameter pixel roi : R) (csv : list (list R)) (self : Sample.t) w :
  length csv = 13%nat ->
  Sample.image_num self = length (Sample.images self) ->
  Sample.image_data self = []
  \/ map fst (Sample.image_data self)
     = Image.column_names ++ ["radius"%string; "diameter"%string] ->
  exists img self',
    Image.init file meta_file units min_diameter csv pixel roi w
    = inr (img, w)
    /\ Sample.add_image image_id file meta_file units min_diameter csv pixel
         roi self w = pd.Done self' w
    /\ Sample.images self' = Sample.images self ++ [img]
    /\ Sample.image_num self' = length (Sample.images self')
    /\ pd.get (Sample.image_index self') image_id
       = Some (Sample.image_num self)
    /\ nth_error (Sample.images self') (Sample.image_num self) = Some img
    /\ (forall k, k <> image_id ->
          pd.get (Sample.image_index self') k
          = pd.get (Sample.image_index self) k)
    /\ Sample.roi_area self' = Sample.roi_area self + roi
    /\ map fst (Sample.image_data self')
       = Image.column_names ++ ["radius"%string; "diameter"%string]
    /\ (forall name c,
          pd.get (Image.image_data img) name = Some c ->
          pd.get (Sample.image_data self') name
          = Some (match pd.get (Sample.image_data self) name with
                  | Some c0 => c0
                  | None => []
                  end ++ c))
    /\ Sample.vsd self' = Sample.vsd self
    /\ Sample.vsd_num self' = Sample.vsd_num self
    /\ Sample.vsd_index self' = Sample.vsd_index self.
Proof.
  intros Hlen Hinv Hdata.
  exact (add_image_spec image_id file meta_file units min_diameter pixel roi
           csv self w Hlen Hinv Hdata).
Qed.

Lemma Sample_add_image_accumulates_witness :
  exists img self',
    Sample.add_image "image" "results.csv" "scale.txt" "micrometers" 3
      sample_csv 1 100 (Sample.init "basalt") [] = pd.Done self' []
    /\ Sample.images self' = [img]
    /\ Sample.roi_area self' = 0 + 100.
Proof.
  destruct (Sample_add_image_accumulates "image" "results.csv" "scale.txt"
              "micrometers" 3 1 100 sample_csv (Sample.init "basalt") []
              eq_refl eq_refl (or_introl eq_refl))
    as (img & self' & _ & Hrun & Himgs & _ & _ & _ & _ & Hroi & _).
  exists img, self'. split; [exact Hrun |]. split; [exact Himgs | exact Hroi].
Defined.

(** ** Applying a correction to a sample *)

(** X20: a key whose correction failed names the next correction.  On a
    sample with [vsd_num = len(vsd)] and a column of positive
    measurements, [apply_vsd_corr(key1, 'Saltikov', ..., nbins)] with
    more than 12 bins raises [IndexError] after it has recorded [key1];
    a following [apply_vsd_corr(key2, 'Saltikov', ...)] with 1 to 12 bins
    returns, and then [vsd_index[key1] = vsd_index[key2]]: both keys
    give the correction built for [key2]. *)
Theorem Sample_failed_key_names_next_correction (bound : string -> bool)
    (key1 key2 length_type : string) (N1 N2 : nat) (self : Sample.t)
    (vesicles : list R) w :
  Sample.vsd_num self = length (Sample.vsd self) ->
  pd.get (Sample.image_data self) length_type = Some vesicles ->
  measurements vesicles ->
  (12 < N1)%nat -> (0 < N2 <= 12)%nat -> key1 <> key2 ->
  exists s1 s2 w' c,
    Sample.apply_vsd_corr bound key1 "Saltikov" length_type N1 self w
    = pd.Raise (pd.Builtin Py.IndexError) s1
    /\ Sample.vsd s1 = Sample.vsd self
    /\ pd.get (Sample.vsd_index s1) key1 = Some (length (Sample.vsd s1))
    /\ Sample.apply_vsd_corr bound key2 "Saltikov" length_type N2 s1 w
       = pd.Done s2 w'
    /\ Saltikov.init vesicles (Sample.roi_area self) length_type N2 w
       = inr (c, w')
    /\ Sample.vsd s2 = Sample.vsd self ++ [c]
    /\ pd.get (Sample.vsd_index s2) key1 = Some (Sample.vsd_num self)
    /\ pd.get (Sample.vsd_index s2) key2 = Some (Sample.vsd_num self)
    /\ nth_error (Sample.vsd s2) (Sample.vsd_num self) = Some c.
Proof.
  intros Hinv Hcol Hvs H1 H2 Hkeys.
  pose proof (Saltikov_init_beyond_12 vesicles (Sample.roi_area self)
                length_type N1 w Hvs H1) as Hraise.
  destruct (Saltikov_init_upto_12 vesicles (Sample.roi_area self)
              length_type N2 w Hvs H2) as (c & w' & Hrun & _).
  set (s1 := Sample.set_vsd_index self
               (pd.update (Sample.vsd_index self) key1
                  (Sample.vsd_num self))).
  exists s1. eexists _, w', c.
  assert (Hget : stereology.getattr bound "Saltikov"
                 = Some (stereology.Correction Saltikov.init))
    by reflexivity.
  split.
  { unfold Sample.apply_vsd_corr. rewrite Hget. fold s1.
    change (Sample.image_data s1) with (Sample.image_data self).
    change (Sample.roi_area s1) with (Sample.roi_area self).
    rewrite Hcol, Hraise. reflexivity. }
  split; [reflexivity |].
  split.
  { unfold s1. cbn [Sample.set_vsd_index Sample.vsd_index Sample.vsd].
    rewrite get_update_same, Hinv. reflexivity. }
  split.
  { unfold Sample.apply_vsd_corr. rewrite Hget.
    cbn [Sample.set_vsd_index Sample.image_data Sample.roi_area s1].
    rewrite Hcol, Hrun. reflexivity. }
  cbn [Sample.set_vsd_num Sample.set_vsd Sample.set_vsd_index Sample.vsd
       Sample.vsd_num Sample.vsd_index s1].
  split; [exact Hrun |]. split; [reflexivity |].
  split.
  { rewrite get_update_other by exact Hkeys. apply get_update_same. }
  split; [apply get_update_same |].
  rewrite Hinv, nth_error_app2 by lia. rewrite Nat.sub_diag. reflexivity.
Qed.

Lemma Sample_failed_key_names_next_correction_witness :
  exists s1 s2 w',
    Sample.apply_vsd_corr (fun _ => false) "fine" "Saltikov" "diameter" 13
      sample_of_one_image [] = pd.Raise (pd.Builtin Py.IndexError) s1
    /\ Sample.apply_vsd_corr (fun _ => false) "coarse" "Saltikov" "diameter"
         3 s1 [] = pd.Done s2 w'
    /\ pd.get (Sample.vsd_index s2) "fine" = Some 0%nat
    /\ pd.get (Sample.vsd_index s2) "coarse" = Some 0%nat.
Proof.
  destruct (Sample_failed_key_names_next_correction (fun _ => false)
              "fine" "coarse" "diameter" 13 3 sample_of_one_image
              [1; 2; 3; 4; 5] [] eq_refl eq_refl sample_measurements
              ltac:(lia) ltac:(lia) ltac:(discriminate))
    as (s1 & s2 & w' & c & Hraise & _ & _ & Hrun & _ & _ & Hk1 & Hk2 & _).
  exists s1, s2, w'. split; [exact Hraise |]. split; [exact Hrun |].
  split; [exact Hk1 | exact Hk2].
Defined.

(** X21: from a new sample to a correction.  For a table of 13 columns of
    equal length, a threshold [min_diameter >= 0] that some vesicle
    exceeds, and one of the three corrections (for [Saltikov], at most 12
    bins), [add_image] on [Sample(name)] followed by [apply_vsd_corr]
    over ['radius'] or ['diameter'] both return: the correction is built
    from the radii [sqrt(a / pi) * pixel_size], or the diameters, of the
    kept vesicles and the reference area of the image, and it is
    [vsd[vsd_index[key]]]. *)
Theorem Sample_image_then_correction (bound : string -> bool)
    (name image_id file meta_file units key method length_type : string)
    (min_diameter pixel roi : R) (csv : list (list R)) (n N : nat) w :
  let diameter_of := fun a => sqrt (a / PI) * 2 * pixel in
  let large :=
    fun a => if Rlt_dec min_diameter (diameter_of a) then true else false in
  let kept := filter large (nth 0 csv []) in
  let measured :=
    if String.eqb length_type "radius"
    then map (fun a => sqrt (a / PI) * pixel) kept
    else map diameter_of kept in
  length csv = 13%nat -> Forall (fun c => length c = n) csv ->
  0 <= min_diameter -> kept <> [] -> (0 < N)%nat ->
  method = "ChengLemlich"%string \/ method = "SahagianProussevitch"%string
  \/ method = "Saltikov"%string ->
  (method = "Saltikov"%string -> (N <= 12)%nat) ->
  length_type = "radius"%string \/ length_type = "diameter"%string ->
  exists s1 s2 w' c init,
    Sample.add_image image_id file meta_file units min_diameter csv pixel
      roi (Sample.init name) w = pd.Done s1 w
    /\ Sample.apply_vsd_corr bound key method length_type N s1 w
       = pd.Done s2 w'
    /\ stereology.getattr bound method = Some (stereology.Correction init)
    /\ measurements measured
    /\ init measured (0 + roi) length_type N w = inr (c, w')
    /\ Sample.vsd s2 = [c]
    /\ pd.get (Sample.vsd_index s2) key = Some 0%nat
    /\ nth_error (Sample.vsd s2) 0 = Some c.
Proof.
  intros diameter_of large kept measured Hlen Hrect Hmin Hkept HN Hmethod H12
    Htype.
  destruct (Image_init_spec file meta_file units min_diameter pixel roi csv n
              w Hlen Hrect)
    as (img & Hinit & _ & _ & _ & _ & _ & _ & _ & _ & _ & Hrad & Hdia & Hbig
        & _).
  fold diameter_of large kept in Hrad, Hdia, Hbig.
  destruct (add_image_spec image_id file meta_file units min_diameter pixel
              roi csv (Sample.init name) w Hlen eq_refl (or_introl eq_refl))
    as (img' & s1 & Hinit' & Hadd & _ & _ & _ & _ & _ & Hroi & _ & Hcols
        & Hvsd & Hnum & Hidx).
  assert (img' = img) by congruence. subst img'.
  assert (Hcol : pd.get (Sample.image_data s1) length_type = Some measured).
  { unfold measured.
    destruct Htype as [-> | ->]; cbn [String.eqb Ascii.eqb Bool.eqb].
    - rewrite (Hcols _ _ Hrad). reflexivity.
    - rewrite (Hcols _ _ Hdia). reflexivity. }
  assert (Hpos : Forall (fun d => 0 < d) (map diameter_of kept)).
  { rewrite Forall_forall in *. intros d Hd. specialize (Hbig d Hd). lra. }
  assert (Hmeas : measurements measured).
  { unfold measured.
    destruct (String.eqb length_type "radius"); split.
    - destruct kept; [congruence | discriminate].
    - rewrite Forall_forall in *. intros r Hr. apply in_map_iff in Hr.
      destruct Hr as (a & <- & Ha).
      assert (0 < diameter_of a) by (apply Hpos, in_map, Ha).
      unfold diameter_of in *. lra.
    - destruct kept; [congruence | discriminate].
    - exact Hpos. }
  destruct (getattr_correction bound method N Hmethod)
    as (init & Hget & Hok & _ & _).
  destruct (Hok measured (0 + roi) length_type w Hmeas HN H12)
    as (c & w' & Hrun).
  cbn [Sample.init Sample.roi_area Sample.vsd Sample.vsd_num Sample.vsd_index]
    in Hroi, Hvsd, Hnum, Hidx.
  exists s1. eexists _, w', c, init. split; [exact Hadd |]. split.
  { unfold Sample.apply_vsd_corr. rewrite Hget.
    cbn [Sample.set_vsd_index Sample.image_data Sample.roi_area].
    rewrite Hcol, Hroi, Hrun. reflexivity. }
  cbn [Sample.set_vsd_num Sample.set_vsd Sample.set_vsd_index Sample.vsd
       Sample.vsd_num Sample.vsd_index].
  split; [exact Hget |]. split; [exact Hmeas |]. split; [exact Hrun |].
  rewrite Hvsd, Hnum, Hidx.
  split; [reflexivity |]. split; [apply get_update_same | reflexivity].
Qed.

Lemma Sample_image_then_correction_witness :
  exists s1 s2 w',
    Sample.add_image "image" "results.csv" "scale.txt" "micrometers" 0
      sample_csv 1 100 (Sample.init "basalt") [] = pd.Done s1 []
    /\ Sample.apply_vsd_corr (fun _ => false) "first" "ChengLemlich" "radius"
         2 s1 [] = pd.Done s2 w'
    /\ pd.get (Sample.vsd_index s2) "first" = Some 0%nat.
Proof.
  assert (Hpi : 0 < sqrt (PI / PI) * 2 * 1).
  { replace (PI / PI) with 1 by (field; apply PI_neq0).
    rewrite sqrt_1. lra. }
  assert (Hkept : filter (fun a => if Rlt_dec 0 (sqrt (a / PI) * 2 * 1)
                                   then true else false)
                         (nth 0 sample_csv []) <> []).
  { cbn [sample_csv nth filter].
    destruct (Rlt_dec 0 (sqrt (PI / PI) * 2 * 1)); [discriminate | contradiction]. }
  destruct (Sample_image_then_correction (fun _ => false) "basalt" "image"
              "results.csv" "scale.txt" "micrometers" "first" "ChengLemlich"
              "radius" 0 1 100 sample_csv 2 2 [] eq_refl
              ltac:(repeat constructor) ltac:(lra) Hkept ltac:(lia)
              (or_introl eq_refl) ltac:(discriminate) (or_introl eq_refl))
    as (s1 & s2 & w' & c & init & Hadd & Hrun & _ & _ & _ & _ & Hkey & _).
  exists s1, s2, w'. split; [exact Hadd |]. split; [exact Hrun | exact Hkey].
Defined.
